(** * Conevent server: session, profile and notification flows

    A shallow embedding of the Express/Mongoose server code:

    - [utils/jwt.js], [utils/sendToken.js], [models/user.model.js] and
      [controllers/auth.controller.js];
    - the notification subsystem of [docs/NOTIFICATION_SYSTEM.md]
      (notification model, socket handlers, [NotificationService],
      notification routes, application controller, student routes);
    - [utils/googleAuth.js] and the error middleware.

    Conventions.  A MongoDB collection is a finite map from [_id] to the
    stored document.  An [async] handler is a function in the monad [M]
    below: it threads the database and either returns or throws, and the
    writes made before a throw stay.  The functions of bcrypt, jsonwebtoken
    and the JavaScript runtime are the fields of the class [Platform].
    Notifications carry the [createdAt] and [updatedAt] Mongoose keeps; the
    time stamps of accounts and the population of references in query
    results are not represented, and the statements about accounts compare
    the other fields one by one.  A string is ASCII text, one character per
    UTF-16 code unit; where the outcome depends on a length, on [trim], on
    [toLowerCase] or on the white space of a regular expression, the
    statement has [asciiText] among its hypotheses or a bound that is enough
    for any text.  The fields of a request body are strings. *)

From stdpp Require Import base option list strings gmap fin_maps sorting numbers.

Set Default Proof Using "Type".

(** ** Identifiers, errors and the handler monad *)

Abbreviation ObjectId := nat.

(** Values that cross a [throw] or a [next(err)]. [AppError] is the
    operational error of [utils/appError]; the others are raised by
    Mongoose, the MongoDB server, jsonwebtoken and the runtime. *)
Inductive Error :=
| AppError (message : string) (statusCode : nat)
| ValidationError (path : string)
| MongoServerError (message : string)
| JsonWebTokenError (message : string)
| TypeError (message : string)
| JsError (message : string).

Global Instance Error_eq_dec : EqDecision Error.
Proof. solve_decision. Defined.

Definition Result (A : Type) : Type := Error + A.

(** A computation over a store [S]: the final store and the result. *)
Definition M (S A : Type) : Type := S → S * Result A.

Global Instance M_ret {S} : MRet (M S) := λ A a s, (s, inr a).
Global Instance M_bind {S} : MBind (M S) := λ A B f m s,
  match m s with
  | (s', inr a) => f a s'
  | (s', inl e) => (s', inl e)
  end.

Definition throw {S A} (e : Error) : M S A := λ s, (s, inl e).
Definition gets {S A} (f : S → A) : M S A := λ s, (s, inr (f s)).
Definition modify {S} (f : S → S) : M S () := λ s, (f s, inr ()).
Definition lift_result {S A} (r : Result A) : M S A := λ s, (s, r).
Definition try_catch {S A} (body : M S A) (handler : Error → M S A) : M S A :=
  λ s, match body s with
       | (s', inr a) => (s', inr a)
       | (s', inl e) => handler e s'
       end.

(** ** JSON values *)

#[warnings="-register-all"] Inductive Json :=
| JNull
| JBool (b : bool)
| JNum (z : Z)
| JStr (s : string)
| JObj (fields : gmap string Json).

(** A JavaScript object whose own keys are strings. *)
Abbreviation JsObject := (gmap string Json).

(** ** bcrypt, jsonwebtoken and runtime functions *)

Record TokenPayload := {
  tp_id : ObjectId;
  tp_accountType : string;
  tp_role : string;
}.

Class Platform := {
  (** [bcrypt.hash(data, rounds)] *)
  bcrypt_hash : string → nat → string;
  (** [bcrypt.compare(data, hash)] *)
  bcrypt_compare : string → string → bool;
  (** [jwt.sign(payload, secret, { expiresIn })] *)
  jwt_sign : TokenPayload → string → string → string;
  (** [jwt.verify(token, secret)]: the decoded payload, or the error thrown *)
  jwt_verify : string → string → Result TokenPayload;
  (** [parseInt(s)]; [None] is [NaN] *)
  parseInt : string → option Z;
}.

(** ** config/index.config (the fields the code reads) *)

Record Config := {
  env : string;
  jwtSecret : string;
  jwtExpire : string;
  frontendUrl : string;
}.

(** ** utils/jwt.js *)

Module Jwt.
Section jwt.
Context `{Platform} (config : Config).

Definition generateToken (payload : TokenPayload) : string :=
  jwt_sign payload (jwtSecret config) (jwtExpire config).

(** [try { return jwt.verify(token, config.jwtSecret) } catch (error)
    { return null }]; the result [None] is [null]. *)
Definition verifyToken {S} (token : string) : M S (option TokenPayload) :=
  try_catch
    (decoded ← lift_result (jwt_verify token (jwtSecret config));
     mret (Some decoded))
    (λ _, mret None).

End jwt.
End Jwt.

(** ** models/user.model.js *)

Module UserModel.

Record User := {
  email : string;
  passwordHash : option string;
  googleId : option string;
  name : string;
  bio : string;
  role : string;
  isActive : bool;
  __v : nat;
}.

Global Instance User_eq_dec : EqDecision User.
Proof. solve_decision. Defined.

(** A hydrated document: its [_id], the current field values and the paths
    assigned since it was loaded ([isModified]). *)
Record Document := {
  _id : ObjectId;
  fields : User;
  modifiedPaths : list string;
}.

Definition isModified (path : string) (doc : Document) : bool :=
  bool_decide (path ∈ modifiedPaths doc).

(** [String.prototype.trim], which the schema option [trim: true] applies
    to an assigned value. *)
Fixpoint trimStart (s : string) : string :=
  match s with
  | String c s' => if Ascii.is_space c then trimStart s' else s
  | EmptyString => EmptyString
  end.

Definition trim (s : string) : string :=
  String.rev (trimStart (String.rev (trimStart s))).

(** Text of ASCII characters only.  On such text the length of the string
    below is the [length] of JavaScript, and [trim], [toLowerCase] and the
    white space of regular expressions are the ones modelled here. *)
Fixpoint asciiText (s : string) : bool :=
  match s with
  | String c s' => bool_decide (Ascii.nat_of_ascii c < 128) && asciiText s'
  | EmptyString => true
  end.

(** [String.prototype.toLowerCase] on ASCII letters, the setter of the
    schema option [lowercase: true]. *)
Definition lowerChar (c : Ascii.ascii) : Ascii.ascii :=
  let n := Ascii.nat_of_ascii c in
  if decide (65 ≤ n ∧ n ≤ 90) then Ascii.ascii_of_nat (n + 32) else c.

Fixpoint toLowerCase (s : string) : string :=
  match s with
  | String c s' => String (lowerChar c) (toLowerCase s')
  | EmptyString => EmptyString
  end.

(** [doc.name = v] and [doc.bio = v]: the setter runs, and the path is
    marked modified when the value changes. *)
Definition set_name (v : string) (doc : Document) : Document :=
  let v' := trim v in
  if decide (v' = name (fields doc)) then doc else
  let u := fields doc in
  {| _id := _id doc;
     fields := {| email := email u; passwordHash := passwordHash u;
                  googleId := googleId u; name := v'; bio := bio u;
                  role := role u; isActive := isActive u; __v := __v u |};
     modifiedPaths := "name" :: modifiedPaths doc |}.

Definition set_bio (v : string) (doc : Document) : Document :=
  if decide (v = bio (fields doc)) then doc else
  let u := fields doc in
  {| _id := _id doc;
     fields := {| email := email u; passwordHash := passwordHash u;
                  googleId := googleId u; name := name u; bio := v;
                  role := role u; isActive := isActive u; __v := __v u |};
     modifiedPaths := "bio" :: modifiedPaths doc |}.

Definition set_passwordHash (v : option string) (doc : Document) : Document :=
  let u := fields doc in
  {| _id := _id doc;
     fields := {| email := email u; passwordHash := v;
                  googleId := googleId u; name := name u; bio := bio u;
                  role := role u; isActive := isActive u; __v := __v u |};
     modifiedPaths := modifiedPaths doc |}.

(** The validators of the schema, run by [save] on the modified paths. *)
Definition validatePath (u : User) (path : string) : Result () :=
  if decide (path = "name") then
    if decide (name u = "") then inl (ValidationError "name")
    else if decide (String.length (name u) < 2) then inl (ValidationError "name")
    else if decide (100 < String.length (name u)) then inl (ValidationError "name")
    else inr ()
  else if decide (path = "bio") then
    if decide (500 < String.length (bio u)) then inl (ValidationError "bio")
    else inr ()
  else if decide (path = "passwordHash") then
    match passwordHash u with
    | Some h => if decide (String.length h < 6)
                then inl (ValidationError "passwordHash") else inr ()
    | None => inr ()
    end
  else if decide (path = "role") then
    if decide (role u = "user" ∨ role u = "admin") then inr ()
    else inl (ValidationError "role")
  else inr ().

Fixpoint validatePaths (u : User) (paths : list string) : Result () :=
  match paths with
  | [] => inr ()
  | p :: ps => match validatePath u p with
               | inr _ => validatePaths u ps
               | inl e => inl e
               end
  end.

(** The value a modified path has in the document is written over the
    stored one ([$set] of the modified paths only). *)
Definition writePath (src : User) (path : string) (dst : User) : User :=
  {| email := if decide (path = "email") then email src else email dst;
     passwordHash :=
       if decide (path = "passwordHash") then passwordHash src
       else passwordHash dst;
     googleId := if decide (path = "googleId") then googleId src else googleId dst;
     name := if decide (path = "name") then name src else name dst;
     bio := if decide (path = "bio") then bio src else bio dst;
     role := if decide (path = "role") then role src else role dst;
     isActive := if decide (path = "isActive") then isActive src else isActive dst;
     __v := __v dst |}.

Section methods.
Context `{Platform}.

(** [userSchema.pre('save', ...)]: hash the password when it was assigned. *)
Definition preSave (doc : Document) : Document :=
  if negb (isModified "passwordHash" doc) then doc else
  match passwordHash (fields doc) with
  | None | Some "" => doc
  | Some p => set_passwordHash (Some (bcrypt_hash p 10)) doc
  end.

(** [doc.save()] of a loaded document: validation, the pre-save hook, then
    the update of the stored document. *)
Definition save (doc : Document) : M (gmap ObjectId User) Document :=
  _ ← lift_result (validatePaths (fields doc) (modifiedPaths doc));
  let doc' := preSave doc in
  _ ← modify (alter (λ stored,
         foldr (writePath (fields doc')) stored (modifiedPaths doc')) (_id doc'));
  mret {| _id := _id doc'; fields := fields doc'; modifiedPaths := [] |}.

(** [userSchema.methods.verifyPassword]; the callers have checked that a
    hash is stored. *)
Definition verifyPassword (doc : Document) (password : string) : bool :=
  match passwordHash (fields doc) with
  | Some h => bcrypt_compare password h
  | None => false
  end.

End methods.

(** [this.toObject()]: the plain object of the document's paths; a path
    that is not set has no key. *)
Definition toObject (doc : Document) : JsObject :=
  let u := fields doc in
  let set_opt (k : string) (v : option string) (o : JsObject) : JsObject :=
    match v with Some s => <[k := JStr s]> o | None => o end in
  set_opt "passwordHash" (passwordHash u) $
  set_opt "googleId" (googleId u) $
  <["_id" := JNum (Z.of_nat (_id doc))]> $
  <["email" := JStr (email u)]> $
  <["name" := JStr (name u)]> $
  <["bio" := JStr (bio u)]> $
  <["role" := JStr (role u)]> $
  <["isActive" := JBool (isActive u)]> $
  <["__v" := JNum (Z.of_nat (__v u))]> ∅.

(** [userSchema.methods.toJSON] *)
Definition toJSON (doc : Document) : JsObject :=
  let obj := toObject doc in
  let obj := delete "passwordHash" obj in
  let obj := delete "__v" obj in
  obj.

Definition isAdmin (doc : Document) : bool :=
  bool_decide (role (fields doc) = "admin").

(** [User.findById] and [User.findOne({ email })] *)
Definition findById (id : ObjectId) (users : gmap ObjectId User) : option Document :=
  u ← users !! id;
  Some {| _id := id; fields := u; modifiedPaths := [] |}.

(** The account that stores the address [e], as the index on [email] finds
    it. *)
Definition withEmail (e : string) (users : gmap ObjectId User) : option Document :=
  '(id, u) ← head (filter (λ kv, email kv.2 = e) (map_to_list users));
  Some {| _id := id; fields := u; modifiedPaths := [] |}.

(** [User.findOne({ email })]: Mongoose casts the filter with the schema, so
    the setters [lowercase] and [trim] run on the address before the stored
    ones are compared with it. *)
Definition findOne_email (e : string) (users : gmap ObjectId User) : option Document :=
  withEmail (toLowerCase (trim e)) users.

End UserModel.

(** ** Express requests and responses *)

Module Express.

Record CookieOptions := {
  httpOnly : bool;
  maxAge : Z;          (* milliseconds *)
  secure : bool;
  sameSite : string;
}.

Record Response := {
  statusCode : nat;
  cookies : list (string * string * CookieOptions);
  clearedCookies : list string;
  body : option Json;
  location : option string;
}.

Definition freshResponse : Response :=
  {| statusCode := 200; cookies := []; clearedCookies := [];
     body := None; location := None |}.

(** [res.cookie(name, value, options)] appends one [Set-Cookie] header. *)
Definition res_cookie (k v : string) (o : CookieOptions) (res : Response) : Response :=
  {| statusCode := statusCode res; cookies := cookies res ++ [(k, v, o)];
     clearedCookies := clearedCookies res; body := body res;
     location := location res |}.

Definition res_status (code : nat) (res : Response) : Response :=
  {| statusCode := code; cookies := cookies res;
     clearedCookies := clearedCookies res; body := body res;
     location := location res |}.

Definition res_json (v : Json) (res : Response) : Response :=
  {| statusCode := statusCode res; cookies := cookies res;
     clearedCookies := clearedCookies res; body := Some v;
     location := location res |}.

(** The request: a JSON body and a query string with string-valued
    fields, the cookies, and [req.user] once a middleware has set it. *)
Record Request := {
  req_body : gmap string string;
  req_query : gmap string string;
  req_params : gmap string string;
  req_cookies : gmap string string;
  req_user : option UserModel.Document;
}.

Definition with_user (u : UserModel.Document) (req : Request) : Request :=
  {| req_body := req_body req; req_query := req_query req;
     req_params := req_params req; req_cookies := req_cookies req;
     req_user := Some u |}.

Definition with_cookie (k v : string) (req : Request) : Request :=
  {| req_body := req_body req; req_query := req_query req;
     req_params := req_params req; req_cookies := <[k := v]> (req_cookies req);
     req_user := req_user req |}.

(** The value of [!v] for a field that is absent or a string. *)
Definition falsy (v : option string) : bool :=
  match v with
  | None | Some "" => true
  | Some _ => false
  end.

End Express.

(** ** utils/sendToken.js *)

Module SendToken.
Import Express.
Section sendToken.
Context `{Platform} (config : Config).

(** The options object of the cookie. *)
Definition cookieOptions : CookieOptions :=
  {| httpOnly := true;
     maxAge := 7 * 24 * 60 * 60 * 1000;   (* 7 days *)
     secure := bool_decide (env config = "production");
     sameSite := "lax" |}.

Definition sendTokenCookie (res : Response) (tokenPayload : TokenPayload)
    : Response * string :=
  let token := Jwt.generateToken config tokenPayload in
  (res_cookie "token" token cookieOptions res, token).

(** [res.json] serialises the document through its [toJSON] method. *)
Definition sendUserResponse (res : Response) (user : UserModel.Document)
    (statusCode : nat) : Response :=
  let res := (sendTokenCookie res
       {| tp_id := UserModel._id user;
          tp_accountType := "user";
          tp_role := UserModel.role (UserModel.fields user) |}).1 in
  res_json (JObj (<["success" := JBool true]> $
                  <["user" := JObj (UserModel.toJSON user)]> ∅))
           (res_status statusCode res).

End sendToken.
End SendToken.

(** ** middleware/auth.middleware.js *)

Module AuthMiddleware.
Import Express.
Section auth.
Context `{Platform} (config : Config).
(** The state of the server and its collection of accounts. *)
Context {S : Type} (users : S → gmap ObjectId UserModel.User).

(** Modelled from the spec: [middleware/auth.middleware.js] is not among
    the sources.  The session token is verified with [verifyToken]; a
    missing, malformed or expired token, or one whose account is gone,
    yields Unauthenticated (status 401) and the route handler is not run;
    otherwise the identity is attached to the request. *)
Definition auth (req : Request) : M S Request :=
  match req_cookies req !! "token" with
  | None => throw (AppError "Unauthenticated" 401)
  | Some token =>
      decoded ← Jwt.verifyToken config token;
      match decoded with
      | None => throw (AppError "Unauthenticated" 401)
      | Some payload =>
          user ← gets (λ s, UserModel.findById (tp_id payload) (users s));
          match user with
          | None => throw (AppError "Unauthenticated" 401)
          | Some u => mret (with_user u req)
          end
      end
  end.

(** [router.METHOD(path, auth, handler)] *)
Definition protected (handler : Request → Response → M S Response)
    (req : Request) (res : Response) : M S Response :=
  req' ← auth req;
  handler req' res.

End auth.
End AuthMiddleware.

(** ** controllers/auth.controller.js *)

Module AuthController.
Import Express UserModel.
Section controller.
Context `{Platform} (config : Config).

(** [exports.login]; [catchAsync] turns a throw into [next(err)], so both
    are the error result. *)
Definition login (req : Request) (res : Response)
    : M (gmap ObjectId User) Response :=
  let email := req_body req !! "email" in
  let password := req_body req !! "password" in
  if falsy email || falsy password then
    throw (AppError "Please provide email and password" 400)
  else
    user ← gets (findOne_email (default "" email));
    match user with
    | None => throw (AppError "Invalid credentials" 401)
    | Some user =>
        if falsy (passwordHash (fields user)) then
          throw (AppError "Invalid credentials" 401)
        else if negb (isActive (fields user)) then
          throw (AppError "Account is deactivated" 401)
        else
          let isValid := verifyPassword user (default "" password) in
          if negb isValid then throw (AppError "Invalid credentials" 401)
          else mret (SendToken.sendUserResponse config res user 200)
    end.

(** [exports.updateProfile] *)
Definition updateProfile (req : Request) (res : Response)
    : M (gmap ObjectId User) Response :=
  let name := req_body req !! "name" in
  let bio := req_body req !! "bio" in
  match req_user req with
  | None => throw (TypeError "Cannot read properties of undefined")
  | Some caller =>
      user ← gets (findById (_id caller));
      match user with
      | None => throw (AppError "User not found" 404)
      | Some user =>
          let user := if falsy name then user
                      else set_name (default "" name) user in
          let user := match bio with
                      | Some b => set_bio b user
                      | None => user
                      end in
          user ← save user;
          mret (res_json (JObj (<["success" := JBool true]> $
                                <["user" := JObj (toJSON user)]> ∅)) res)
      end
  end.

End controller.
End AuthController.

(** ** The notification subsystem: documents *)

Module Notification.

Record Data := {
  eventId : option ObjectId;
  applicationId : option ObjectId;
  universityId : option ObjectId;
  studentId : option ObjectId;
}.

Record t := {
  recipientId : ObjectId;
  recipientType : string;
  type : string;
  title : string;
  message : string;
  data : Data;
  isRead : bool;
  (** [timestamps: true]: both are kept by Mongoose *)
  createdAt : nat;
  updatedAt : nat;
}.

Global Instance Data_eq_dec : EqDecision Data.
Proof. solve_decision. Defined.
Global Instance t_eq_dec : EqDecision t.
Proof. solve_decision. Defined.

(** The update [{ isRead: true }] on a matched document, sent at the time
    [now]: for a schema with [timestamps] Mongoose adds [updatedAt] to the
    [$set] of every update. *)
Definition set_isRead (now : nat) (n : t) : t :=
  {| recipientId := recipientId n; recipientType := recipientType n;
     type := type n; title := title n; message := message n;
     data := data n; isRead := true; createdAt := createdAt n;
     updatedAt := now |}.

(** The schema: [required], [enum] and [maxlength] validators. *)
Definition validate (n : t) : Result () :=
  if negb (bool_decide (recipientType n ∈ ["Student"; "University"])) then
    inl (ValidationError "recipientType")
  else if negb (bool_decide (type n ∈ ["new_event"; "new_application";
                   "application_accepted"; "application_rejected"])) then
    inl (ValidationError "type")
  else if bool_decide (title n = "") || bool_decide (200 < String.length (title n)) then
    inl (ValidationError "title")
  else if bool_decide (message n = "") || bool_decide (500 < String.length (message n)) then
    inl (ValidationError "message")
  else inr ().

End Notification.

Module Student.
Record t := {
  name : string;
  interestedUniversities : list ObjectId;
}.
End Student.

Module University.
Record t := { name : string }.
End University.

Module Event.
Record t := {
  title : string;
  universityId : ObjectId;
}.
End Event.

Module Application.
Record t := {
  eventId : ObjectId;
  studentId : ObjectId;
  status : string;
}.

Definition set_status (s : string) (a : t) : t :=
  {| eventId := eventId a; studentId := studentId a; status := s |}.

(** Modelled from the spec: [models/application.model.js] is not among the
    sources.  The status of an application is one of pending, accepted
    and rejected, checked by an enum validator when the document is
    saved. *)
Definition validate (a : t) : Result () :=
  if bool_decide (status a ∈ ["pending"; "accepted"; "rejected"]) then inr ()
  else inl (ValidationError "status").
End Application.

(** ** The server state: collections and the socket layer *)

Inductive Room :=
| UserRoom (userId : ObjectId)
| RoleRoom (role : string).

Record Socket := {
  socket_id : string;
  socket_userId : ObjectId;
  socket_userType : string;
}.

Record State := {
  students : gmap ObjectId Student.t;
  applications : gmap ObjectId Application.t;
  events : gmap ObjectId Event.t;
  notifications : gmap ObjectId Notification.t;
  (** [Date.now()] *)
  now : nat;
  (** the [connectedUsers] map and the rooms of socket.io *)
  connectedUsers : gmap ObjectId string;
  rooms : list (Room * string);
  (** what [io.to(room).emit('notification:new', n)] has sent *)
  emitted : list (Room * (ObjectId * Notification.t));
}.

Definition with_notifications
    (f : gmap ObjectId Notification.t → gmap ObjectId Notification.t)
    (st : State) : State :=
  {| students := students st; applications := applications st;
     events := events st; notifications := f (notifications st);
     now := now st; connectedUsers := connectedUsers st;
     rooms := rooms st; emitted := emitted st |}.

(** The state when the clock reads [t]. *)
Definition at_time (t : nat) (st : State) : State :=
  {| students := students st; applications := applications st;
     events := events st; notifications := notifications st;
     now := t; connectedUsers := connectedUsers st;
     rooms := rooms st; emitted := emitted st |}.

Definition with_applications
    (f : gmap ObjectId Application.t → gmap ObjectId Application.t)
    (st : State) : State :=
  {| students := students st; applications := f (applications st);
     events := events st; notifications := notifications st;
     now := now st; connectedUsers := connectedUsers st;
     rooms := rooms st; emitted := emitted st |}.

Definition with_sockets (f : gmap ObjectId string → gmap ObjectId string)
    (g : list (Room * string) → list (Room * string)) (st : State) : State :=
  {| students := students st; applications := applications st;
     events := events st; notifications := notifications st;
     now := now st; connectedUsers := f (connectedUsers st);
     rooms := g (rooms st); emitted := emitted st |}.

(** [io.to(room).emit('notification:new', payload)] *)
Definition emit (room : Room) (payload : ObjectId * Notification.t) : M State () :=
  modify (λ st,
    {| students := students st; applications := applications st;
       events := events st; notifications := notifications st;
       now := now st; connectedUsers := connectedUsers st;
       rooms := rooms st; emitted := emitted st ++ [(room, payload)] |}).

(** [Promise.all]: every promise runs; the result is the list of values,
    or the first rejection. *)
Fixpoint Promise_all {S A} (ps : list (M S A)) : M S (list A) :=
  match ps with
  | [] => mret []
  | p :: ps' => λ s,
      let '(s1, r) := p s in
      let '(s2, rs) := Promise_all ps' s1 in
      (s2, match r, rs with
           | inr a, inr l => inr (a :: l)
           | inl e, _ => inl e
           | inr _, inl e => inl e
           end)
  end.

(** ** Mongoose operations on the notification collection *)

Module NotificationModel.
Import Notification.

(** The fields a caller of [Notification.create] supplies besides the
    recipient: [{ type, title, message, data }]. *)
Record Input := {
  in_type : string;
  in_title : string;
  in_message : string;
  in_data : Data;
}.

(** [Notification.create({ recipientId, recipientType, ...notificationData })]:
    [isRead] takes its default, the document is validated and inserted
    under a new [_id]. *)
Definition document (recipientId : ObjectId) (recipientType : string)
    (notificationData : Input) (createdAt : nat) : t :=
  {| recipientId := recipientId; recipientType := recipientType;
     type := in_type notificationData;
     title := in_title notificationData;
     message := in_message notificationData;
     data := in_data notificationData;
     isRead := false; createdAt := createdAt; updatedAt := createdAt |}.

Definition create (recipientId : ObjectId) (recipientType : string)
    (notificationData : Input) : M State (ObjectId * t) :=
  λ st,
    let doc := document recipientId recipientType notificationData (now st) in
    match validate doc with
    | inl e => (st, inl e)
    | inr _ =>
        let id := fresh (dom (notifications st)) in
        (with_notifications (insert id doc) st, inr (id, doc))
    end.

(** [Notification.findByIdAndUpdate(id, { isRead: true })] *)
Definition findByIdAndUpdate_read (id : ObjectId) : M State () :=
  modify (λ st, with_notifications (alter (set_isRead (now st)) id) st).

(** [Notification.findOneAndUpdate({ _id, recipientId }, { isRead: true },
    { new: true })]: the updated document, or [null]. *)
Definition findOneAndUpdate_read (id recipient : ObjectId) : M State (option t) :=
  λ st,
    match notifications st !! id with
    | Some n =>
        if decide (recipientId n = recipient) then
          (with_notifications (insert id (set_isRead (now st) n)) st,
           inr (Some (set_isRead (now st) n)))
        else (st, inr None)
    | None => (st, inr None)
    end.

(** [Notification.updateMany({ recipientId, isRead: false }, { isRead: true })]:
    [readAll] is the effect on one document. *)
Definition readAll (now : nat) (recipient : ObjectId) (n : t) : t :=
  if decide (recipientId n = recipient ∧ isRead n = false)
  then set_isRead now n else n.

Definition updateMany_read (recipient : ObjectId) : M State () :=
  modify (λ st, with_notifications (fmap (readAll (now st) recipient)) st).

(** [Notification.findOneAndDelete({ _id, recipientId })] *)
Definition findOneAndDelete (id recipient : ObjectId) : M State () :=
  modify (with_notifications (λ m,
    match m !! id with
    | Some n => if decide (recipientId n = recipient) then delete id m else m
    | None => m
    end)).

(** The queries of the listing: [{ recipientId }] with [isRead: false]
    added when [unreadOnly]. *)
Definition matches (recipient : ObjectId) (unreadOnly : bool) (n : t) : bool :=
  bool_decide (recipientId n = recipient) && (negb unreadOnly || negb (isRead n)).

Definition countDocuments (q : t → bool) (m : gmap ObjectId t) : nat :=
  size (filter (λ kv, q kv.2 = true) m).

End NotificationModel.

(** ** config/socket.config.js *)

Module SocketConfig.
Section socket.
Context `{Platform} (config : Config).

(** The authentication middleware [io.use(...)]: the socket with
    [userId] and [userType] set, or the error given to [next]. *)
Definition authenticate (sid : string) (token : option string) : Result Socket :=
  match token with
  | None | Some "" => inl (JsError "Authentication token required")
  | Some token =>
      match jwt_verify token (jwtSecret config) with
      | inr decoded =>
          inr {| socket_id := sid; socket_userId := tp_id decoded;
                 socket_userType := tp_role decoded |}
      | inl _ => inl (JsError "Invalid token")
      end
  end.

(** [io.on('connection', ...)]: the registration part. *)
Definition onConnection (socket : Socket) : M State () :=
  modify (with_sockets
    (insert (socket_userId socket) (socket_id socket))
    (λ r, r ++ [(UserRoom (socket_userId socket), socket_id socket);
                (RoleRoom (socket_userType socket), socket_id socket)])).

Definition onDisconnect (socket : Socket) : M State () :=
  modify (with_sockets
    (delete (socket_userId socket))
    (filter (λ r, r.2 ≠ socket_id socket))).

(** [socket.on('notification:read', async (notificationId) => ...)] *)
Definition onNotificationRead (socket : Socket) (notificationId : ObjectId)
    : M State () :=
  try_catch
    (NotificationModel.findByIdAndUpdate_read notificationId)
    (λ _, mret ()).

(** [socket.on('notifications:readAll', async () => ...)] *)
Definition onNotificationsReadAll (socket : Socket) : M State () :=
  try_catch
    (NotificationModel.updateMany_read (socket_userId socket))
    (λ _, mret ()).

End socket.
End SocketConfig.

(** ** services/notification.service.js *)

Module NotificationService.
Import NotificationModel.

Definition dquote : string := String (Ascii.ascii_of_nat 34) EmptyString.

Definition sendToUser (recipientId : ObjectId) (recipientType : string)
    (notificationData : Input) : M State (ObjectId * Notification.t) :=
  notification ← create recipientId recipientType notificationData;
  _ ← emit (UserRoom recipientId) notification;
  mret notification.

Definition sendToMultipleUsers (recipientIds : list ObjectId)
    (recipientType : string) (notificationData : Input)
    : M State (list (ObjectId * Notification.t)) :=
  notifications ← Promise_all
    ((λ recipientId, create recipientId recipientType notificationData)
       <$> recipientIds);
  _ ← foldr (λ '(recipientId, notification) rest,
               _ ← emit (UserRoom recipientId) notification; rest)
            (mret ()) (zip recipientIds notifications);
  mret notifications.

(** [Student.find({ interestedUniversities: id }).select('_id')] *)
Definition interestedStudents (university : ObjectId)
    (m : gmap ObjectId Student.t) : list ObjectId :=
  (map_to_list (filter
     (λ kv, university ∈ Student.interestedUniversities kv.2) m)).*1.

Definition newEventInput (event : ObjectId * Event.t)
    (university : ObjectId * University.t) : Input :=
  {| in_type := "new_event";
     in_title := "New Event Available";
     in_message := University.name university.2 +:+ " has posted a new event: "
                   +:+ dquote +:+ Event.title event.2 +:+ dquote;
     in_data := {| Notification.eventId := Some event.1;
                   Notification.applicationId := None;
                   Notification.universityId := Some university.1;
                   Notification.studentId := None |} |}.

Definition notifyNewEvent (event : ObjectId * Event.t)
    (university : ObjectId * University.t)
    : M State (list (ObjectId * Notification.t)) :=
  interested ← gets (λ st, interestedStudents university.1 (students st));
  if decide (length interested = 0) then mret []
  else
    let studentIds := interested in
    sendToMultipleUsers studentIds "Student" (newEventInput event university).

Definition notifyNewApplication (application : ObjectId * Application.t)
    (student : ObjectId * Student.t) (event : ObjectId * Event.t)
    : M State (ObjectId * Notification.t) :=
  sendToUser (Event.universityId event.2) "University"
    {| in_type := "new_application";
       in_title := "New Application Received";
       in_message := Student.name student.2 +:+ " has applied to your event: "
                     +:+ dquote +:+ Event.title event.2 +:+ dquote;
       in_data := {| Notification.eventId := Some event.1;
                     Notification.applicationId := Some application.1;
                     Notification.universityId := None;
                     Notification.studentId := Some student.1 |} |}.

Definition statusMessages : gmap string string :=
  <["accepted" := "Congratulations! Your application has been accepted"]> $
  <["rejected" := "Your application has been reviewed"]> ∅.

(** [event] is what [Event.findById] gave, [None] being [null]: reading
    [event.title] of [null] throws. *)
Definition notifyApplicationStatus (application : ObjectId * Application.t)
    (event : option (ObjectId * Event.t)) (status : string)
    : M State (ObjectId * Notification.t) :=
  match event with
  | None => throw (TypeError "Cannot read properties of null")
  | Some event =>
      sendToUser (Application.studentId application.2) "Student"
        {| in_type := "application_" +:+ status;
           in_title := if decide (status = "accepted")
                       then "Application Accepted" else "Application Update";
           in_message := default "undefined" (statusMessages !! status)
                         +:+ " for " +:+ dquote +:+ Event.title event.2 +:+ dquote;
           in_data := {| Notification.eventId := Some event.1;
                         Notification.applicationId := Some application.1;
                         Notification.universityId := None;
                         Notification.studentId := None |} |}
  end.

Record Options := {
  opt_page : option Z;
  opt_limit : option Z;
  opt_unreadOnly : option bool;
}.

Record Pagination := {
  page : Z;
  limit : Z;
  total : nat;
  (** [None] when the quotient is not finite *)
  pages : option Z;
}.

Record Listing := {
  listed : list (ObjectId * Notification.t);
  pagination : Pagination;
  unreadCount : nat;
}.

(** [Math.ceil(a / b)] *)
Definition Math_ceil_div (a b : Z) : option Z :=
  if decide (b = 0)%Z then None else Some (- ((- a) `div` b))%Z.

(** The order of [sort({ createdAt: -1 })]. *)
Definition newerFirst (a b : ObjectId * Notification.t) : Prop :=
  Notification.createdAt b.2 ≤ Notification.createdAt a.2.

Global Instance newerFirst_dec : RelDecision newerFirst.
Proof. intros a b. unfold newerFirst. apply _. Defined.

(** [find(query).sort({ createdAt: -1 }).skip(n).limit(l)]: the server
    refuses a negative skip; a limit of 0 is no limit and a negative limit
    counts as its absolute value. *)
Definition findPage (q : Notification.t → bool) (skip limit : Z)
    (m : gmap ObjectId Notification.t) : Result (list (ObjectId * Notification.t)) :=
  if decide (skip < 0)%Z then inl (MongoServerError "skip must be non-negative")
  else
    let sorted := merge_sort newerFirst
          (map_to_list (filter (λ kv, q kv.2 = true) m)) in
    let skipped := drop (Z.to_nat skip) sorted in
    inr (if decide (limit = 0)%Z then skipped
         else take (Z.to_nat (Z.abs limit)) skipped).

Definition getUserNotifications (userId : ObjectId) (options : Options)
    : M State Listing :=
  let page := default 1%Z (opt_page options) in
  let limit := default 20%Z (opt_limit options) in
  let unreadOnly := default false (opt_unreadOnly options) in
  let query := matches userId unreadOnly in
  st ← gets id;
  docs ← lift_result
    (findPage query ((page - 1) * limit) limit (notifications st));
  let total := countDocuments query (notifications st) in
  let unreadCount := countDocuments (matches userId true) (notifications st) in
  mret {| listed := docs;
          pagination := {| page := page; limit := limit; total := total;
                           pages := Math_ceil_div (Z.of_nat total) limit |};
          unreadCount := unreadCount |}.

End NotificationService.

(** ** routes/notification.routes.js *)

Module NotificationRoutes.
Import NotificationModel NotificationService.
Section routes.
Context `{Platform}.

(** [parseInt(s) || d]: [NaN] and [0] give [d]. *)
Definition parseInt_or (s : option string) (d : Z) : Z :=
  match s ≫= parseInt with
  | Some n => if decide (n = 0)%Z then d else n
  | None => d
  end.

(** [GET /]: [user] is [req.user._id], [query] is [req.query]. *)
Definition getNotifications (user : ObjectId) (query : gmap string string)
    : M State Listing :=
  getUserNotifications user
    {| opt_page := Some (parseInt_or (query !! "page") 1);
       opt_limit := Some (parseInt_or (query !! "limit") 20);
       opt_unreadOnly := Some (bool_decide (query !! "unreadOnly" = Some "true")) |}.

(** [PATCH /:id/read] *)
Definition markRead (user : ObjectId) (id : ObjectId)
    : M State (option Notification.t) :=
  findOneAndUpdate_read id user.

(** [PATCH /read-all] *)
Definition markAllRead (user : ObjectId) : M State () :=
  updateMany_read user.

(** [GET /unread-count] *)
Definition getUnreadCount (user : ObjectId) : M State nat :=
  gets (λ st, countDocuments (matches user true) (notifications st)).

(** [DELETE /:id] *)
Definition deleteNotification (user : ObjectId) (id : ObjectId) : M State () :=
  findOneAndDelete id user.

End routes.
End NotificationRoutes.

(** ** controllers/application.controller.js *)

Module ApplicationController.

(** [application.save()] after [application.status = status]: validation,
    then the update of the stored document. *)
Definition save (application : ObjectId * Application.t) : M State () :=
  _ ← lift_result (Application.validate application.2);
  modify (with_applications (alter (λ _, application.2) application.1)).

(** [exports.updateApplicationStatus]: [id] is [req.params.id] and
    [status] is [req.body.status]; the result is the application of the
    response. *)
Definition updateApplicationStatus (id : ObjectId) (status : string)
    : M State (ObjectId * Application.t) :=
  found ← gets (λ st, applications st !! id);
  match found with
  | None => throw (AppError "Application not found" 404)
  | Some application =>
      event ← gets (λ st,
        (λ e, (Application.eventId application, e))
          <$> events st !! Application.eventId application);
      let application := (id, Application.set_status status application) in
      _ ← save application;
      _ ← (if decide (status = "accepted" ∨ status = "rejected") then
             _ ← NotificationService.notifyApplicationStatus
                   application event status;
             mret ()
           else mret ());
      mret application
  end.

End ApplicationController.

(** ** models/user.model.js: creating an account *)

Module UserSchema.
Import UserModel.

Definition atSign : Ascii.ascii := Ascii.ascii_of_nat 64.
Definition dot : Ascii.ascii := Ascii.ascii_of_nat 46.

(** The character class [[^\s@]]. *)
Definition emailChar (c : Ascii.ascii) : bool :=
  negb (Ascii.is_space c) && negb (bool_decide (c = atSign)).

Fixpoint allEmailChars (s : string) : bool :=
  match s with
  | String c s' => emailChar c && allEmailChars s'
  | EmptyString => true
  end.

(** [[^\s@]+\.[^\s@]+] against the whole of [s]; [seen] tells that a
    character of the first group has been read. *)
Fixpoint domainOk (seen : bool) (s : string) : bool :=
  match s with
  | String c s' =>
      emailChar c &&
      (bool_decide (c = dot) && seen && negb (bool_decide (s' = ""))
         && allEmailChars s'
       || domainOk true s')
  | EmptyString => false
  end.

(** The validator of [email]: [/^[^\s@]+@[^\s@]+\.[^\s@]+$/.test(email)]. *)
Fixpoint localOk (seen : bool) (s : string) : bool :=
  match s with
  | String c s' =>
      if bool_decide (c = atSign) then seen && domainOk false s'
      else negb (Ascii.is_space c) && localOk true s'
  | EmptyString => false
  end.

Definition validEmail (s : string) : bool := localOk false s.

(** The validators of a new document: all paths are checked. *)
Definition validateNew (u : User) : Result () :=
  if bool_decide (email u = "") || negb (validEmail (email u))
  then inl (ValidationError "email")
  else validatePaths u ["passwordHash"; "name"; "bio"; "role"].

Section create.
Context `{Platform}.

(** [User.create({ email, passwordHash, googleId, name })]: the setters
    and the defaults of the schema, validation, the pre-save hook, then the
    insertion, which the unique index on [email] refuses when an account
    has the address. *)
Definition create (e : string) (p g : option string) (n : string)
    : M (gmap ObjectId User) Document :=
  let u := {| email := toLowerCase (trim e);
              passwordHash := p;
              googleId := trim <$> g;
              name := trim n;
              bio := "";
              role := "user";
              isActive := true;
              __v := 0 |} in
  _ ← lift_result (validateNew u);
  let doc := preSave {| _id := 0; fields := u;
                        modifiedPaths := ["email"; "passwordHash"; "googleId"; "name"] |} in
  taken ← gets (λ users, withEmail (email u) users);
  match taken with
  | Some _ => throw (MongoServerError "E11000 duplicate key error")
  | None =>
      id ← gets (λ users, fresh (dom users));
      _ ← modify (insert id (fields doc));
      mret {| _id := id; fields := fields doc; modifiedPaths := [] |}
  end.

End create.

(** [doc.googleId = v] *)
Definition set_googleId (v : string) (doc : Document) : Document :=
  let v' := trim v in
  if decide (Some v' = googleId (fields doc)) then doc else
  let u := fields doc in
  {| _id := _id doc;
     fields := {| email := email u; passwordHash := passwordHash u;
                  googleId := Some v'; name := name u; bio := bio u;
                  role := role u; isActive := isActive u; __v := __v u |};
     modifiedPaths := "googleId" :: modifiedPaths doc |}.

End UserSchema.

(** ** utils/googleAuth.js *)

Module GoogleAuth.

Record GoogleConfig := {
  clientId : string;
  clientSecret : string;
  callbackUrl : string;
}.

(** The tokens an authorization code is exchanged for: the code reads
    [id_token] and hands the object on with its other properties. *)
Record Tokens := {
  id_token : option string;
  others : gmap string string;
}.

(** The payload of a verified ID token and the profile made of it. *)
Record Payload := {
  sub : string;
  email : string;
  name : string;
  picture : string;
}.

Record GoogleUser := {
  googleId : string;
  gu_email : string;
  gu_name : string;
  avatar : string;
}.

(** The [OAuth2Client] of google-auth-library. *)
Class OAuth2Client := {
  (** [client.generateAuthUrl({ access_type, scope, redirect_uri })] *)
  generateAuthUrl : string → list string → string → string;
  (** [client.getToken({ code, redirect_uri })]: the tokens, or the error
      thrown *)
  getToken : string → string → Result Tokens;
  (** [client.verifyIdToken({ idToken, audience })] followed by
      [getPayload()] *)
  verifyIdToken : option string → string → Result (option Payload);
}.

Section googleAuth.
Context `{OAuth2Client} (google : GoogleConfig).

Definition getGoogleAuthUrl : string :=
  let scopes := ["https://www.googleapis.com/auth/userinfo.profile";
                 "https://www.googleapis.com/auth/userinfo.email"] in
  generateAuthUrl "offline" scopes (callbackUrl google).

Definition profile (payload : Payload) : GoogleUser :=
  {| googleId := sub payload; gu_email := email payload;
     gu_name := name payload; avatar := picture payload |}.

(** [getGoogleUserInfo]: whatever is thrown inside the [try] is replaced
    by one error.  [setCredentials] is [client.setCredentials(tokens)]: the
    client is the one object of the module, a part of the state [S], and the
    write stays when a later step throws. *)
Definition getGoogleUserInfo {S} (setCredentials : Tokens → S → S)
    (code redirectUri : string) : M S GoogleUser :=
  try_catch
    (tokens ← lift_result (getToken code redirectUri);
     _ ← modify (setCredentials tokens);
     payload ← lift_result (verifyIdToken (id_token tokens) (clientId google));
     match payload with
     | Some payload => mret (profile payload)
     | None => throw (TypeError "Cannot read properties of undefined")
     end)
    (λ _, throw (JsError "Failed to get user info from Google")).

(** [verifyGoogleToken] *)
Definition verifyGoogleToken {S} (token : string) : M S GoogleUser :=
  try_catch
    (payload ← lift_result (verifyIdToken (Some token) (clientId google));
     match payload with
     | Some payload => mret (profile payload)
     | None => throw (TypeError "Cannot read properties of undefined")
     end)
    (λ _, throw (JsError "Invalid Google token")).

End googleAuth.
End GoogleAuth.

(** ** controllers/auth.controller.js: the other handlers *)

Module AuthHandlers.
Import Express UserModel.

(** [res.redirect(url)] *)
Definition res_redirect (url : string) (res : Response) : Response :=
  {| statusCode := 302; cookies := cookies res;
     clearedCookies := clearedCookies res; body := body res;
     location := Some url |}.

(** [res.clearCookie(name)] *)
Definition res_clearCookie (k : string) (res : Response) : Response :=
  {| statusCode := statusCode res; cookies := cookies res;
     clearedCookies := clearedCookies res ++ [k]; body := body res;
     location := location res |}.

(** What the Google callback works on: the accounts, and the credentials
    of the OAuth client of [utils/googleAuth.js], which all requests share. *)
Record Store := {
  accounts : gmap ObjectId User;
  credentials : option GoogleAuth.Tokens;
}.

Definition setCredentials (tokens : GoogleAuth.Tokens) (st : Store) : Store :=
  {| accounts := accounts st; credentials := Some tokens |}.

(** An operation of the user model, run on the accounts of the store. *)
Definition onAccounts {A} (m : M (gmap ObjectId User) A) : M Store A :=
  λ st, let '(users, r) := m (accounts st) in
        ({| accounts := users; credentials := credentials st |}, r).

Section handlers.
Context `{Platform} `{GoogleAuth.OAuth2Client}.
Context (config : Config) (google : GoogleAuth.GoogleConfig).

(** [exports.signup] *)
Definition signup (req : Request) (res : Response)
    : M (gmap ObjectId User) Response :=
  let email := req_body req !! "email" in
  let password := req_body req !! "password" in
  let name := req_body req !! "name" in
  if falsy email || falsy password || falsy name then
    throw (AppError "Please provide email, password, and name" 400)
  else
    existingUser ← gets (findOne_email (default "" email));
    match existingUser with
    | Some _ => throw (AppError "Email already exists" 400)
    | None =>
        user ← UserSchema.create (default "" email) password None
                 (default "" name);
        mret (SendToken.sendUserResponse config res user 201)
    end.

(** [exports.googleRedirect] *)
Definition googleRedirect (req : Request) (res : Response) : Response :=
  res_redirect (GoogleAuth.getGoogleAuthUrl google) res.

(** [exports.googleCallback] *)
Definition googleCallback (req : Request) (res : Response)
    : M Store Response :=
  let code := req_query req !! "code" in
  if falsy code then throw (AppError "Authorization code not provided" 400)
  else
    googleUser ← GoogleAuth.getGoogleUserInfo google setCredentials
                   (default "" code) (GoogleAuth.callbackUrl google);
    found ← gets (λ st, findOne_email (GoogleAuth.gu_email googleUser)
                          (accounts st));
    user ← match found with
           | None =>
               onAccounts
                 (UserSchema.create (GoogleAuth.gu_email googleUser) None
                    (Some (GoogleAuth.googleId googleUser))
                    (GoogleAuth.gu_name googleUser))
           | Some user =>
               if falsy (googleId (fields user)) then
                 onAccounts
                   (save (UserSchema.set_googleId
                            (GoogleAuth.googleId googleUser) user))
               else mret user
           end;
    if negb (isActive (fields user)) then
      mret (res_redirect (frontendUrl config +:+ "/login?error=account_deactivated") res)
    else
      let res := (SendToken.sendTokenCookie config res
                    {| tp_id := _id user; tp_accountType := "user";
                       tp_role := role (fields user) |}).1 in
      mret (res_redirect (frontendUrl config +:+ "/dashboard") res).

(** [exports.logout] *)
Definition logout (req : Request) (res : Response) : Response :=
  res_json (JObj (<["success" := JBool true]> $
                  <["message" := JStr "Logged out successfully"]> ∅))
           (res_clearCookie "token" res).

End handlers.
End AuthHandlers.

(** ** middleware/error.middleware.js *)

Module ErrorMiddleware.

(** [err.code]: a number for the MongoDB driver, a string for multer. *)
Inductive Code :=
| CodeNum (n : Z)
| CodeStr (s : string).

Global Instance Code_eq_dec : EqDecision Code.
Proof. solve_decision. Defined.

(** An error object as the handler reads it.  [name], [message] and
    [stack] are not enumerable; [own] holds the JSON image of the own
    enumerable properties that have no field here. *)
Record Err := {
  name : string;
  message : string;
  stack : string;
  statusCode : option nat;
  status : option string;
  isOperational : bool;
  code : option Code;
  path : option string;
  value : string;
  keyValue : option (list (string * string));
  errors : option (list (string * string));
  own : gmap string Json;
}.

(** [n || d] and [s || d] *)
Definition natOr (n : option nat) (d : nat) : nat :=
  match n with
  | Some (S k) => S k
  | _ => d
  end.

Definition strOr (s : option string) (d : string) : string :=
  match s with
  | Some (String c s') => String c s'
  | _ => d
  end.

(** [hay.includes(needle)] *)
Fixpoint includes (needle hay : string) : bool :=
  String.prefix needle hay ||
  match hay with
  | String _ hay' => includes needle hay'
  | EmptyString => false
  end.

Definition dquote : string := String (Ascii.ascii_of_nat 34) EmptyString.

(** What [JSON.stringify(err)] shows: the own enumerable properties. *)
Definition toJson (err : Err) : gmap string Json :=
  let opt (k : string) (v : option Json) (o : gmap string Json) :=
    match v with Some j => <[k := j]> o | None => o end in
  opt "statusCode" ((λ n, JNum (Z.of_nat n)) <$> statusCode err) $
  opt "status" (JStr <$> status err) $
  opt "isOperational" (if isOperational err then Some (JBool true) else None) $
  opt "code" ((λ c, match c with CodeNum n => JNum n | CodeStr s => JStr s end)
              <$> code err) $
  opt "path" (JStr <$> path err) $
  own err.

Section handlers.
(** Modelled from the spec: [utils/appError.js] is not among the sources.
    [new AppError(message, statusCode)] builds an operational error that
    carries the message and the status code; the constructor is a
    parameter here. *)
Context (AppError_new : string → nat → Err).

Definition handleCastErrorDB (err : Err) : Result Err :=
  match path err with
  | None => inl (TypeError "Cannot read properties of undefined")
  | Some p =>
      if bool_decide (p = "_id") || bool_decide (p = "id") || includes "Id" p then
        let message := (if bool_decide (p = "_id") then "Resource" else p)
                       +:+ " not found" in
        inr (AppError_new message 404)
      else
        let message := "Invalid " +:+ p +:+ ": " +:+ value err in
        inr (AppError_new message 400)
  end.

Definition handleDuplicateFieldsDB (err : Err) : Result Err :=
  match keyValue err with
  | None => inl (TypeError "Cannot convert undefined or null to object")
  | Some kv =>
      let field := default "undefined" (fst <$> head kv) in
      let value := default "undefined" (snd <$> head kv) in
      let message := "Duplicate field value: " +:+ field +:+ " = " +:+ dquote
                     +:+ value +:+ dquote +:+ ". Please use another value." in
      inr (AppError_new message 409)
  end.

Definition handleValidationErrorDB (err : Err) : Result Err :=
  match errors err with
  | None => inl (TypeError "Cannot convert undefined or null to object")
  | Some els =>
      let errors := snd <$> els in
      let message := "Invalid input data. " +:+ String.concat ". " errors in
      inr (AppError_new message 400)
  end.

Definition handleJWTError : Err :=
  AppError_new "Invalid token. Please log in again." 401.

Definition handleJWTExpiredError : Err :=
  AppError_new "Your token has expired. Please log in again." 401.

Definition handleMulterError (err : Err) : Err :=
  if bool_decide (code err = Some (CodeStr "LIMIT_FILE_SIZE")) then
    AppError_new "File size too large. Maximum size is 5MB per file." 400
  else if bool_decide (code err = Some (CodeStr "LIMIT_FILE_COUNT")) then
    AppError_new "Too many files. Maximum 4 images allowed." 400
  else if bool_decide (code err = Some (CodeStr "LIMIT_UNEXPECTED_FILE")) then
    AppError_new ("Unexpected file field. Use " +:+ dquote +:+ "images"
                  +:+ dquote +:+ " field for uploads.") 400
  else AppError_new (strOr (Some (message err)) "File upload error") 400.

Definition sendErrorDev (err : Err) (res : Express.Response) : Express.Response :=
  let statusCode := natOr (statusCode err) 500 in
  let status := strOr (status err) "error" in
  Express.res_json
    (JObj (<["success" := JBool false]> $
           <["status" := JStr status]> $
           <["error" := JObj (toJson err)]> $
           <["message" := JStr (strOr (Some (message err)) "An error occurred")]> $
           <["stack" := JStr (stack err)]> ∅))
    (Express.res_status statusCode res).

Definition sendErrorProd (err : Err) (res : Express.Response) : Express.Response :=
  let statusCode := natOr (statusCode err) 500 in
  let status := strOr (status err)
                  (if bool_decide (400 ≤ statusCode ∧ statusCode < 500)
                   then "fail" else "error") in
  if isOperational err then
    Express.res_json
      (JObj (<["success" := JBool false]> $
             <["status" := JStr status]> $
             <["message" := JStr (strOr (Some (message err)) "An error occurred")]> ∅))
      (Express.res_status statusCode res)
  else if bool_decide (statusCode = 404) then
    Express.res_json
      (JObj (<["success" := JBool false]> $
             <["status" := JStr "fail"]> $
             <["message" := JStr (strOr (Some (message err)) "Resource not found")]> ∅))
      (Express.res_status 404 res)
  else
    Express.res_json
      (JObj (<["success" := JBool false]> $
             <["status" := JStr "error"]> $
             <["message" := JStr "Something went wrong. Please try again later."]> ∅))
      (Express.res_status statusCode res).

(** [err.statusCode = err.statusCode || 500; err.status = err.status || 'error'] *)
Definition withDefaults (err : Err) : Err :=
  {| name := name err; message := message err; stack := stack err;
     statusCode := Some (natOr (statusCode err) 500);
     status := Some (strOr (status err) "error");
     isOperational := isOperational err; code := code err; path := path err;
     value := value err; keyValue := keyValue err; errors := errors err;
     own := own err |}.

(** [err.code && err.code.startsWith('LIMIT_')]: a number other than 0
    has no [startsWith], and the call throws. *)
Definition codeStartsWithLimit (err : Err) : Result bool :=
  match code err with
  | None => inr false
  | Some (CodeNum n) =>
      if decide (n = 0)%Z then inr false
      else inl (TypeError "err.code.startsWith is not a function")
  | Some (CodeStr s) =>
      inr (negb (bool_decide (s = "")) && String.prefix "LIMIT_" s)
  end.

(** [globalErrorHandler]: the response sent, [None] when none is sent, or
    what the handler itself throws.  The copy [{ ...err }] with the message
    added has every property the production path reads. *)
Definition globalErrorHandler (env : string) (err : Err) (res : Express.Response)
    : Result (option Express.Response) :=
  let err := withDefaults err in
  if bool_decide (env = "development") then inr (Some (sendErrorDev err res))
  else if bool_decide (env = "production") then
    let error := err in
    match (if bool_decide (name err = "CastError")
           then handleCastErrorDB err else inr error) with
    | inl e => inl e
    | inr error =>
    match (if bool_decide (code err = Some (CodeNum 11000))
           then handleDuplicateFieldsDB err else inr error) with
    | inl e => inl e
    | inr error =>
    match (if bool_decide (name err = "ValidationError")
           then handleValidationErrorDB err else inr error) with
    | inl e => inl e
    | inr error =>
    let error := if bool_decide (name err = "JsonWebTokenError")
                 then handleJWTError else error in
    let error := if bool_decide (name err = "TokenExpiredError")
                 then handleJWTExpiredError else error in
    match codeStartsWithLimit err with
    | inl e => inl e
    | inr limit =>
        let error := if limit then handleMulterError err else error in
        inr (Some (sendErrorProd error res))
    end end end end
  else inr None.

(** [notFoundHandler]: the error given to [next]. *)
Definition notFoundHandler (originalUrl : string) : Err :=
  AppError_new ("Cannot find " +:+ originalUrl +:+ " on this server") 404.

End handlers.
End ErrorMiddleware.

(** ** routes/student.routes.js *)

Module StudentRoutes.

(** [$addToSet] and [$pull] on an array of ids. *)
Definition addToSet (x : ObjectId) (l : list ObjectId) : list ObjectId :=
  if decide (x ∈ l) then l else l ++ [x].

Definition pull (x : ObjectId) (l : list ObjectId) : list ObjectId :=
  filter (λ y, y ≠ x) l.

Definition with_interests (f : list ObjectId → list ObjectId) (s : Student.t)
    : Student.t :=
  {| Student.name := Student.name s;
     Student.interestedUniversities := f (Student.interestedUniversities s) |}.

Definition with_students (f : gmap ObjectId Student.t → gmap ObjectId Student.t)
    (st : State) : State :=
  {| students := f (students st); applications := applications st;
     events := events st; notifications := notifications st;
     now := now st; connectedUsers := connectedUsers st;
     rooms := rooms st; emitted := emitted st |}.

(** [Student.findByIdAndUpdate(id, update, { new: true })]: the updated
    document, or [null]. *)
Definition findByIdAndUpdate (id : ObjectId) (update : Student.t → Student.t)
    : M State (option Student.t) :=
  _ ← modify (with_students (alter update id));
  gets (λ st, students st !! id).

(** The answer [student.interestedUniversities]; reading it off [null]
    throws. *)
Definition interestsOf (student : option Student.t) : M State (list ObjectId) :=
  match student with
  | Some s => mret (Student.interestedUniversities s)
  | None => throw (TypeError "Cannot read properties of null")
  end.

(** [POST /interests/:universityId] *)
Definition addInterest (user universityId : ObjectId) : M State (list ObjectId) :=
  student ← findByIdAndUpdate user (with_interests (addToSet universityId));
  interestsOf student.

(** [DELETE /interests/:universityId] *)
Definition removeInterest (user universityId : ObjectId) : M State (list ObjectId) :=
  student ← findByIdAndUpdate user (with_interests (pull universityId));
  interestsOf student.

(** [GET /interests] *)
Definition getInterests (user : ObjectId) : M State (list ObjectId) :=
  student ← gets (λ st, students st !! user);
  interestsOf student.

End StudentRoutes.

(** ** A concrete platform, for running the model on examples *)

Module Demo.

(** [parseInt] on ASCII text: leading white space is skipped, a sign is
    read, [0x] announces hexadecimal digits, and the digits that follow are
    read as far as they go; where there is none the result is [NaN]. *)
Definition digitOf (radix : nat) (c : Ascii.ascii) : option nat :=
  let n := Ascii.nat_of_ascii c in
  let v := if decide (48 ≤ n ≤ 57) then Some (n - 48)
           else if decide (97 ≤ n ≤ 122) then Some (n - 87)
           else if decide (65 ≤ n ≤ 90) then Some (n - 55)
           else None in
  d ← v; if decide (d < radix) then Some d else None.

Fixpoint digits (radix : nat) (acc : option Z) (s : string) : option Z :=
  match s with
  | EmptyString => acc
  | String c s' =>
      match digitOf radix c with
      | Some d =>
          digits radix
            (Some (default 0 acc * Z.of_nat radix + Z.of_nat d)%Z) s'
      | None => acc
      end
  end.

Definition unsigned (s : string) : option Z :=
  match s with
  | String z (String x s') =>
      if decide (z = Ascii.ascii_of_nat 48 ∧
                 (x = Ascii.ascii_of_nat 120 ∨ x = Ascii.ascii_of_nat 88))
      then digits 16 None s' else digits 10 None s
  | _ => digits 10 None s
  end.

Definition parseInteger (s : string) : option Z :=
  match UserModel.trimStart s with
  | String c s' =>
      if decide (c = Ascii.ascii_of_nat 45) then Z.opp <$> unsigned s'
      else if decide (c = Ascii.ascii_of_nat 43) then unsigned s'
      else unsigned (String c s')
  | EmptyString => None
  end.

(** A token is the secret followed by the account type and the role; a
    hash is the password behind a salt marker. *)
Definition sign (payload : TokenPayload) (secret expiresIn : string) : string :=
  secret +:+ "." +:+ tp_accountType payload +:+ "." +:+ tp_role payload.

Definition verify (token secret : string) : Result TokenPayload :=
  if decide (token = secret +:+ ".user.user") then
    inr {| tp_id := 1; tp_accountType := "user"; tp_role := "user" |}
  else if decide (token = "") then inl (JsonWebTokenError "jwt must be provided")
  else inl (JsonWebTokenError "jwt malformed").

Definition platform : Platform :=
  {| bcrypt_hash := λ data _, "$2a$10$" +:+ data;
     bcrypt_compare := λ data h, bool_decide (h = "$2a$10$" +:+ data);
     jwt_sign := sign;
     jwt_verify := verify;
     parseInt := parseInteger |}.

Definition config (environment : string) : Config :=
  {| env := environment; jwtSecret := "s3cret"; jwtExpire := "7d";
     frontendUrl := "http://localhost:5173" |}.

Definition alice : UserModel.User :=
  {| UserModel.email := "alice@example.org";
     UserModel.passwordHash := Some "$2a$10$hunter22";
     UserModel.googleId := None;
     UserModel.name := "Alice";
     UserModel.bio := "";
     UserModel.role := "user";
     UserModel.isActive := true;
     UserModel.__v := 0 |}.

(** An account that has been deactivated; its password is [letmein1]. *)
Definition bob : UserModel.User :=
  {| UserModel.email := "bob@example.org";
     UserModel.passwordHash := Some "$2a$10$letmein1";
     UserModel.googleId := None;
     UserModel.name := "Bob";
     UserModel.bio := "";
     UserModel.role := "user";
     UserModel.isActive := false;
     UserModel.__v := 0 |}.

Definition users : gmap ObjectId UserModel.User := {[ 1 := alice; 2 := bob ]}.

Definition request (fields : list (string * string)) : Express.Request :=
  {| Express.req_body := list_to_map fields; Express.req_query := ∅;
     Express.req_params := ∅; Express.req_cookies := ∅;
     Express.req_user := None |}.

(** A state with two students, of whom the first follows university 7,
    one event of that university, one application already accepted, and
    one unread notification addressed to student 2. *)
Definition note (recipient : ObjectId) (read : bool) : Notification.t :=
  {| Notification.recipientId := recipient;
     Notification.recipientType := "Student";
     Notification.type := "new_event";
     Notification.title := "New Event Available";
     Notification.message := "Tbilisi State has posted a new event";
     Notification.data :=
       {| Notification.eventId := Some 5; Notification.applicationId := None;
          Notification.universityId := Some 7; Notification.studentId := None |};
     Notification.isRead := read;
     Notification.createdAt := 10;
     Notification.updatedAt := 10 |}.

Definition state : State :=
  {| students :=
       {[ 1 := {| Student.name := "Ana"; Student.interestedUniversities := [7] |};
          2 := {| Student.name := "Beka"; Student.interestedUniversities := [] |} ]};
     applications :=
       {[ 0 := {| Application.eventId := 5; Application.studentId := 1;
                  Application.status := "accepted" |} ]};
     events := {[ 5 := {| Event.title := "Open day"; Event.universityId := 7 |} ]};
     notifications := {[ 3 := note 2 false ]};
     now := 100;
     connectedUsers := ∅;
     rooms := [];
     emitted := [] |}.

Definition university : ObjectId * University.t :=
  (7, {| University.name := "Tbilisi State" |}).

(** An event whose title has 500 characters. *)
Definition longEvent : ObjectId * Event.t :=
  (6, {| Event.title := Nat.iter 500 (String (Ascii.ascii_of_nat 120)) EmptyString;
         Event.universityId := 7 |}).

Definition socket (user : ObjectId) : Socket :=
  {| socket_id := "sock"; socket_userId := user; socket_userType := "user" |}.

End Demo.

(** ** Predicates of the statements *)



(** Two notifications that agree on every field but the read flag and
    [updatedAt]. *)
Definition sameButReadStamp (n n' : Notification.t) : Prop :=
  Notification.recipientId n' = Notification.recipientId n ∧
  Notification.recipientType n' = Notification.recipientType n ∧
  Notification.type n' = Notification.type n ∧
  Notification.title n' = Notification.title n ∧
  Notification.message n' = Notification.message n ∧
  Notification.data n' = Notification.data n ∧
  Notification.createdAt n' = Notification.createdAt n.

(** Two notification collections with the same [_id]s whose documents are
    related one by one. *)
Definition sameIds (R : relation Notification.t)
    (m m' : gmap ObjectId Notification.t) : Prop :=
  ∀ k, option_Forall2 R (m !! k) (m' !! k).

(** An operation that touches nothing but notifications, creates and
    deletes none, and leaves each document as it was or changes its read
    flag to [true] and its [updatedAt] to the time of the call, and nothing
    else. *)
Definition marksReadOnly {A} (op : M State A) : Prop :=
  ∀ st, let st' := (op st).1 in
    st' = with_notifications (λ _, notifications st') st
    ∧ sameIds (λ n n', n' = n ∨
                (sameButReadStamp n n' ∧ Notification.isRead n' = true ∧
                 Notification.updatedAt n' = now st))
        (notifications st) (notifications st').

(** Run again at the time [t], the operation changes no field but
    [updatedAt]. *)
Definition repeatsUpToStamp {A} (op : M State A) : Prop :=
  ∀ st t, let st' := (op st).1 in
    sameIds (λ n n', sameButReadStamp n n' ∧
               Notification.isRead n' = Notification.isRead n)
      (notifications st') (notifications (op (at_time t st')).1).

(** Run again at the time [t], the operation changes nothing. *)
Definition repeatsExactly {A} (op : M State A) : Prop :=
  ∀ st t, let st' := (op st).1 in (op (at_time t st')).1 = at_time t st'.

(** The notifications of type [new_event] for a recipient about an event. *)
Definition isNewEventFor (recipient event : ObjectId) (n : Notification.t) : bool :=
  bool_decide (Notification.recipientId n = recipient ∧
               Notification.type n = "new_event" ∧
               Notification.eventId (Notification.data n) = Some event).

(** No two accounts have the same email address. *)
Definition emailsUnique (users : gmap ObjectId UserModel.User) : Prop :=
  ∀ i j u v, users !! i = Some u → users !! j = Some v →
             UserModel.email u = UserModel.email v → i = j.

(** The notifications of a listing; none when the listing failed. *)
Definition listedOf (r : State * Result NotificationService.Listing)
    : list (ObjectId * Notification.t) :=
  match r.2 with
  | inr listing => NotificationService.listed listing
  | inl _ => []
  end.

(** ** Accounts in the statements *)

Section account_statements.
Context `{Platform} (config : Config).
Import Express UserModel.

(** What the pre-save hook stores for a password given to [create]. *)
Definition stored (p : option string) : option string :=
  match p with
  | Some (String c s) => Some (bcrypt_hash (String c s) 10)
  | other => other
  end.

(** The account with its Google id filled in. *)
Definition linked (gid : string) (u : User) : User :=
  {| email := email u; passwordHash := passwordHash u;
     googleId := Some gid; name := name u; bio := bio u; role := role u;
     isActive := isActive u; __v := __v u |}.

(** The two answers of [googleCallback]. *)
Definition dashboard (res : Response) (id : ObjectId) (u : User) : Response :=
  AuthHandlers.res_redirect (frontendUrl config +:+ "/dashboard")
    (SendToken.sendTokenCookie config res
       {| tp_id := id; tp_accountType := "user"; tp_role := role u |}).1.

Definition deactivated (res : Response) : Response :=
  AuthHandlers.res_redirect
    (frontendUrl config +:+ "/login?error=account_deactivated") res.

(** The account with another biography. *)
Definition with_bio (b : string) (u : User) : User :=
  {| email := email u; passwordHash := passwordHash u; googleId := googleId u;
     name := name u; bio := b; role := role u; isActive := isActive u;
     __v := __v u |}.

(** A response body that carries a user without hash and version key. *)
Definition safeUserBody (resp : Response) : Prop :=
  ∃ o user, body resp = Some (JObj o) ∧ o !! "user" = Some (JObj user) ∧
            user !! "passwordHash" = None ∧ user !! "__v" = None.

End account_statements.

(** ** Listings and error responses in the statements *)

(** The notifications a query matches, in the order of the listing. *)
Definition sortedMatches (q : Notification.t → bool)
    (m : gmap ObjectId Notification.t) : list (ObjectId * Notification.t) :=
  merge_sort NotificationService.newerFirst
    (map_to_list (filter (λ kv, q kv.2 = true) m)).

(** Strictly newer: the order of a listing without equal timestamps. *)
Definition strictlyNewer (a b : ObjectId * Notification.t) : Prop :=
  Notification.createdAt b.2 < Notification.createdAt a.2.

(** No two notifications of the recipient were created at the same time. *)
Definition distinctTimes (user : ObjectId) (m : gmap ObjectId Notification.t)
    : Prop :=
  ∀ i j a b, m !! i = Some a → m !! j = Some b →
             Notification.recipientId a = user →
             Notification.recipientId b = user →
             Notification.createdAt a = Notification.createdAt b → i = j.

(** The envelope of the production error responses. *)
Definition errorBody (status message : string) : Json :=
  JObj (<["success" := JBool false]> $
        <["status" := JStr status]> $
        <["message" := JStr message]> ∅).

Definition errorResponse (code : nat) (status message : string)
    (res : Express.Response) : Express.Response :=
  Express.res_json (errorBody status message) (Express.res_status code res).

(** The paths of a cast error that are answered with 404. *)
Definition idLike (p : string) : bool :=
  bool_decide (p = "_id") || bool_decide (p = "id")
  || ErrorMiddleware.includes "Id" p.

(** ** Sample data for the further properties *)

Module Sample.

(** An OAuth client that knows one authorization code, which belongs to
    the Google account of Bob. *)
Definition oauth : GoogleAuth.OAuth2Client :=
  {| GoogleAuth.generateAuthUrl := λ _ _ redirect,
       "https://accounts.google.com/o/oauth2/v2/auth?redirect_uri=" +:+ redirect;
     GoogleAuth.getToken := λ code _,
       if decide (code = "4/bob") then
         inr {| GoogleAuth.id_token := Some "id-token-bob";
                GoogleAuth.others := {[ "access_token" := "ya29.bob" ]} |}
       else inl (JsError "invalid_grant");
     GoogleAuth.verifyIdToken := λ token _,
       if decide (token = Some "id-token-bob") then
         inr (Some {| GoogleAuth.sub := "g-108";
                      GoogleAuth.email := "bob@example.org";
                      GoogleAuth.name := "Bob";
                      GoogleAuth.picture := "" |})
       else inl (JsError "Wrong number of segments in token") |}.

Definition google : GoogleAuth.GoogleConfig :=
  {| GoogleAuth.clientId := "client-id";
     GoogleAuth.clientSecret := "client-secret";
     GoogleAuth.callbackUrl := "http://localhost:5000/api/auth/google/callback" |}.

(** The accounts of [Demo.users] and a client that has exchanged no code
    yet. *)
Definition store : AuthHandlers.Store :=
  {| AuthHandlers.accounts := Demo.users; AuthHandlers.credentials := None |}.

(** The callback request Google sends for that code. *)
Definition callback : Express.Request :=
  {| Express.req_body := ∅; Express.req_query := {[ "code" := "4/bob" ]};
     Express.req_params := ∅; Express.req_cookies := ∅;
     Express.req_user := None |}.

(** A request of Alice, as the authentication middleware passes it on. *)
Definition asAlice (fields : list (string * string)) : Express.Request :=
  Express.with_user
    {| UserModel._id := 1; UserModel.fields := Demo.alice;
       UserModel.modifiedPaths := [] |}
    (Demo.request fields).

(** An account with a biography, and a request of its owner. *)
Definition poet : UserModel.User :=
  {| UserModel.email := "alice@example.org";
     UserModel.passwordHash := Some "$2a$10$hunter22";
     UserModel.googleId := None;
     UserModel.name := "Alice";
     UserModel.bio := "I write.";
     UserModel.role := "user";
     UserModel.isActive := true;
     UserModel.__v := 0 |}.

Definition poets : gmap ObjectId UserModel.User := {[ 1 := poet ]}.

Definition asPoet (fields : list (string * string)) : Express.Request :=
  Express.with_user
    {| UserModel._id := 1; UserModel.fields := poet;
       UserModel.modifiedPaths := [] |}
    (Demo.request fields).

(** A notification written at a given time. *)
Definition noteAt (recipient : ObjectId) (read : bool) (time : nat)
    : Notification.t :=
  {| Notification.recipientId := recipient;
     Notification.recipientType := "Student";
     Notification.type := "new_event";
     Notification.title := "New Event Available";
     Notification.message := "Tbilisi State has posted a new event";
     Notification.data :=
       {| Notification.eventId := Some 5; Notification.applicationId := None;
          Notification.universityId := Some 7; Notification.studentId := None |};
     Notification.isRead := read;
     Notification.createdAt := time;
     Notification.updatedAt := time |}.

(** The state of [Demo.state] with three notifications for student 2,
    written at the times 10, 20 and 30, and one for student 1. *)
Definition inbox : State :=
  {| students := students Demo.state; applications := applications Demo.state;
     events := events Demo.state;
     notifications := {[ 3 := noteAt 2 false 10; 4 := noteAt 2 true 20;
                         5 := noteAt 2 false 30; 6 := noteAt 1 false 30 ]};
     now := now Demo.state; connectedUsers := connectedUsers Demo.state;
     rooms := rooms Demo.state; emitted := emitted Demo.state |}.

(** The state of [Demo.state] after its event was deleted. *)
Definition orphaned : State :=
  {| students := students Demo.state; applications := applications Demo.state;
     events := ∅; notifications := notifications Demo.state;
     now := now Demo.state; connectedUsers := connectedUsers Demo.state;
     rooms := rooms Demo.state; emitted := emitted Demo.state |}.

(** A second browser tab of the same user. *)
Definition secondSocket (user : ObjectId) : Socket :=
  {| socket_id := "sock2"; socket_userId := user; socket_userType := "user" |}.

(** Modelled from the spec: [utils/appError.js] is not among the sources.
    An operational error with the message and the status code, and the
    status [fail] for the codes 400 to 499. *)
Definition appError (message : string) (statusCode : nat) : ErrorMiddleware.Err :=
  {| ErrorMiddleware.name := "Error";
     ErrorMiddleware.message := message;
     ErrorMiddleware.stack := "Error: " +:+ message;
     ErrorMiddleware.statusCode := Some statusCode;
     ErrorMiddleware.status :=
       Some (if bool_decide (400 ≤ statusCode < 500) then "fail" else "error");
     ErrorMiddleware.isOperational := true;
     ErrorMiddleware.code := None;
     ErrorMiddleware.path := None;
     ErrorMiddleware.value := "";
     ErrorMiddleware.keyValue := None;
     ErrorMiddleware.errors := None;
     ErrorMiddleware.own := ∅ |}.

(** The error of the MongoDB driver for a second account with an email. *)
Definition duplicateKey : ErrorMiddleware.Err :=
  {| ErrorMiddleware.name := "MongoServerError";
     ErrorMiddleware.message := "E11000 duplicate key error";
     ErrorMiddleware.stack := "MongoServerError: E11000 duplicate key error";
     ErrorMiddleware.statusCode := None;
     ErrorMiddleware.status := None;
     ErrorMiddleware.isOperational := false;
     ErrorMiddleware.code := Some (ErrorMiddleware.CodeNum 11000);
     ErrorMiddleware.path := None;
     ErrorMiddleware.value := "";
     ErrorMiddleware.keyValue := Some [("email", "alice@example.org")];
     ErrorMiddleware.errors := None;
     ErrorMiddleware.own := ∅ |}.

(** A programming error whose message names a secret. *)
Definition crash : ErrorMiddleware.Err :=
  {| ErrorMiddleware.name := "TypeError";
     ErrorMiddleware.message := "Cannot read properties of undefined (reading 's3cret')";
     ErrorMiddleware.stack := "TypeError: at auth.controller.js:44";
     ErrorMiddleware.statusCode := None;
     ErrorMiddleware.status := None;
     ErrorMiddleware.isOperational := false;
     ErrorMiddleware.code := None;
     ErrorMiddleware.path := None;
     ErrorMiddleware.value := "";
     ErrorMiddleware.keyValue := None;
     ErrorMiddleware.errors := None;
     ErrorMiddleware.own := ∅ |}.

(** The cast error of Mongoose for a malformed id in a query. *)
Definition castError (path value : string) : ErrorMiddleware.Err :=
  {| ErrorMiddleware.name := "CastError";
     ErrorMiddleware.message := "Cast to ObjectId failed";
     ErrorMiddleware.stack := "CastError: Cast to ObjectId failed";
     ErrorMiddleware.statusCode := None;
     ErrorMiddleware.status := None;
     ErrorMiddleware.isOperational := false;
     ErrorMiddleware.code := None;
     ErrorMiddleware.path := Some path;
     ErrorMiddleware.value := value;
     ErrorMiddleware.keyValue := None;
     ErrorMiddleware.errors := None;
     ErrorMiddleware.own := ∅ |}.

End Sample.

(** ** Tactics *)

Ltac break_hyps :=
  repeat first
    [ progress destruct_or?
    | progress destruct_and?
    | match goal with H : ∃ _, _ |- _ => destruct H end
    | progress simplify_eq ].

Ltac login_cases :=
  split; [done|];
  split_and!; [| |intros ?];
  (split;
   [ intros; simplify_eq;
     try first [done | by eauto 12 | by (right; eexists; eauto 10)]
   | intros; break_hyps; try first [done | congruence] ]).

(** * Properties *)

(** ** Running the monad *)

Lemma bind_run {S A B} (m : M S A) (f : A → M S B) (s : S) :
  (m ≫= f) s = match m s with
               | (s', inr a) => f a s'
               | (s', inl e) => (s', inl e)
               end.
Proof. done. Qed.

Lemma gets_run {S A} (f : S → A) (s : S) : gets f s = (s, inr (f s)).
Proof. done. Qed.

Lemma ret_run {S A} (a : A) (s : S) : mret (M:=M S) a s = (s, inr a).
Proof. done. Qed.

(** [parseInt] of the sample platform on the forms a query string takes. *)
Example parseInteger_forms :
  Demo.parseInteger "20" = Some 20%Z ∧ Demo.parseInteger " 2" = Some 2%Z
  ∧ Demo.parseInteger "+2" = Some 2%Z ∧ Demo.parseInteger "-3" = Some (-3)%Z
  ∧ Demo.parseInteger "0x1f" = Some 31%Z ∧ Demo.parseInteger "12px" = Some 12%Z
  ∧ Demo.parseInteger "0x" = None ∧ Demo.parseInteger "abc" = None
  ∧ Demo.parseInteger "" = None.
Proof. by vm_compute. Qed.

(** ** Session tokens and cookies *)

Section session.
Context `{Platform} (config : Config).
Import Express.

Lemma verifyToken_run {S} (token : string) (s : S) :
  Jwt.verifyToken config token s =
  (s, inr (match jwt_verify token (jwtSecret config) with
           | inr decoded => Some decoded
           | inl _ => None
           end)).
Proof.
  unfold Jwt.verifyToken, try_catch, mbind, M_bind, lift_result, mret, M_ret.
  by destruct (jwt_verify token (jwtSecret config)).
Qed.

(** C6. For every token string, [verifyToken] returns: the decoded
    identity when [jwt.verify] accepts the token, and [null] when it throws
    (malformed or expired token); it never throws itself.  On a protected
    route a request carrying a token that fails verification ends in the
    error of status 401, whatever the route handler and the server state
    are, and the state is unchanged. *)
Theorem C6_verifyToken_never_throws (token : string)
    {S : Type} (users : S → gmap ObjectId UserModel.User)
    (handler : Request → Response → M S Response)
    (req : Request) (res : Response) (s : S) :
  match jwt_verify token (jwtSecret config) with
  | inr decoded =>
      Jwt.verifyToken config token s = (s, inr (Some decoded))
  | inl _ =>
      Jwt.verifyToken config token s = (s, inr None) ∧
      AuthMiddleware.protected config users handler
          (with_cookie "token" token req) res s
        = (s, inl (AppError "Unauthenticated" 401))
  end.
Proof.
  pose proof (verifyToken_run token s) as Hrun.
  destruct (jwt_verify token (jwtSecret config)) as [e|decoded] eqn:Hv; [|done].
  split; [done|].
  unfold AuthMiddleware.protected, AuthMiddleware.auth, with_cookie; simpl.
  rewrite lookup_insert_eq. by rewrite !bind_run, Hrun.
Qed.

(** C7 (amended). The cookie set by [sendTokenCookie], and so by
    [sendUserResponse] after a successful login, is named [token], is
    HTTP-only, lasts 7 days (604800000 ms), uses same-site lax, and has its
    secure flag set exactly when the environment is [production]. *)
Theorem C7_session_cookie_options (res : Response) (payload : TokenPayload)
    (user : UserModel.Document) (code : nat) :
  cookies (SendToken.sendTokenCookie config res payload).1
    = cookies res ++ [("token", Jwt.generateToken config payload,
                       SendToken.cookieOptions config)]
  ∧ (∃ token, cookies (SendToken.sendUserResponse config res user code)
                = cookies res ++ [("token", token, SendToken.cookieOptions config)])
  ∧ httpOnly (SendToken.cookieOptions config) = true
  ∧ maxAge (SendToken.cookieOptions config) = 604800000%Z
  ∧ sameSite (SendToken.cookieOptions config) = "lax"
  ∧ (secure (SendToken.cookieOptions config) = true ↔ env config = "production").
Proof.
  split_and!; try done.
  - by eexists.
  - simpl. by rewrite bool_decide_eq_true.
Qed.

End session.

(** C7 (as stated, refuted). In the environment [test], which is not
    [development], the cookie of a session is issued without the secure
    flag. *)
Lemma C7_secure_outside_development_fails :
  let config := Demo.config "test" in
  let payload := {| tp_id := 1; tp_accountType := "user"; tp_role := "user" |} in
  env config ≠ "development" ∧
  Express.cookies
    (@SendToken.sendTokenCookie Demo.platform config
       Express.freshResponse payload).1
  = [("token", "s3cret.user.user",
      {| Express.httpOnly := true; Express.maxAge := 604800000;
         Express.secure := false; Express.sameSite := "lax" |})].
Proof. split; [done | reflexivity]. Qed.

(** With the concrete platform: a malformed token verifies to [null], and
    the token issued for an account verifies to its payload. *)
Example verifyToken_malformed :
  @Jwt.verifyToken Demo.platform (Demo.config "production") () "garbage" ()
  = ((), inr None).
Proof. reflexivity. Qed.

Example verifyToken_issued :
  let config := Demo.config "production" in
  let payload := {| tp_id := 1; tp_accountType := "user"; tp_role := "user" |} in
  @Jwt.verifyToken Demo.platform config ()
     (@Jwt.generateToken Demo.platform config payload) ()
  = ((), inr (Some payload)).
Proof. reflexivity. Qed.

(** ** The serialisation of a user *)

(** C10. The object [toJSON] returns for a user document has no
    [passwordHash] key and no [__v] key, also when a hash is stored (it is
    a key of [toObject] then); the [user] member of the body sent by
    [sendUserResponse] is that object. *)
Theorem C10_toJSON_hides_passwordHash `{Platform} (config : Config)
    (doc : UserModel.Document) (res : Express.Response) (code : nat) :
  UserModel.toJSON doc !! "passwordHash" = None
  ∧ UserModel.toJSON doc !! "__v" = None
  ∧ UserModel.toObject doc !! "passwordHash"
      = JStr <$> UserModel.passwordHash (UserModel.fields doc)
  ∧ UserModel.toObject doc !! "__v"
      = Some (JNum (Z.of_nat (UserModel.__v (UserModel.fields doc))))
  ∧ ∃ o, Express.body (SendToken.sendUserResponse config res doc code)
           = Some (JObj o)
         ∧ o !! "user" = Some (JObj (UserModel.toJSON doc)).
Proof.
  split_and!.
  - unfold UserModel.toJSON. rewrite lookup_delete_ne by done.
    by rewrite lookup_delete_eq.
  - unfold UserModel.toJSON. by rewrite lookup_delete_eq.
  - unfold UserModel.toObject.
    destruct (UserModel.passwordHash _), (UserModel.googleId _);
      by simplify_map_eq.
  - unfold UserModel.toObject.
    destruct (UserModel.passwordHash _), (UserModel.googleId _);
      by simplify_map_eq.
  - eexists. split; [reflexivity|]. by simplify_map_eq.
Qed.

(** ** Looking an account up by its email *)

Section lookup.
Import UserModel.

Lemma withEmail_None (e : string) (users : gmap ObjectId User) :
  withEmail e users = None ↔
  ∀ i u, users !! i = Some u → email u ≠ e.
Proof.
  unfold withEmail.
  destruct (head (filter (λ kv, email kv.2 = e) (map_to_list users)))
    as [[k u]|] eqn:Hh; simpl.
  - split; [done|]. intros Hall. apply head_Some_elem_of in Hh.
    apply list_elem_of_filter in Hh as [He Hin]. simpl in He.
    apply elem_of_map_to_list in Hin. by destruct (Hall k u Hin).
  - split; [|done]. intros _ i u Hi He. apply head_None in Hh.
    assert ((i, u) ∈ filter (λ kv, email kv.2 = e) (map_to_list users)) as Hin.
    { apply list_elem_of_filter. split; [done|]. by apply elem_of_map_to_list. }
    rewrite Hh in Hin. by apply not_elem_of_nil in Hin.
Qed.

Lemma withEmail_Some (e : string) (users : gmap ObjectId User) (d : Document) :
  withEmail e users = Some d →
  users !! _id d = Some (fields d) ∧ email (fields d) = e ∧ modifiedPaths d = [].
Proof.
  unfold withEmail.
  destruct (head (filter (λ kv, email kv.2 = e) (map_to_list users)))
    as [[k u]|] eqn:Hh; simpl; [|done].
  intros [= <-]. simpl. apply head_Some_elem_of in Hh.
  apply list_elem_of_filter in Hh as [He Hin]. simpl in He.
  by apply elem_of_map_to_list in Hin.
Qed.

Lemma withEmail_the (e : string) (users : gmap ObjectId User) (k : ObjectId) (u : User) :
  users !! k = Some u → email u = e →
  (∀ i v, users !! i = Some v → email v = e → i = k) →
  withEmail e users = Some {| _id := k; fields := u; modifiedPaths := [] |}.
Proof.
  intros Hk He Huniq.
  destruct (withEmail e users) as [d|] eqn:Hf.
  - apply withEmail_Some in Hf as (Hd & Hde & Hm).
    pose proof (Huniq _ _ Hd Hde) as Hid.
    destruct d as [i v m]; simpl in *. subst. by simplify_eq.
  - eapply withEmail_None in Hf; [|exact Hk]. done.
Qed.

Lemma emailsUnique_users : emailsUnique Demo.users.
Proof.
  intros i j u v Hi Hj He. unfold Demo.users in *.
  apply lookup_insert_Some in Hi as [[<- <-]|[_ Hi]];
    apply lookup_insert_Some in Hj as [[<- <-]|[_ Hj]]; try done.
  - apply lookup_singleton_Some in Hj as [<- <-]. done.
  - apply lookup_singleton_Some in Hi as [<- <-]. done.
  - apply lookup_singleton_Some in Hi as [<- _].
    by apply lookup_singleton_Some in Hj as [<- _].
Qed.

End lookup.

(** ** Password login *)

Section login.
Context `{Platform} (config : Config).
Import Express UserModel.

(** The outcomes of [login] in terms of the account [findOne] gives. *)
Lemma login_by_lookup (req : Request) (res : Response)
    (users : gmap ObjectId User) :
  let r := AuthController.login config req res users in
  r.1 = users ∧
  match req_body req !! "email", req_body req !! "password" with
  | Some e, Some p =>
      if decide (e = "" ∨ p = "") then
        r.2 = inl (AppError "Please provide email and password" 400)
      else
        let account := findOne_email e users in
        (r.2 = inl (AppError "Invalid credentials" 401) ↔
           account = None ∨
           ∃ u, account = Some u ∧
             (passwordHash (fields u) = None ∨ passwordHash (fields u) = Some ""
              ∨ ∃ h, passwordHash (fields u) = Some h ∧
                     isActive (fields u) = true ∧ bcrypt_compare p h = false))
        ∧ (r.2 = inl (AppError "Account is deactivated" 401) ↔
           ∃ u h, account = Some u ∧ passwordHash (fields u) = Some h ∧
                  h ≠ "" ∧ isActive (fields u) = false)
        ∧ (∀ resp, r.2 = inr resp ↔
           ∃ u h, account = Some u ∧ passwordHash (fields u) = Some h ∧
                  h ≠ "" ∧ isActive (fields u) = true ∧
                  bcrypt_compare p h = true ∧
                  resp = SendToken.sendUserResponse config res u 200)
  | _, _ => r.2 = inl (AppError "Please provide email and password" 400)
  end.
Proof.
  unfold AuthController.login.
  destruct (req_body req !! "email") as [e|] eqn:He; simpl;
    [|by destruct (req_body req !! "password")].
  destruct (req_body req !! "password") as [p|] eqn:Hp; simpl;
    [|by destruct e].
  destruct e as [|c e].
  { rewrite decide_True by (by left). done. }
  destruct p as [|d p].
  { rewrite decide_True by (by right). by destruct e. }
  rewrite decide_False by (intros [?|?]; done). simpl.
  unfold mbind, M_bind, gets, throw, mret, M_ret, verifyPassword.
  destruct (findOne_email (String c e) users) as [u|] eqn:Hu; simpl.
  { destruct (passwordHash (fields u)) as [[|c' h]|] eqn:Hh; simpl;
      [login_cases| |login_cases].
    destruct (isActive (fields u)) eqn:Ha; simpl; [|login_cases].
    destruct (bcrypt_compare (String d p) (String c' h)) eqn:Hc; simpl;
      login_cases. }
  login_cases.
Qed.


(** C5 (amended). For a request whose email and password are strings and
    whose email is ASCII text, and accounts with pairwise different emails:
    [login] never changes the store.  A request whose email or password is
    missing or empty fails with status 400.  Otherwise the account looked at
    is the one whose stored email is the email of the request trimmed and in
    lower case.  The login fails with [Invalid credentials] (401) exactly
    when there is no such account, or it stores no password hash, or it is
    active and the password does not match the hash; it fails with
    [Account is deactivated] (401) exactly when the account stores a hash
    and is inactive; and it succeeds, answering with [sendUserResponse] for
    the account, exactly when the account stores a hash, is active and the
    password matches. *)
Theorem C5_login_outcomes (req : Request) (res : Response)
    (users : gmap ObjectId User) :
  asciiText (default "" (req_body req !! "email")) = true →
  emailsUnique users →
  let r := AuthController.login config req res users in
  r.1 = users ∧
  match req_body req !! "email", req_body req !! "password" with
  | Some e, Some p =>
      if decide (e = "" ∨ p = "") then
        r.2 = inl (AppError "Please provide email and password" 400)
      else
        let key := toLowerCase (trim e) in
        (r.2 = inl (AppError "Invalid credentials" 401) ↔
           (∀ id u, users !! id = Some u → email u ≠ key) ∨
           ∃ id u, users !! id = Some u ∧ email u = key ∧
             (passwordHash u = None ∨ passwordHash u = Some ""
              ∨ ∃ h, passwordHash u = Some h ∧
                     isActive u = true ∧ bcrypt_compare p h = false))
        ∧ (r.2 = inl (AppError "Account is deactivated" 401) ↔
           ∃ id u h, users !! id = Some u ∧ email u = key ∧
                     passwordHash u = Some h ∧ h ≠ "" ∧ isActive u = false)
        ∧ (∀ resp, r.2 = inr resp ↔
           ∃ id u h, users !! id = Some u ∧ email u = key ∧
                     passwordHash u = Some h ∧ h ≠ "" ∧ isActive u = true ∧
                     bcrypt_compare p h = true ∧
                     resp = SendToken.sendUserResponse config res
                              {| _id := id; fields := u; modifiedPaths := [] |}
                              200)
  | _, _ => r.2 = inl (AppError "Please provide email and password" 400)
  end.
Proof.
  intros _ Huniq r. destruct (login_by_lookup req res users) as [Hst Hcases].
  fold r in Hcases. split; [done|].
  destruct (req_body req !! "email") as [e|]; [|done].
  destruct (req_body req !! "password") as [p|]; [|done].
  case_decide; [done|]. cbv zeta in *. unfold findOne_email in Hcases.
  set (key := toLowerCase (trim e)) in *.
  destruct (withEmail key users) as [d|] eqn:Hf.
  - pose proof (withEmail_Some _ _ _ Hf) as (Hd & Hde & Hm).
    assert (d = {| _id := _id d; fields := fields d; modifiedPaths := [] |})
      as Hdoc by (destruct d; simpl in *; by subst).
    assert (∀ id u, users !! id = Some u → email u = key →
                    id = _id d ∧ u = fields d) as Hthe.
    { intros id u Hu He.
      assert (id = _id d) as -> by (apply (Huniq _ _ _ _ Hu Hd); congruence).
      split; [done|]. congruence. }
    destruct Hcases as (H1 & H2 & H3). split_and!.
    + rewrite H1. split.
      * intros [?|(u & [= <-] & Hrest)]; [done|]. right.
        by exists (_id d), (fields d).
      * intros [Hall|(id & u & Hu & He & Hrest)].
        { by destruct (Hall _ _ Hd). }
        destruct (Hthe _ _ Hu He) as [-> ->]. right. by exists d.
    + rewrite H2. split.
      * intros (u & h & [= <-] & Hrest). by exists (_id d), (fields d), h.
      * intros (id & u & h & Hu & He & Hrest).
        destruct (Hthe _ _ Hu He) as [-> ->]. by exists d, h.
    + intros resp. rewrite H3. split.
      * intros (u & h & [= <-] & Hh & Hne & Ha & Hc & ->).
        exists (_id d), (fields d), h. rewrite <-Hdoc. by split_and!.
      * intros (id & u & h & Hu & He & Hh & Hne & Ha & Hc & ->).
        destruct (Hthe _ _ Hu He) as [-> ->]. exists d, h.
        rewrite <-Hdoc. by split_and!.
  - pose proof (proj1 (withEmail_None _ _) Hf) as Hnone.
    destruct Hcases as (H1 & H2 & H3). split_and!.
    + rewrite H1. split; [by left|by left].
    + rewrite H2. split.
      * by intros (u & h & ? & _).
      * intros (id & u & h & Hu & He & _). by destruct (Hnone _ _ Hu).
    + intros resp. rewrite H3. split.
      * by intros (u & h & ? & _).
      * intros (id & u & h & Hu & He & _). by destruct (Hnone _ _ Hu).
Qed.

End login.

(** A deactivated account with the right password is told so, with its
    own message; the right password of an active account logs in. *)
Example login_deactivated :
  (@AuthController.login Demo.platform (Demo.config "production")
     (Demo.request [("email", "bob@example.org"); ("password", "letmein1")])
     Express.freshResponse Demo.users).2
  = inl (AppError "Account is deactivated" 401).
Proof. reflexivity. Qed.

Example login_success :
  match (@AuthController.login Demo.platform (Demo.config "production")
           (Demo.request [("email", "alice@example.org"); ("password", "hunter22")])
           Express.freshResponse Demo.users).2 with
  | inr res => Express.statusCode res = 200 ∧ length (Express.cookies res) = 1
  | inl _ => False
  end.
Proof. by vm_compute. Qed.

(** Alice logs in with her address in capitals and between spaces: the
    account found is the one that stores the address in lower case. *)
Lemma C5_witness :
  let req := Demo.request [("email", "  ALICE@Example.org ");
                           ("password", "hunter22")] in
  UserModel.email <$> Demo.users !! 1 = Some "alice@example.org"
  ∧ @AuthController.login Demo.platform (Demo.config "production") req
        Express.freshResponse Demo.users
    = (Demo.users,
       inr (@SendToken.sendUserResponse Demo.platform (Demo.config "production")
              Express.freshResponse
              {| UserModel._id := 1; UserModel.fields := Demo.alice;
                 UserModel.modifiedPaths := [] |} 200)).
Proof.
  intros req. split; [reflexivity|].
  destruct (@C5_login_outcomes Demo.platform (Demo.config "production") req
              Express.freshResponse Demo.users)
    as (Hst & _ & _ & Hok).
  - reflexivity.
  - exact emailsUnique_users.
  - apply injective_projections; [exact Hst|]. apply Hok.
    exists 1, Demo.alice, "$2a$10$hunter22".
    split; [reflexivity|]. split; [reflexivity|]. split; [reflexivity|].
    split; [discriminate|]. split; [reflexivity|]. split; reflexivity.
Defined.

(** C5 (as stated, refuted). No account has the email of the first request,
    yet the login does not fail with [Invalid credentials]: the password is
    empty, and the request is refused with status 400.  The account of the
    second request is inactive and the password is the right one: the login
    fails, but with [Account is deactivated]. *)
Lemma C5_absent_account_not_InvalidCredentials :
  let absent := Demo.request [("email", "a@b.c"); ("password", "")] in
  let inactive := Demo.request [("email", "bob@example.org");
                                ("password", "letmein1")] in
  UserModel.email <$> Demo.users !! 1 = Some "alice@example.org"
  ∧ UserModel.email <$> Demo.users !! 2 = Some "bob@example.org"
  ∧ dom Demo.users = {[ 1; 2 ]}
  ∧ UserModel.isActive <$> Demo.users !! 2 = Some false
  ∧ @AuthController.login Demo.platform (Demo.config "production") absent
        Express.freshResponse Demo.users
    = (Demo.users, inl (AppError "Please provide email and password" 400))
  ∧ @AuthController.login Demo.platform (Demo.config "production") inactive
        Express.freshResponse Demo.users
    = (Demo.users, inl (AppError "Account is deactivated" 401)).
Proof. split_and!; by vm_compute. Qed.

(** ** Profile update *)

Section profile.
Context `{Platform}.
Import Express UserModel.








End profile.

(** A body that also carries [role] and [email] changes the name only (after
    trimming). *)
Example updateProfile_ignores_role :
  let caller := {| UserModel._id := 1; UserModel.fields := Demo.alice;
                   UserModel.modifiedPaths := [] |} in
  let req := Express.with_user caller
      (Demo.request [("name", "  Alice B.  "); ("role", "admin");
                     ("email", "eve@example.org")]) in
  (@AuthController.updateProfile Demo.platform req Express.freshResponse
     Demo.users).1 !! 1
  = Some {| UserModel.email := "alice@example.org";
            UserModel.passwordHash := Some "$2a$10$hunter22";
            UserModel.googleId := None;
            UserModel.name := "Alice B.";
            UserModel.bio := "";
            UserModel.role := "user";
            UserModel.isActive := true;
            UserModel.__v := 0 |}.
Proof. reflexivity. Qed.

(** ** Read state of notifications *)

Section read_state.
Import Notification NotificationModel.

Lemma sameButReadStamp_refl (n : t) : sameButReadStamp n n.
Proof. by repeat split. Qed.

Lemma set_isRead_marked (now : nat) (n : t) :
  sameButReadStamp n (set_isRead now n) ∧ isRead (set_isRead now n) = true ∧
  updatedAt (set_isRead now n) = now.
Proof. by repeat split. Qed.

Lemma set_isRead_again (now t' : nat) (n : t) :
  sameButReadStamp (set_isRead now n) (set_isRead t' (set_isRead now n)) ∧
  isRead (set_isRead t' (set_isRead now n)) = isRead (set_isRead now n).
Proof. by repeat split. Qed.

Lemma with_notifications_twice f g (st : State) :
  with_notifications f (with_notifications g st) = with_notifications (f ∘ g) st.
Proof. done. Qed.

Lemma with_notifications_ext f g (st : State) :
  f (notifications st) = g (notifications st) →
  with_notifications f st = with_notifications g st.
Proof. unfold with_notifications. by intros ->. Qed.

Lemma with_notifications_id (st : State) : with_notifications id st = st.
Proof. by destruct st. Qed.

(** [findByIdAndUpdate(id, { isRead: true })] *)
Lemma findByIdAndUpdate_read_marks (id : ObjectId) :
  marksReadOnly (findByIdAndUpdate_read id)
  ∧ repeatsUpToStamp (findByIdAndUpdate_read id).
Proof.
  split.
  - intros st st'. unfold st', findByIdAndUpdate_read, modify; simpl.
    split; [done|]. intros k. rewrite lookup_alter.
    destruct (decide (id = k)) as [<-|Hk].
    + destruct (notifications st !! id) as [n|]; constructor.
      right. apply set_isRead_marked.
    + destruct (notifications st !! k); constructor. by left.
  - intros st t' st'. unfold st', findByIdAndUpdate_read, modify; simpl.
    intros k. destruct (decide (id = k)) as [<-|Hk].
    + rewrite !lookup_alter, !decide_True by done.
      destruct (notifications st !! id) as [n|]; constructor.
      apply set_isRead_again.
    + rewrite !lookup_alter, !decide_False by done.
      destruct (notifications st !! k); constructor.
      split; [apply sameButReadStamp_refl|done].
Qed.

(** [updateMany({ recipientId, isRead: false }, { isRead: true })] *)
Lemma readAll_again (now t' : nat) (recipient : ObjectId) (n : t) :
  readAll t' recipient (readAll now recipient n) = readAll now recipient n.
Proof.
  unfold readAll. destruct (decide (recipientId n = recipient ∧ isRead n = false))
    as [Hn|Hn]; [|by rewrite decide_False].
  rewrite decide_False; [done|]. simpl. by intros [_ ?].
Qed.

Lemma updateMany_read_marks (recipient : ObjectId) :
  marksReadOnly (updateMany_read recipient)
  ∧ repeatsUpToStamp (updateMany_read recipient)
  ∧ repeatsExactly (updateMany_read recipient).
Proof.
  assert (repeatsExactly (updateMany_read recipient)) as Hexact.
  { intros st t' st'. unfold st', updateMany_read, modify; simpl.
    unfold at_time, with_notifications; simpl. f_equal.
    rewrite <-map_fmap_compose. apply map_fmap_ext. intros k n _. simpl.
    apply readAll_again. }
  split_and!; [| |done].
  - intros st st'. unfold st', updateMany_read, modify; simpl.
    split; [done|]. intros k. rewrite lookup_fmap.
    destruct (notifications st !! k) as [n|]; constructor.
    unfold readAll. case_decide; [right; apply set_isRead_marked|by left].
  - intros st t'. pose proof (Hexact st t') as He. cbv zeta in *.
    rewrite He. intros k.
    destruct (notifications (at_time t' (updateMany_read recipient st).1) !! k)
      as [n|] eqn:Hk; change (notifications (at_time t' ?s)) with (notifications s) in Hk;
      rewrite Hk; constructor.
    split; [apply sameButReadStamp_refl|done].
Qed.

(** [findOneAndUpdate({ _id, recipientId }, { isRead: true })] *)
Lemma findOneAndUpdate_read_store (id recipient : ObjectId) (st : State) :
  (findOneAndUpdate_read id recipient st).1 =
  match notifications st !! id with
  | Some n => if decide (recipientId n = recipient)
              then with_notifications (insert id (set_isRead (now st) n)) st
              else st
  | None => st
  end.
Proof.
  unfold findOneAndUpdate_read. destruct (notifications st !! id); [|done].
  by case_decide.
Qed.

Lemma findOneAndUpdate_read_marks (id recipient : ObjectId) :
  marksReadOnly (findOneAndUpdate_read id recipient)
  ∧ repeatsUpToStamp (findOneAndUpdate_read id recipient).
Proof.
  split.
  - intros st st'. unfold st'. rewrite findOneAndUpdate_read_store.
    destruct (notifications st !! id) as [n|] eqn:Hn; cycle 1.
    { split; [by destruct st|]. intros k.
      destruct (notifications st !! k); constructor. by left. }
    destruct (decide (recipientId n = recipient)) as [Hr|Hr]; cycle 1.
    { split; [by destruct st|]. intros k.
      destruct (notifications st !! k); constructor. by left. }
    split; [done|]. simpl. intros k. destruct (decide (id = k)) as [<-|Hk].
    + rewrite lookup_insert_eq, Hn. constructor. right. apply set_isRead_marked.
    + rewrite lookup_insert_ne by done.
      destruct (notifications st !! k); constructor. by left.
  - intros st t' st'. unfold st'. rewrite !findOneAndUpdate_read_store.
    assert (∀ m : gmap ObjectId t,
              sameIds (λ n n', sameButReadStamp n n' ∧ isRead n' = isRead n) m m)
      as Hrefl.
    { intros m k. destruct (m !! k); constructor.
      split; [apply sameButReadStamp_refl|done]. }
    destruct (notifications st !! id) as [n|] eqn:Hn; cycle 1.
    { simpl. rewrite Hn. apply Hrefl. }
    destruct (decide (recipientId n = recipient)) as [Hr|Hr]; cycle 1.
    { simpl. rewrite Hn. rewrite decide_False by done. apply Hrefl. }
    simpl. rewrite lookup_insert_eq. simpl. rewrite decide_True by done.
    simpl. intros k. destruct (decide (id = k)) as [<-|Hk].
    + rewrite !lookup_insert_eq. constructor. apply set_isRead_again.
    + rewrite !lookup_insert_ne by done.
      destruct (notifications st !! k); constructor.
      split; [apply sameButReadStamp_refl|done].
Qed.

End read_state.

(** C3 (amended). Marking one notification read and marking all read, by
    the HTTP routes and by the socket events alike, touch nothing but
    notifications, create and delete none, and change no field of a
    notification but [isRead], which becomes [true], and [updatedAt], which
    becomes the time of the call.  Run a second time, at whatever time, each
    changes no field but [updatedAt]; marking all read then changes
    nothing at all. *)
Theorem C3_mark_read_flag_only_idempotent (user id : ObjectId) (socket : Socket) :
  (marksReadOnly (NotificationRoutes.markRead user id)
   ∧ repeatsUpToStamp (NotificationRoutes.markRead user id))
  ∧ (marksReadOnly (NotificationRoutes.markAllRead user)
     ∧ repeatsExactly (NotificationRoutes.markAllRead user))
  ∧ (marksReadOnly (SocketConfig.onNotificationRead socket id)
     ∧ repeatsUpToStamp (SocketConfig.onNotificationRead socket id))
  ∧ (marksReadOnly (SocketConfig.onNotificationsReadAll socket)
     ∧ repeatsExactly (SocketConfig.onNotificationsReadAll socket)).
Proof.
  split_and!.
  - apply findOneAndUpdate_read_marks.
  - apply findOneAndUpdate_read_marks.
  - apply updateMany_read_marks.
  - apply updateMany_read_marks.
  - apply findByIdAndUpdate_read_marks.
  - apply findByIdAndUpdate_read_marks.
  - apply updateMany_read_marks.
  - apply updateMany_read_marks.
Qed.

(** C3 (as stated, refuted). The notification 3 of student 2 was written at
    the time 10.  Marked read by its recipient at the time 100, it has
    [updatedAt] 100: a field other than the read flag has changed.  Marked
    read again at the time 200, it has [updatedAt] 200: the store is not as
    the first application left it. *)
Lemma C3_second_mark_read_rewrites_updatedAt :
  let st1 := (NotificationRoutes.markRead 2 3 Demo.state).1 in
  let st2 := (NotificationRoutes.markRead 2 3 (at_time 200 st1)).1 in
  Notification.updatedAt <$> notifications Demo.state !! 3 = Some 10
  ∧ Notification.updatedAt <$> notifications st1 !! 3 = Some 100
  ∧ Notification.updatedAt <$> notifications st2 !! 3 = Some 200
  ∧ notifications st2 ≠ notifications st1.
Proof.
  intros st1 st2. split_and!; [reflexivity..|].
  intros Heq. apply (f_equal (λ m, Notification.updatedAt <$> m !! 3)) in Heq.
  discriminate Heq.
Qed.

(** C9. The socket event [notification:read] sets the read flag of the
    notification with the given id to [true], whoever the connected user
    is; the HTTP route sets it when the caller is the recipient and
    otherwise changes nothing.  Where the flag is set, [updatedAt] becomes
    the time of the call and the other fields stay. *)
Theorem C9_socket_read_ignores_recipient (socket : Socket) (user id : ObjectId)
    (st : State) (n : Notification.t) :
  notifications st !! id = Some n →
  (∃ n', notifications (SocketConfig.onNotificationRead socket id st).1 !! id
           = Some n'
         ∧ Notification.isRead n' = true
         ∧ Notification.updatedAt n' = now st
         ∧ sameButReadStamp n n')
  ∧ (Notification.recipientId n = user →
     ∃ n', notifications (NotificationRoutes.markRead user id st).1 !! id
             = Some n'
           ∧ Notification.isRead n' = true
           ∧ Notification.updatedAt n' = now st
           ∧ sameButReadStamp n n')
  ∧ (Notification.recipientId n ≠ user →
     (NotificationRoutes.markRead user id st).1 = st).
Proof.
  intros Hn. split_and!.
  - exists (Notification.set_isRead (now st) n). split; [|by repeat split].
    simpl. rewrite lookup_alter, decide_True by done. by rewrite Hn.
  - intros Hr. exists (Notification.set_isRead (now st) n).
    split; [|by repeat split]. unfold NotificationRoutes.markRead.
    rewrite findOneAndUpdate_read_store, Hn, decide_True by done.
    simpl. by rewrite lookup_insert_eq.
  - intros Hr. unfold NotificationRoutes.markRead.
    by rewrite findOneAndUpdate_read_store, Hn, decide_False by done.
Qed.

(** The notification 3 of student 2 is unread.  The socket of user 1 marks
    it read; the HTTP route called by user 1 leaves the state as it is. *)
Lemma C9_witness :
  Notification.recipientId <$> notifications Demo.state !! 3 = Some 2
  ∧ Notification.isRead <$> notifications Demo.state !! 3 = Some false
  ∧ Notification.isRead
      <$> notifications (SocketConfig.onNotificationRead (Demo.socket 1) 3
                           Demo.state).1 !! 3
    = Some true
  ∧ (NotificationRoutes.markRead 1 3 Demo.state).1 = Demo.state.
Proof.
  assert (notifications Demo.state !! 3 = Some (Demo.note 2 false)) as Hn
    by reflexivity.
  split; [reflexivity|]. split; [reflexivity|].
  destruct (C9_socket_read_ignores_recipient (Demo.socket 1) 1 3
              Demo.state (Demo.note 2 false) Hn)
    as ((n' & Hsock & Hread & _) & _ & Hhttp).
  split.
  - rewrite Hsock. simpl. by rewrite Hread.
  - apply Hhttp. simpl. lia.
Defined.

(** ** The unread count *)

Section listing.
Context `{Platform}.
Import Notification NotificationModel NotificationService.

Lemma countDocuments_unread (user : ObjectId) (m : gmap ObjectId t) :
  countDocuments (matches user true) m =
  size (filter (λ kv, recipientId kv.2 = user ∧ isRead kv.2 = false) m).
Proof.
  unfold countDocuments. f_equal. apply map_filter_ext. intros k n _. simpl.
  unfold matches. rewrite andb_true_iff, bool_decide_eq_true. simpl.
  by rewrite negb_true_iff.
Qed.

Lemma getUserNotifications_run (user : ObjectId) (options : Options) (st : State) :
  let page := default 1%Z (opt_page options) in
  let limit := default 20%Z (opt_limit options) in
  match getUserNotifications user options st with
  | (st', inr listing) =>
      st' = st ∧
      unreadCount listing = countDocuments (matches user true) (notifications st)
  | (st', inl _) => st' = st ∧ ((page - 1) * limit < 0)%Z
  end.
Proof.
  unfold getUserNotifications, mbind, M_bind, gets, lift_result, mret, M_ret,
    findPage. simpl.
  by case_decide.
Qed.

(** C4. Whatever the page, the limit and the unread-only option, a
    listing that [getUserNotifications] returns carries as [unreadCount] the
    number of stored notifications of that recipient whose read flag is
    unset; the listing is returned unless the skip [(page - 1) * limit] is
    negative, which the database refuses; the state is not changed.  The
    routes [GET /] and [GET /unread-count] answer with the same count. *)
Theorem C4_unreadCount_is_count_of_unread (user : ObjectId) (options : Options)
    (query : gmap string string) (st : State) :
  let unread :=
    size (filter (λ kv, recipientId kv.2 = user ∧ isRead kv.2 = false)
            (notifications st)) in
  match getUserNotifications user options st with
  | (st', inr listing) => st' = st ∧ unreadCount listing = unread
  | (st', inl _) =>
      st' = st ∧
      ((default 1 (opt_page options) - 1) * default 20 (opt_limit options) < 0)%Z
  end
  ∧ match NotificationRoutes.getNotifications user query st with
    | (st', inr listing) => st' = st ∧ unreadCount listing = unread
    | (st', inl _) =>
        st' = st ∧
        ((NotificationRoutes.parseInt_or (query !! "page") 1 - 1)
         * NotificationRoutes.parseInt_or (query !! "limit") 20 < 0)%Z
    end
  ∧ NotificationRoutes.getUnreadCount user st = (st, inr unread).
Proof.
  intros unread. unfold unread. rewrite <-countDocuments_unread. split_and!.
  - apply getUserNotifications_run.
  - apply (getUserNotifications_run user
      {| opt_page := Some (NotificationRoutes.parseInt_or (query !! "page") 1);
         opt_limit := Some (NotificationRoutes.parseInt_or (query !! "limit") 20);
         opt_unreadOnly := Some (bool_decide (query !! "unreadOnly" = Some "true")) |}).
  - done.
Qed.

End listing.

(** ** Application status *)

Section application_status.
Import NotificationModel NotificationService.

Lemma create_applications r rt input (st : State) :
  applications (create r rt input st).1 = applications st.
Proof. unfold create. by destruct (Notification.validate _). Qed.

Lemma sendToUser_applications r rt input (st : State) :
  applications (sendToUser r rt input st).1 = applications st.
Proof.
  unfold sendToUser, mbind, M_bind.
  pose proof (create_applications r rt input st) as Hc.
  destruct (create r rt input st) as [st1 [e|n]]; simpl in *; done.
Qed.

Lemma notifyApplicationStatus_applications application event status (st : State) :
  applications (notifyApplicationStatus application event status st).1
  = applications st.
Proof.
  unfold notifyApplicationStatus. destruct event; [|done].
  apply sendToUser_applications.
Qed.

(** C1 (amended). [updateApplicationStatus] does not look at the current
    status.  For a stored application and a new status among [pending],
    [accepted] and [rejected] it writes the new status over the stored one,
    whatever that was; for another status the save is refused and nothing
    changes; when the application does not exist it fails with status 404
    and nothing changes. *)
Theorem C1_updateApplicationStatus_overwrites (id : ObjectId) (status : string)
    (st : State) :
  let r := ApplicationController.updateApplicationStatus id status st in
  match applications st !! id with
  | None => r = (st, inl (AppError "Application not found" 404))
  | Some a =>
      if decide (status ∈ ["pending"; "accepted"; "rejected"]) then
        applications r.1 = <[id := Application.set_status status a]> (applications st)
      else r = (st, inl (ValidationError "status"))
  end.
Proof.
  intros r. unfold r, ApplicationController.updateApplicationStatus.
  rewrite bind_run, gets_run.
  destruct (applications st !! id) as [a|] eqn:Ha; [|done].
  rewrite bind_run, gets_run, bind_run.
  unfold ApplicationController.save, Application.validate.
  rewrite bind_run. unfold lift_result. simpl.
  destruct (decide (status ∈ ["pending"; "accepted"; "rejected"])) as [Hs|Hs];
    cycle 1.
  { by rewrite bool_decide_eq_false_2 by done. }
  rewrite bool_decide_eq_true_2 by done. simpl.
  set (st1 := with_applications _ st).
  assert (applications st1
          = <[id := Application.set_status status a]> (applications st)) as Hst1.
  { unfold st1. simpl. apply map_eq; intros k. rewrite lookup_alter.
    destruct (decide (id = k)) as [<-|Hk].
    - by rewrite Ha, lookup_insert_eq.
    - by rewrite lookup_insert_ne. }
  rewrite bind_run.
  destruct (decide (status = "accepted" ∨ status = "rejected")); [|done].
  rewrite bind_run.
  set (ev := _ <$> events st !! _).
  pose proof (notifyApplicationStatus_applications
                (id, Application.set_status status a) ev status st1) as Hn.
  destruct (notifyApplicationStatus _ ev status st1) as [st2 [e|n]];
    simpl in *; congruence.
Qed.

End application_status.

(** C1 (as stated, refuted). The application 0 is accepted; the request to
    reject it is answered with success and the stored status becomes
    [rejected]. *)
Lemma C1_accepted_application_gets_rejected :
  let r := ApplicationController.updateApplicationStatus 0 "rejected" Demo.state in
  Application.status <$> applications Demo.state !! 0 = Some "accepted"
  ∧ r.2 = inr (0, {| Application.eventId := 5; Application.studentId := 1;
                     Application.status := "rejected" |})
  ∧ Application.status <$> applications r.1 !! 0 = Some "rejected".
Proof. by vm_compute. Qed.

(** ** Notifications of a new event *)

Section new_event.
Import Notification NotificationModel NotificationService.

Lemma length_append (a b : string) :
  String.length (a +:+ b) = String.length a + String.length b.
Proof. induction a as [|c a IH]; simpl; [done|]. by rewrite IH. Qed.

Lemma countDocuments_insert_fresh (q : t → bool) (k : ObjectId) (n : t)
    (m : gmap ObjectId t) :
  m !! k = None →
  countDocuments q (<[k := n]> m)
  = countDocuments q m + (if q n then 1 else 0).
Proof.
  intros Hk. unfold countDocuments. rewrite map_filter_insert. simpl.
  destruct (q n) eqn:Hq.
  - rewrite decide_True by done. rewrite map_size_insert_None; [lia|].
    apply map_lookup_filter_None. by left.
  - rewrite decide_False by done. rewrite delete_id by done. lia.
Qed.

Lemma create_valid r rt input (st : State) :
  validate (document r rt input (now st)) = inr () →
  let id := fresh (dom (notifications st)) in
  notifications st !! id = None ∧
  create r rt input st
  = (with_notifications (insert id (document r rt input (now st))) st,
     inr (id, document r rt input (now st))).
Proof.
  intros Hv. split.
  - apply not_elem_of_dom, is_fresh.
  - unfold create. by rewrite Hv.
Qed.

Lemma create_invalid r rt input (st : State) (e : Error) :
  validate (document r rt input (now st)) = inl e →
  create r rt input st = (st, inl e).
Proof. intros Hv. unfold create. by rewrite Hv. Qed.

(** All documents of one [sendToMultipleUsers] pass or fail the schema
    together: the validators do not read the recipient. *)
Lemma validate_recipient r r' rt input now :
  validate (document r rt input now) = validate (document r' rt input now).
Proof. done. Qed.

Lemma Promise_all_cons {S A} (p : M S A) (ps : list (M S A)) (s : S) :
  Promise_all (p :: ps) s =
  let '(s1, r) := p s in
  let '(s2, rs) := Promise_all ps s1 in
  (s2, match r, rs with
       | inr a, inr l => inr (a :: l)
       | inl e, _ => inl e
       | inr _, inl e => inl e
       end).
Proof. done. Qed.

Lemma Promise_all_create rt input (ids : list ObjectId) (st : State) :
  validate (document 0 rt input (now st)) = inr () →
  ∃ st' created,
    Promise_all ((λ r, create r rt input) <$> ids) st = (st', inr created)
    ∧ students st' = students st
    ∧ now st' = now st
    ∧ notifications st ⊆ notifications st'
    ∧ ∀ q, countDocuments q (notifications st')
           = countDocuments q (notifications st)
             + length (filter (λ r, q (document r rt input (now st)) = true) ids).
Proof.
  revert st. induction ids as [|r ids IH]; intros st Hv.
  { exists st, []. split_and!; first [done | intros q; simpl; lia]. }
  assert (validate (document r rt input (now st)) = inr ()) as Hr
    by by rewrite (validate_recipient r 0).
  destruct (create_valid r rt input st Hr) as [Hfresh Hc].
  set (st1 := with_notifications _ st) in Hc.
  destruct (IH st1 Hv) as (st' & created & Hrun & Hstu & Hnow & Hsub & Hcount).
  exists st', ((fresh (dom (notifications st)), document r rt input (now st)) :: created).
  split_and!.
  - by rewrite fmap_cons, Promise_all_cons, Hc, Hrun.
  - by rewrite Hstu.
  - by rewrite Hnow.
  - etrans; [|exact Hsub]. by apply insert_subseteq.
  - intros q. rewrite Hcount. subst st1. simpl.
    rewrite countDocuments_insert_fresh by done.
    rewrite filter_cons. simpl.
    destruct (q (document r rt input (now st))) eqn:Hq.
    + rewrite decide_True by done. simpl. lia.
    + rewrite decide_False by done. lia.
Qed.

Lemma Promise_all_create_invalid rt input (ids : list ObjectId) (st : State) e :
  validate (document 0 rt input (now st)) = inl e →
  ids ≠ [] →
  Promise_all ((λ r, create r rt input) <$> ids) st = (st, inl e).
Proof.
  intros Hv. induction ids as [|r ids IH]; [done|]. intros _.
  rewrite fmap_cons, Promise_all_cons.
  rewrite (create_invalid r rt input st e) by by rewrite (validate_recipient r 0).
  destruct ids as [|r' ids]; [done|].
  by rewrite IH.
Qed.

Lemma emit_each_run (pairs : list (ObjectId * (ObjectId * t))) (st : State) :
  ∃ st', foldr (λ '(recipientId, notification) rest,
                  _ ← emit (UserRoom recipientId) notification; rest)
               (mret ()) pairs st = (st', inr ())
         ∧ notifications st' = notifications st
         ∧ students st' = students st.
Proof.
  revert st. induction pairs as [|[r n] pairs IH]; intros st; simpl.
  { by exists st. }
  rewrite bind_run. unfold emit at 1, modify. simpl.
  destruct (IH (
    {| students := students st; applications := applications st;
       events := events st; notifications := notifications st;
       now := now st; connectedUsers := connectedUsers st;
       rooms := rooms st; emitted := emitted st ++ [(UserRoom r, n)] |}))
    as (st' & Hrun & Hn & Hs).
  exists st'. by rewrite Hrun.
Qed.

Lemma elem_of_interestedStudents (university s : ObjectId)
    (m : gmap ObjectId Student.t) :
  s ∈ interestedStudents university m ↔
  ∃ student, m !! s = Some student ∧
             university ∈ Student.interestedUniversities student.
Proof.
  unfold interestedStudents. rewrite list_elem_of_fmap. split.
  - intros [[k student] [-> Hin]]. exists student.
    apply elem_of_map_to_list in Hin. by apply map_lookup_filter_Some in Hin.
  - intros (student & Hs & Hu). exists (s, student). split; [done|].
    apply elem_of_map_to_list, map_lookup_filter_Some. by split.
Qed.

Lemma NoDup_interestedStudents (university : ObjectId) (m : gmap ObjectId Student.t) :
  NoDup (interestedStudents university m).
Proof. apply NoDup_fst_map_to_list. Qed.

Lemma length_filter_NoDup (f : ObjectId → bool) (s : ObjectId) (l : list ObjectId) :
  (∀ r, f r = true ↔ r = s) → NoDup l →
  length (filter (λ r, f r = true) l) = if decide (s ∈ l) then 1 else 0.
Proof.
  intros Hf. induction 1 as [|r l Hr Hl IH]; [done|].
  rewrite filter_cons. destruct (decide (f r = true)) as [Hfr|Hfr].
  - apply Hf in Hfr as ->. simpl. rewrite IH.
    rewrite decide_False by done. rewrite decide_True by by left. done.
  - rewrite IH. destruct (decide (s ∈ l)) as [Hs|Hs].
    + rewrite decide_True by by right. done.
    + rewrite decide_False; [done|]. intros [->|?]%elem_of_cons; [|done].
      apply Hfr. by apply Hf.
Qed.

Lemma newEvent_valid event university (r : ObjectId) (created : nat) :
  String.length (in_message (newEventInput event university)) ≤ 500 →
  validate (document r "Student" (newEventInput event university) created)
  = inr ().
Proof.
  intros Hlen. unfold validate, document. simpl in *.
  rewrite (bool_decide_eq_false_2 (500 < _)) by lia.
  rewrite bool_decide_eq_false_2; [done|].
  intros Hm. apply (f_equal String.length) in Hm.
  rewrite length_append in Hm. simpl in Hm. lia.
Qed.

(** C2 (amended). When the message of the notification,
    [<university name> has posted a new event: "<title>"], has at most 500
    characters, [notifyNewEvent] succeeds, keeps every stored notification,
    and adds for each student exactly one notification of type [new_event]
    about the event if the student's interests contain the university, and
    none otherwise. *)
Theorem C2_notifyNewEvent_one_per_interested_student
    (event : ObjectId * Event.t) (university : ObjectId * University.t)
    (st : State) :
  String.length (in_message (newEventInput event university)) ≤ 500 →
  let r := notifyNewEvent event university st in
  (∃ created, r.2 = inr created)
  ∧ notifications st ⊆ notifications r.1
  ∧ ∀ s : ObjectId,
      countDocuments (isNewEventFor s event.1) (notifications r.1)
      = countDocuments (isNewEventFor s event.1) (notifications st)
        + match students st !! s with
          | Some student =>
              if decide (university.1 ∈ Student.interestedUniversities student)
              then 1 else 0
          | None => 0
          end.
Proof.
  intros Hlen r.
  assert (∀ s, (if decide (s ∈ interestedStudents university.1 (students st))
                then 1 else 0)
               = match students st !! s with
                 | Some student =>
                     if decide (university.1 ∈ Student.interestedUniversities student)
                     then 1 else 0
                 | None => 0
                 end) as Hind.
  { intros s. pose proof (elem_of_interestedStudents university.1 s (students st)) as Hs.
    destruct (students st !! s) as [student|].
    - destruct (decide (university.1 ∈ Student.interestedUniversities student)).
      + rewrite decide_True; [done|]. apply Hs. eauto.
      + rewrite decide_False; [done|]. intros (?&?&?)%Hs. by simplify_eq.
    - rewrite decide_False; [done|]. by intros (?&?&?)%Hs. }
  unfold r, notifyNewEvent. rewrite bind_run, gets_run.
  set (ids := interestedStudents university.1 (students st)) in *.
  destruct (decide (length ids = 0)) as [Hnil|Hnil].
  { apply nil_length_inv in Hnil. rewrite ret_run. simpl.
    split_and!; [by eexists|done|]. intros s. rewrite <-Hind, Hnil.
    rewrite decide_False by apply not_elem_of_nil. lia. }
  unfold sendToMultipleUsers. rewrite bind_run.
  destruct (Promise_all_create "Student" (newEventInput event university) ids st)
    as (st1 & created & Hrun & Hstu & Hnow & Hsub & Hcount).
  { by apply newEvent_valid. }
  rewrite Hrun. rewrite bind_run.
  destruct (emit_each_run (zip ids created) st1) as (st2 & Hemit & Hn2 & Hs2).
  rewrite Hemit, ret_run. simpl. rewrite Hn2.
  split_and!; [by eexists|done|].
  intros s. rewrite Hcount, <-Hind. f_equal.
  apply length_filter_NoDup; [|apply NoDup_interestedStudents].
  intros r0. unfold isNewEventFor. rewrite bool_decide_eq_true. simpl.
  split; [by intros (? & _ & _) | by intros ->].
Qed.

End new_event.

(** A university with a short name announces an event with a short title
    to the student who follows it. *)
Lemma C2_witness :
  let event := (8, {| Event.title := "Open day"; Event.universityId := 7 |}) in
  let r := NotificationService.notifyNewEvent event Demo.university Demo.state in
  String.length (NotificationModel.in_message
                   (NotificationService.newEventInput event Demo.university)) ≤ 500
  ∧ NotificationModel.countDocuments (isNewEventFor 1 8) (notifications r.1) = 1
  ∧ NotificationModel.countDocuments (isNewEventFor 2 8) (notifications r.1) = 0.
Proof.
  intros event r.
  assert (String.length (NotificationModel.in_message
            (NotificationService.newEventInput event Demo.university)) ≤ 500)
    as Hlen by (vm_compute; lia).
  split; [exact Hlen|].
  destruct (C2_notifyNewEvent_one_per_interested_student
              event Demo.university Demo.state Hlen) as (_ & _ & Hcount).
  split; [exact (Hcount 1) | exact (Hcount 2)].
Defined.

(** C2 (as stated, refuted). Student 1 follows university 7, which posts
    an event with a title of 500 characters: the notification is refused
    by the schema ([message] is longer than 500), the dispatch fails, and
    student 1 has no notification about the event. *)
Lemma C2_long_title_notifies_nobody :
  let r := NotificationService.notifyNewEvent Demo.longEvent Demo.university
             Demo.state in
  Student.interestedUniversities <$> students Demo.state !! 1 = Some [7]
  ∧ r.2 = inl (ValidationError "message")
  ∧ NotificationModel.countDocuments (isNewEventFor 1 6) (notifications r.1) = 0.
Proof. by vm_compute. Qed.

(** * Further properties *)

(** ** Accounts: signup, Google sign-in, profile *)

(** The cast of an email address is stable: casting a stored address
    gives it back. *)
Section email_cast.
Import UserModel.

Lemma string_app_cons (c : Ascii.ascii) (s t : string) :
  String c s +:+ t = String c (s +:+ t).
Proof. done. Qed.

Lemma string_app_empty_r (s : string) : s +:+ "" = s.
Proof. induction s as [|c s IH]; [done|]. by rewrite string_app_cons, IH. Qed.

Lemma app_assoc_string (s t u : string) : (s +:+ t) +:+ u = s +:+ (t +:+ u).
Proof. induction s as [|c s IH]; [done|]. by rewrite !string_app_cons, IH. Qed.

Lemma string_rev_app_spec (s t : string) : String.rev_app s t = String.rev s +:+ t.
Proof.
  unfold String.rev. revert t. induction s as [|c s IH]; intros t; [done|].
  simpl. rewrite IH, (IH (String c "")). by rewrite app_assoc_string.
Qed.

Lemma string_rev_cons (c : Ascii.ascii) (s : string) :
  String.rev (String c s) = String.rev s +:+ String c "".
Proof. unfold String.rev at 1. simpl. apply string_rev_app_spec. Qed.

Lemma string_rev_app (s t : string) :
  String.rev (s +:+ t) = String.rev t +:+ String.rev s.
Proof.
  induction s as [|c s IH].
  - change ("" +:+ t) with t. by rewrite string_app_empty_r.
  - by rewrite string_app_cons, !string_rev_cons, IH, app_assoc_string.
Qed.

Lemma string_rev_involutive (s : string) : String.rev (String.rev s) = s.
Proof.
  induction s as [|c s IH]; [done|].
  by rewrite string_rev_cons, string_rev_app, IH.
Qed.

Lemma trimStart_idem (s : string) : trimStart (trimStart s) = trimStart s.
Proof.
  induction s as [|c s IH]; [done|]. simpl.
  destruct (Ascii.is_space c) eqn:Hc; [done|]. simpl. by rewrite Hc.
Qed.

Lemma trimStart_split (s : string) :
  ∃ w, s = w +:+ trimStart s.
Proof.
  induction s as [|c s [w IH]]; [by exists ""|]. simpl.
  destruct (Ascii.is_space c).
  - exists (String c w). by rewrite string_app_cons, <-IH.
  - by exists "".
Qed.

Lemma trim_idem (s : string) : trim (trim s) = trim s.
Proof.
  unfold trim.
  set (a := trimStart s). set (b := trimStart (String.rev a)).
  assert (trimStart a = a) as Ha by apply trimStart_idem.
  assert (trimStart b = b) as Hb by apply trimStart_idem.
  assert (trimStart (String.rev b) = String.rev b) as Hc.
  { destruct (trimStart_split (String.rev a)) as [w Hw]. fold b in Hw.
    apply (f_equal String.rev) in Hw.
    rewrite string_rev_involutive, string_rev_app in Hw.
    destruct (String.rev b) as [|x c'] eqn:Hrb; [done|].
    rewrite Hw, string_app_cons in Ha. simpl in Ha. simpl.
    destruct (Ascii.is_space x) eqn:Hx; [|done].
    exfalso. apply (f_equal String.length) in Ha. simpl in Ha.
    assert (∀ u, String.length (trimStart u) ≤ String.length u) as Hle.
    { induction u as [|d u IH]; simpl; [done|].
      destruct (Ascii.is_space d); simpl; lia. }
    pose proof (Hle (c' +:+ String.rev w)). lia. }
  by rewrite Hc, string_rev_involutive, Hb.
Qed.

Lemma is_space_lowerChar (c : Ascii.ascii) :
  Ascii.is_space (lowerChar c) = Ascii.is_space c.
Proof. by destruct c as [[] [] [] [] [] [] [] []]. Qed.

Lemma lowerChar_idem (c : Ascii.ascii) : lowerChar (lowerChar c) = lowerChar c.
Proof. by destruct c as [[] [] [] [] [] [] [] []]. Qed.

Lemma toLowerCase_idem (s : string) : toLowerCase (toLowerCase s) = toLowerCase s.
Proof.
  induction s as [|c s IH]; [done|]. simpl. by rewrite lowerChar_idem, IH.
Qed.

Lemma toLowerCase_app (s t : string) :
  toLowerCase (s +:+ t) = toLowerCase s +:+ toLowerCase t.
Proof.
  induction s as [|c s IH]; [done|]. rewrite string_app_cons. simpl.
  by rewrite IH, string_app_cons.
Qed.

Lemma toLowerCase_rev (s : string) :
  toLowerCase (String.rev s) = String.rev (toLowerCase s).
Proof.
  induction s as [|c s IH]; [done|]. simpl.
  by rewrite !string_rev_cons, toLowerCase_app, IH.
Qed.

Lemma toLowerCase_trimStart (s : string) :
  toLowerCase (trimStart s) = trimStart (toLowerCase s).
Proof.
  induction s as [|c s IH]; [done|]. simpl. rewrite is_space_lowerChar.
  by destruct (Ascii.is_space c).
Qed.

Lemma toLowerCase_trim (s : string) :
  toLowerCase (trim s) = trim (toLowerCase s).
Proof.
  unfold trim.
  by rewrite toLowerCase_rev, toLowerCase_trimStart, toLowerCase_rev,
    toLowerCase_trimStart.
Qed.

Lemma cast_idem (e : string) :
  toLowerCase (trim (toLowerCase (trim e))) = toLowerCase (trim e).
Proof.
  by rewrite <-toLowerCase_trim, toLowerCase_idem, trim_idem.
Qed.

End email_cast.

Section accounts.
Context `{Platform} (config : Config).
Import Express UserModel.

Lemma create_run (e : string) (p g : option string) (n : string)
    (users : gmap ObjectId User) :
  let r := UserSchema.create e p g n users in
  let u := {| email := UserModel.toLowerCase (trim e);
              passwordHash := stored p; googleId := trim <$> g;
              name := trim n; bio := ""; role := "user";
              isActive := true; __v := 0 |} in
  (∃ err, r = (users, inl err)) ∨
  (∃ id, users !! id = None ∧
         withEmail (email u) users = None ∧
         email u ≠ "" ∧
         r = (<[id := u]> users,
              inr {| _id := id; fields := u; modifiedPaths := [] |})).
Proof.
  intros r u. unfold r, UserSchema.create. rewrite bind_run. unfold lift_result.
  destruct (UserSchema.validateNew _) as [err|[]] eqn:Hv; [left; by eexists|].
  assert (UserModel.toLowerCase (trim e) ≠ "") as Hne.
  { intros He. revert Hv. unfold UserSchema.validateNew. simpl email.
    by rewrite He. }
  rewrite bind_run, gets_run. simpl.
  destruct (withEmail (UserModel.toLowerCase (trim e)) users) as [d|] eqn:Hf;
    [left; by eexists|].
  right. exists (fresh (dom users)). split_and!.
  - apply not_elem_of_dom, is_fresh.
  - done.
  - done.
  - rewrite bind_run, gets_run, bind_run. unfold modify. rewrite ret_run. simpl.
    unfold preSave, isModified. simpl.
    by destruct p as [[|c s]|].
Qed.


Lemma signup_run (req : Request) (res : Response) (users : gmap ObjectId User) :
  let r := AuthHandlers.signup config req res users in
  (∃ err, r = (users, inl err)) ∨
  (∃ id e p n,
     req_body req !! "email" = Some e ∧ req_body req !! "password" = Some p ∧
     req_body req !! "name" = Some n ∧ p ≠ "" ∧
     users !! id = None ∧
     withEmail (UserModel.toLowerCase (trim e)) users = None ∧
     let u := {| email := UserModel.toLowerCase (trim e);
                 passwordHash := Some (bcrypt_hash p 10); googleId := None;
                 name := trim n; bio := ""; role := "user";
                 isActive := true; __v := 0 |} in
     r = (<[id := u]> users,
          inr (SendToken.sendUserResponse config res
                 {| _id := id; fields := u; modifiedPaths := [] |} 201))).
Proof.
  intros r. unfold r, AuthHandlers.signup.
  destruct (req_body req !! "email") as [e|]; simpl; [|left; by eexists].
  destruct (req_body req !! "password") as [p|]; simpl;
    [|left; destruct e; by eexists].
  destruct (req_body req !! "name") as [n|]; simpl;
    [|left; destruct e, p; by eexists].
  destruct e as [|c e]; [left; by eexists|].
  destruct p as [|d p]; [left; by eexists|].
  destruct n as [|b n]; [left; by eexists|]. simpl.
  rewrite bind_run, gets_run.
  destruct (findOne_email (String c e) users); [left; by eexists|].
  rewrite bind_run.
  destruct (create_run (String c e) (Some (String d p)) None (String b n) users)
    as [[err Hc]|(id & Hid & Hf & _ & Hc)]; rewrite Hc; [left; by eexists|].
  right. exists id, (String c e), (String d p), (String b n).
  by split_and!.
Qed.


(** X2. If no two accounts share an email, no two accounts share one after a
    signup, whatever the request. *)
Theorem X2_signup_keeps_emails_unique (req : Request) (res : Response)
    (users : gmap ObjectId User) :
  emailsUnique users →
  emailsUnique (AuthHandlers.signup config req res users).1.
Proof.
  intros Hu.
  destruct (signup_run req res users)
    as [[err ->]|(id & e & p & n & _ & _ & _ & _ & Hid & Hf & ->)]; simpl; [done|].
  rewrite withEmail_None in Hf.
  intros i j u v Hi Hj He.
  apply lookup_insert_Some in Hi as [[<- <-]|[Hni Hi]];
    apply lookup_insert_Some in Hj as [[<- <-]|[Hnj Hj]]; simpl in *.
  - done.
  - by destruct (Hf _ _ Hj).
  - by destruct (Hf _ _ Hi).
  - by apply (Hu i j u v).
Qed.

Lemma falsy_Some (s : string) : s ≠ "" → falsy (Some s) = false.
Proof. by destruct s. Qed.

Lemma create_ok (e : string) (p g : option string) (n : string)
    (users : gmap ObjectId User) :
  let u0 := {| email := UserModel.toLowerCase (trim e); passwordHash := p;
               googleId := trim <$> g; name := trim n; bio := "";
               role := "user"; isActive := true; __v := 0 |} in
  let u := {| email := UserModel.toLowerCase (trim e);
              passwordHash := stored p; googleId := trim <$> g;
              name := trim n; bio := ""; role := "user";
              isActive := true; __v := 0 |} in
  UserSchema.validateNew u0 = inr () →
  withEmail (UserModel.toLowerCase (trim e)) users = None →
  ∃ id, users !! id = None ∧
        UserSchema.create e p g n users
        = (<[id := u]> users,
           inr {| _id := id; fields := u; modifiedPaths := [] |}).
Proof.
  intros u0 u Hv Hf.
  destruct (create_run e p g n users) as [[err Hc]|(id & Hid & _ & _ & Hc)]; [|by exists id].
  exfalso. revert Hc. unfold UserSchema.create. rewrite bind_run. unfold lift_result.
  fold u0. rewrite Hv, bind_run, gets_run. simpl. rewrite Hf.
  by rewrite bind_run, gets_run, bind_run.
Qed.

(** X3. Round trip, for a request of ASCII text: when the email, trimmed
    and in lower case, is valid and no account has it, the password has at
    least 6 characters, the trimmed name has between 2 and 100, and bcrypt
    gives a hash that is not empty and that it accepts for the password, the
    signup succeeds with 201 and a login with the same email and password
    then succeeds with 200 for the same account. *)
Theorem X3_signup_then_login (req : Request) (res res' : Response)
    (users : gmap ObjectId User) (e p n : string) :
  req_body req !! "email" = Some e →
  req_body req !! "password" = Some p →
  req_body req !! "name" = Some n →
  asciiText e = true → asciiText p = true → asciiText n = true →
  UserSchema.validEmail (toLowerCase (trim e)) = true →
  6 ≤ String.length p →
  2 ≤ String.length (trim n) ≤ 100 →
  (∀ i u, users !! i = Some u → email u ≠ toLowerCase (trim e)) →
  bcrypt_compare p (bcrypt_hash p 10) = true →
  bcrypt_hash p 10 ≠ "" →
  ∃ users' account,
    AuthHandlers.signup config req res users
      = (users', inr (SendToken.sendUserResponse config res account 201)) ∧
    users' !! _id account = Some (fields account) ∧
    AuthController.login config req res' users'
      = (users', inr (SendToken.sendUserResponse config res' account 200)).
Proof.
  intros He Hp Hn _ _ _ Hvalid Hlen [Hn2 Hn100] Hfree Hcmp Hhash.
  set (key := toLowerCase (trim e)) in *.
  assert (e ≠ "") as He0 by (intros ->; done).
  assert (p ≠ "") as Hp0 by (intros ->; simpl in Hlen; lia).
  assert (n ≠ "") as Hn0 by (intros ->; simpl in Hn2; lia).
  apply withEmail_None in Hfree.
  set (u := {| email := key; passwordHash := Some (bcrypt_hash p 10);
               googleId := None; name := trim n; bio := ""; role := "user";
               isActive := true; __v := 0 |}).
  assert (∃ id, users !! id = None ∧
            AuthHandlers.signup config req res users
            = (<[id := u]> users,
               inr (SendToken.sendUserResponse config res
                      {| _id := id; fields := u; modifiedPaths := [] |} 201)))
    as (id & Hid & Hsign).
  { unfold AuthHandlers.signup. rewrite He, Hp, Hn.
    rewrite !falsy_Some by done. simpl.
    rewrite bind_run, gets_run. unfold findOne_email. fold key.
    rewrite Hfree, bind_run.
    destruct (create_ok e (Some p) None n users) as (id & Hid & Hc).
    - unfold UserSchema.validateNew. simpl email. fold key. rewrite Hvalid.
      rewrite bool_decide_eq_false_2 by (by intros Hk; rewrite Hk in Hvalid).
      simpl.
      assert (trim n ≠ "") by (intros Ht; rewrite Ht in Hn2; simpl in Hn2; lia).
      unfold validatePath. simpl.
      rewrite (decide_False (P:=String.length p < 6)) by lia.
      rewrite (decide_False (P:=trim n = "")) by done.
      rewrite (decide_False (P:=String.length (trim n) < 2)) by lia.
      by rewrite (decide_False (P:=100 < String.length (trim n))) by lia.
    - done.
    - exists id. split; [done|]. rewrite Hc, ret_run.
      destruct p; done. }
  exists (<[id := u]> users), {| _id := id; fields := u; modifiedPaths := [] |}.
  split; [done|]. split; [by rewrite lookup_insert_eq|].
  unfold AuthController.login. rewrite He, Hp.
  rewrite !falsy_Some by done. simpl.
  rewrite bind_run, gets_run. unfold findOne_email. fold key.
  rewrite (withEmail_the key (<[id := u]> users) id u).
  - unfold u, verifyPassword. cbn [fields passwordHash isActive default negb].
    rewrite falsy_Some by done. by rewrite Hcmp.
  - by rewrite lookup_insert_eq.
  - done.
  - intros i v Hi Hv. apply lookup_insert_Some in Hi as [[<- _]|[_ Hi]]; [done|].
    rewrite withEmail_None in Hfree. by destruct (Hfree _ _ Hi).
Qed.

End accounts.

Section google.
Context `{Platform} `{GoogleAuth.OAuth2Client}.
Context (config : Config) (google : GoogleAuth.GoogleConfig).
Import Express UserModel.

Lemma getGoogleUserInfo_run {S} (setCredentials : GoogleAuth.Tokens → S → S)
    (code redirectUri : string) (s : S) :
  GoogleAuth.getGoogleUserInfo google setCredentials code redirectUri s =
  match GoogleAuth.getToken code redirectUri with
  | inl _ => (s, inl (JsError "Failed to get user info from Google"))
  | inr tokens =>
      (setCredentials tokens s,
       match GoogleAuth.verifyIdToken (GoogleAuth.id_token tokens)
               (GoogleAuth.clientId google) with
       | inr (Some payload) => inr (GoogleAuth.profile payload)
       | _ => inl (JsError "Failed to get user info from Google")
       end)
  end.
Proof.
  unfold GoogleAuth.getGoogleUserInfo, try_catch. rewrite bind_run.
  unfold lift_result.
  destruct (GoogleAuth.getToken code redirectUri) as [e|tokens]; [done|].
  rewrite bind_run. unfold modify. rewrite bind_run.
  by destruct (GoogleAuth.verifyIdToken _ _) as [e|[payload|]].
Qed.

(** X4. getGoogleUserInfo never touches the accounts. When the exchange of
    the code fails, the credentials of the shared OAuth client stay and the
    error is Failed to get user info from Google. When it gives tokens,
    they become the credentials of the client, also when the verification
    then fails; the answer is the profile of the payload verified for the
    ID token with the client id as audience, and the same one error when
    the verification throws or gives no payload. *)
Theorem X4_getGoogleUserInfo_one_error (code redirectUri : string)
    (st : AuthHandlers.Store) :
  let r := GoogleAuth.getGoogleUserInfo google AuthHandlers.setCredentials
             code redirectUri st in
  AuthHandlers.accounts r.1 = AuthHandlers.accounts st
  ∧ match GoogleAuth.getToken code redirectUri with
    | inl _ =>
        AuthHandlers.credentials r.1 = AuthHandlers.credentials st
        ∧ r.2 = inl (JsError "Failed to get user info from Google")
    | inr tokens =>
        AuthHandlers.credentials r.1 = Some tokens
        ∧ r.2 = match GoogleAuth.verifyIdToken (GoogleAuth.id_token tokens)
                        (GoogleAuth.clientId google) with
                | inr (Some payload) => inr (GoogleAuth.profile payload)
                | _ => inl (JsError "Failed to get user info from Google")
                end
    end.
Proof.
  intros r. unfold r. rewrite getGoogleUserInfo_run.
  by destruct (GoogleAuth.getToken code redirectUri) as [e|tokens].
Qed.

Lemma set_googleId_paths (v : string) (doc : Document) :
  modifiedPaths doc = [] →
  (UserSchema.set_googleId v doc = doc) ∨
  (modifiedPaths (UserSchema.set_googleId v doc) = ["googleId"] ∧
   _id (UserSchema.set_googleId v doc) = _id doc ∧
   fields (UserSchema.set_googleId v doc)
   = {| email := email (fields doc); passwordHash := passwordHash (fields doc);
        googleId := Some (trim v); name := name (fields doc);
        bio := bio (fields doc); role := role (fields doc);
        isActive := isActive (fields doc); __v := __v (fields doc) |}).
Proof.
  intros Hm. unfold UserSchema.set_googleId. case_decide; [by left|].
  right. simpl. by rewrite Hm.
Qed.

Lemma save_googleId (v : string) (doc : Document) (users : gmap ObjectId User) :
  modifiedPaths doc = [] →
  users !! _id doc = Some (fields doc) →
  ∃ doc', save (UserSchema.set_googleId v doc) users = (
            (if decide (Some (trim v) = googleId (fields doc)) then users
             else <[_id doc := linked (trim v) (fields doc)]> users), inr doc')
          ∧ _id doc' = _id doc
          ∧ fields doc' = (if decide (Some (trim v) = googleId (fields doc))
                           then fields doc else linked (trim v) (fields doc)).
Proof.
  intros Hm Hu. unfold UserSchema.set_googleId.
  destruct (decide (Some (trim v) = googleId (fields doc))) as [Heq|Hne].
  - unfold save. rewrite Hm. rewrite bind_run. unfold lift_result. simpl.
    rewrite bind_run. unfold modify. rewrite ret_run.
    unfold preSave, isModified. rewrite Hm. simpl. rewrite Hm. simpl.
    exists {| _id := _id doc; fields := fields doc; modifiedPaths := [] |}.
    split_and!; [|done..]. f_equal.
    apply map_eq; intros k. rewrite lookup_alter. case_decide; [|done].
    subst. by rewrite Hu.
  - unfold save. simpl. rewrite Hm. rewrite bind_run. unfold lift_result. simpl.
    rewrite bind_run. unfold modify. rewrite ret_run.
    unfold preSave, isModified. simpl.
    exists {| _id := _id doc; fields := linked (trim v) (fields doc);
              modifiedPaths := [] |}.
    split_and!; [|done..]. f_equal.
    apply map_eq; intros k. rewrite lookup_alter.
    destruct (decide (_id doc = k)) as [<-|Hk].
    + rewrite Hu, lookup_insert_eq. simpl. by destruct (fields doc).
    + by rewrite lookup_insert_ne.
Qed.


Lemma onAccounts_run {A} (m : M (gmap ObjectId User) A) (st : AuthHandlers.Store) :
  AuthHandlers.onAccounts m st
  = ({| AuthHandlers.accounts := (m (AuthHandlers.accounts st)).1;
        AuthHandlers.credentials := AuthHandlers.credentials st |},
     (m (AuthHandlers.accounts st)).2).
Proof.
  unfold AuthHandlers.onAccounts. by destruct (m (AuthHandlers.accounts st)).
Qed.

Lemma googleCallback_run (req : Request) (res : Response)
    (st : AuthHandlers.Store) :
  let r := AuthHandlers.googleCallback config google req res st in
  let users := AuthHandlers.accounts st in
  (∃ err, r.2 = inl err ∧ AuthHandlers.accounts r.1 = users) ∨
  (∃ code g,
     req_query req !! "code" = Some code ∧ code ≠ "" ∧
     (GoogleAuth.getGoogleUserInfo google AuthHandlers.setCredentials code
        (GoogleAuth.callbackUrl google) st).2 = inr g ∧
     match findOne_email (GoogleAuth.gu_email g) users with
     | None =>
         ∃ id, users !! id = None ∧
           let u := {| email := UserModel.toLowerCase (trim (GoogleAuth.gu_email g));
                       passwordHash := None;
                       googleId := Some (trim (GoogleAuth.googleId g));
                       name := trim (GoogleAuth.gu_name g); bio := "";
                       role := "user"; isActive := true; __v := 0 |} in
           AuthHandlers.accounts r.1 = <[id := u]> users
           ∧ r.2 = inr (dashboard config res id u)
     | Some d =>
         let fill := bool_decide (falsy (googleId (fields d)) = true ∧
                       Some (trim (GoogleAuth.googleId g)) ≠ googleId (fields d)) in
         let u := if fill then linked (trim (GoogleAuth.googleId g)) (fields d)
                  else fields d in
         AuthHandlers.accounts r.1 = (if fill then <[_id d := u]> users else users)
         ∧ r.2 = inr (if isActive (fields d) then dashboard config res (_id d) u
                      else deactivated config res)
     end).
Proof.
  intros r users. unfold r, AuthHandlers.googleCallback.
  destruct (req_query req !! "code") as [[|c code]|] eqn:Hcode; simpl;
    [left; by eexists| |left; by eexists].
  change (default "" (Some (String c code))) with (String c code).
  rewrite bind_run.
  pose proof (getGoogleUserInfo_run AuthHandlers.setCredentials (String c code)
                (GoogleAuth.callbackUrl google) st) as Hg.
  destruct (GoogleAuth.getGoogleUserInfo _ _ _ _ st) as [st1 [e|g]] eqn:Hrun.
  { left. exists e. split; [done|]. simpl.
    apply (f_equal (λ p, AuthHandlers.accounts p.1)) in Hg. simpl in Hg.
    rewrite Hg. by destruct (GoogleAuth.getToken _ _). }
  assert (AuthHandlers.accounts st1 = users) as Hst1.
  { apply (f_equal (λ p, AuthHandlers.accounts p.1)) in Hg. simpl in Hg.
    rewrite Hg. by destruct (GoogleAuth.getToken _ _). }
  rewrite bind_run, gets_run, Hst1.
  destruct (findOne_email (GoogleAuth.gu_email g) users) as [d|] eqn:Hf.
  - pose proof (withEmail_Some _ _ _ Hf) as (Hd & _ & Hm).
    right. exists (String c code), g.
    split_and!; [done|done|by rewrite Hrun|]. fold users. rewrite Hf.
    destruct (falsy (googleId (fields d))) eqn:Hfalsy.
    + rewrite bind_run, onAccounts_run, Hst1.
      destruct (save_googleId (GoogleAuth.googleId g) d users Hm Hd)
        as (doc' & Hs & Hid & Hfields).
      rewrite Hs. cbn [fst snd].
      destruct (decide (Some (trim (GoogleAuth.googleId g)) = googleId (fields d)))
        as [Heq|Hne].
      * rewrite bool_decide_eq_false_2 by (by intros [_ ?]).
        rewrite Hfields, Hid.
        by destruct (isActive (fields d)).
      * rewrite bool_decide_eq_true_2 by done.
        rewrite Hfields, Hid. simpl.
        by destruct (isActive (fields d)).
    + rewrite bool_decide_eq_false_2 by (by intros [? _]).
      rewrite bind_run, ret_run.
      by destruct (isActive (fields d)).
  - rewrite bind_run, onAccounts_run, Hst1.
    destruct (create_run (GoogleAuth.gu_email g) None
                (Some (GoogleAuth.googleId g)) (GoogleAuth.gu_name g) users)
      as [[err Hc]|(id & Hid & _ & _ & Hc)]; rewrite Hc; cbn [fst snd].
    { left. exists err. by split. }
    right. exists (String c code), g.
    split_and!; [done|done|by rewrite Hrun|]. fold users.
    rewrite Hf. by exists id.
Qed.

(** X5. The Google callback changes the accounts in at most one of two ways:
    it adds one account under an unused id, without password hash, with the
    role user and active; or it fills in the Google id of one existing
    account that had none. Otherwise the accounts stay as they were. *)
Theorem X5_googleCallback_store (req : Request) (res : Response)
    (st : AuthHandlers.Store) :
  let users := AuthHandlers.accounts st in
  let users' := AuthHandlers.accounts
                  (AuthHandlers.googleCallback config google req res st).1 in
  users' = users
  ∨ (∃ id u, users !! id = None ∧ users' = <[id := u]> users ∧
             passwordHash u = None ∧ role u = "user" ∧ isActive u = true)
  ∨ (∃ id u gid, users !! id = Some u ∧ falsy (googleId u) = true ∧
                 users' = <[id := linked gid u]> users).
Proof.
  intros users users'. unfold users'.
  destruct (googleCallback_run req res st)
    as [(err & _ & ->)|(code & g & _ & _ & _ & Hcase)]; [by left|].
  fold users in Hcase.
  destruct (findOne_email (GoogleAuth.gu_email g) users) as [d|] eqn:Hf.
  - destruct Hcase as [-> _]. case_bool_decide as Hfill; [|by left].
    right; right. apply withEmail_Some in Hf as (Hd & _ & _).
    exists (_id d), (fields d), (trim (GoogleAuth.googleId g)).
    by destruct Hfill.
  - destruct Hcase as (id & Hid & -> & _). right; left. simpl. eauto 10.
Qed.

(** X6. When the Google profile belongs to a deactivated account, the
    callback redirects to the login page with error=account_deactivated and
    sets no cookie; yet if the account had no Google id, the id of the
    profile has been stored on it. *)
Theorem X6_googleCallback_deactivated (req : Request) (res : Response)
    (st : AuthHandlers.Store) (code : string) (g : GoogleAuth.GoogleUser)
    (d : Document) :
  req_query req !! "code" = Some code → code ≠ "" →
  (GoogleAuth.getGoogleUserInfo google AuthHandlers.setCredentials code
     (GoogleAuth.callbackUrl google) st).2 = inr g →
  findOne_email (GoogleAuth.gu_email g) (AuthHandlers.accounts st) = Some d →
  isActive (fields d) = false →
  let r := AuthHandlers.googleCallback config google req res st in
  r.2 = inr (deactivated config res)
  ∧ cookies (deactivated config res) = cookies res
  ∧ (googleId (fields d) = None →
     googleId <$> AuthHandlers.accounts r.1 !! _id d
     = Some (Some (trim (GoogleAuth.googleId g)))).
Proof.
  intros Hcode Hne Hg Hf Hact r. unfold r.
  destruct (googleCallback_run req res st)
    as [(err & Herr & _)|(code' & g' & Hcode' & _ & Hg' & Hcase)].
  - exfalso. revert Herr. unfold AuthHandlers.googleCallback.
    rewrite Hcode, falsy_Some by done.
    change (default "" (Some code)) with code.
    rewrite bind_run.
    pose proof (getGoogleUserInfo_run AuthHandlers.setCredentials code
                  (GoogleAuth.callbackUrl google) st) as Hrun.
    destruct (GoogleAuth.getGoogleUserInfo _ _ _ _ st) as [st1 [e|g0]] eqn:Hgo;
      [done|].
    simpl in Hg. injection Hg as ->.
    assert (AuthHandlers.accounts st1 = AuthHandlers.accounts st) as Hst1.
    { apply (f_equal (λ p, AuthHandlers.accounts p.1)) in Hrun. simpl in Hrun.
      rewrite Hrun. by destruct (GoogleAuth.getToken _ _). }
    rewrite bind_run, gets_run, Hst1, Hf.
    pose proof (withEmail_Some _ _ _ Hf) as (Hd & _ & Hm).
    destruct (falsy (googleId (fields d))).
    + rewrite bind_run, onAccounts_run, Hst1.
      destruct (save_googleId (GoogleAuth.googleId g) d _ Hm Hd)
        as (doc' & Hs & Hid & Hfields).
      rewrite Hs. cbn [fst snd]. rewrite Hfields.
      by destruct (decide _); simpl; rewrite Hact.
    + rewrite bind_run, ret_run. by rewrite Hact.
  - rewrite Hcode in Hcode'. injection Hcode' as <-.
    rewrite Hg in Hg'. injection Hg' as <-. rewrite Hf in Hcase.
    destruct Hcase as [Hacc ->]. rewrite Hact. split_and!; [done..|].
    intros Hnone. rewrite Hacc.
    rewrite !bool_decide_eq_true_2 by (by rewrite Hnone).
    by rewrite lookup_insert_eq.
Qed.

(** X7. An account created with a Google id and no password cannot log in
    with a password: a login with its email and any non-empty password
    answers 401 Invalid credentials and changes nothing. *)
Theorem X7_google_account_has_no_password_login (e gid n p : string)
    (users users' : gmap ObjectId User) (account : Document)
    (req : Request) (res : Response) :
  UserSchema.create e None (Some gid) n users = (users', inr account) →
  req_body req !! "email" = Some (email (fields account)) →
  req_body req !! "password" = Some p → p ≠ "" →
  AuthController.login config req res users'
  = (users', inl (AppError "Invalid credentials" 401)).
Proof.
  intros Hc He Hp Hp0.
  destruct (create_run e None (Some gid) n users)
    as [[err Herr]|(id & Hid & Hf & Hne & Hrun)]; [congruence|].
  rewrite Hc in Hrun. injection Hrun as -> ->.
  set (u := {| email := UserModel.toLowerCase (trim e); passwordHash := None;
               googleId := trim <$> Some gid; name := trim n; bio := "";
               role := "user"; isActive := true; __v := 0 |}) in *.
  simpl in He.
  unfold AuthController.login. rewrite He, Hp, !falsy_Some by done.
  cbn [orb default]. rewrite bind_run, gets_run.
  unfold findOne_email, Datatypes.id. rewrite cast_idem.
  rewrite (withEmail_the (UserModel.toLowerCase (trim e))
             (<[id := u]> users) id u); [done|by rewrite lookup_insert_eq|done|].
  intros i v Hi Hv. apply lookup_insert_Some in Hi as [[<- _]|[_ Hi]]; [done|].
  rewrite withEmail_None in Hf. by destruct (Hf _ _ Hi).
Qed.

End google.

Section profile_more.
Context `{Platform}.
Import Express UserModel.

Lemma alter_insert_Some {A} (f : A → A) (k : ObjectId) (x : A) (m : gmap ObjectId A) :
  m !! k = Some x → alter f k m = <[k := f x]> m.
Proof.
  intros Hk. apply map_eq; intros i. rewrite lookup_alter.
  destruct (decide (k = i)) as [<-|Hi].
  - by rewrite Hk, lookup_insert_eq.
  - by rewrite lookup_insert_ne.
Qed.

Lemma findById_Some (id : ObjectId) (u : User) (users : gmap ObjectId User) :
  users !! id = Some u →
  findById id users = Some {| _id := id; fields := u; modifiedPaths := [] |}.
Proof. intros Hu. unfold findById. by rewrite Hu. Qed.

Lemma validatePath_bio (u : User) :
  validatePath u "bio"
  = if decide (500 < String.length (bio u)) then inl (ValidationError "bio")
    else inr ().
Proof. done. Qed.

Lemma updateProfile_bio_run (req : Request)
    (res : Response) (users : gmap ObjectId User) (caller : Document)
    (u : User) (b : string) :
  req_user req = Some caller →
  users !! _id caller = Some u →
  falsy (req_body req !! "name") = true →
  req_body req !! "bio" = Some b →
  String.length b ≤ 500 →
  (AuthController.updateProfile req res users).1
  = <[_id caller := with_bio b u]> users.
Proof.
  intros Hc Hu Hn Hb Hlen. unfold AuthController.updateProfile.
  rewrite Hc, Hn, Hb, bind_run, gets_run, (findById_Some _ u) by done.
  cbv beta iota. rewrite bind_run. unfold set_bio. cbn [fields bio].
  destruct (decide (b = bio u)) as [->|Hne].
  - unfold save. cbn [modifiedPaths fields _id]. rewrite bind_run.
    unfold lift_result. cbn [validatePaths].
    rewrite bind_run. unfold modify. rewrite !ret_run. cbn [fst].
    rewrite (alter_insert_Some _ _ u) by done. simpl. by destruct u.
  - unfold save. cbn [modifiedPaths fields _id]. rewrite bind_run.
    unfold lift_result. cbn [validatePaths]. rewrite validatePath_bio.
    cbn [bio]. rewrite decide_False by lia.
    rewrite bind_run. unfold modify. rewrite !ret_run. cbn [fst].
    by rewrite (alter_insert_Some _ _ u) by done.
Qed.

(** X8. In updateProfile an absent or empty name leaves the stored name of
    the caller as it is, while a bio that is present, the empty one
    included, is stored when it has at most 500 characters; the email, the
    password hash, the Google id, the role and the active flag of the
    account stay, and no other account changes. *)
Theorem X8_updateProfile_empty_name_kept_empty_bio_stored (req : Request)
    (res : Response) (users : gmap ObjectId User) (caller : Document)
    (u : User) (b : string) :
  req_user req = Some caller →
  users !! _id caller = Some u →
  falsy (req_body req !! "name") = true →
  req_body req !! "bio" = Some b →
  String.length b ≤ 500 →
  ∃ u', (AuthController.updateProfile req res users).1
        = <[_id caller := u']> users
        ∧ name u' = name u ∧ bio u' = b
        ∧ email u' = email u ∧ passwordHash u' = passwordHash u
        ∧ googleId u' = googleId u ∧ role u' = role u
        ∧ isActive u' = isActive u.
Proof.
  intros Hc Hu Hn Hb Hlen. exists (with_bio b u).
  split; [by apply updateProfile_bio_run|]. by repeat split.
Qed.

Lemma validatePath_error (u : User) (p : string) (e : Error) :
  validatePath u p = inl e → ∃ path, e = ValidationError path.
Proof.
  unfold validatePath. intros Hv.
  repeat (case_decide || case_match); simplify_eq; by eexists.
Qed.

Lemma validatePaths_invalid (u : User) (p : string) (paths : list string) (e : Error) :
  p ∈ paths → validatePath u p = inl e →
  ∃ path, validatePaths u paths = inl (ValidationError path).
Proof.
  intros Hin Hp. induction paths as [|q paths IH]; [by apply not_elem_of_nil in Hin|].
  simpl. destruct (validatePath u q) as [e'|[]] eqn:Hq.
  - apply validatePath_error in Hq as [path ->]. by eexists.
  - apply elem_of_cons in Hin as [->|Hin]; [congruence|]. by apply IH.
Qed.

Lemma save_invalid (doc : Document) (users : gmap ObjectId User) (e : Error) :
  validatePaths (fields doc) (modifiedPaths doc) = inl e →
  save doc users = (users, inl e).
Proof. intros Hv. unfold save. rewrite bind_run. unfold lift_result. by rewrite Hv. Qed.

(** X9. updateProfile with a new name of ASCII text whose trimmed length is
    below 2 or above 100 fails with a validation error and stores nothing,
    not even a valid bio of the same request. *)
Theorem X9_updateProfile_invalid_name_saves_nothing (req : Request)
    (res : Response) (users : gmap ObjectId User) (caller : Document)
    (u : User) (n : string) :
  req_user req = Some caller →
  users !! _id caller = Some u →
  req_body req !! "name" = Some n → n ≠ "" →
  asciiText n = true →
  trim n ≠ name u →
  String.length (trim n) < 2 ∨ 100 < String.length (trim n) →
  ∃ path, AuthController.updateProfile req res users
          = (users, inl (ValidationError path)).
Proof.
  intros Hc Hu Hn Hn0 _ Hne Hbad. unfold AuthController.updateProfile.
  rewrite Hc, Hn, falsy_Some, bind_run, gets_run, (findById_Some _ u) by done.
  cbv beta iota. change (default "" (Some n)) with n.
  set (doc1 := set_name n _).
  assert ("name" ∈ modifiedPaths doc1 ∧ name (fields doc1) = trim n) as [Hm1 Hn1].
  { unfold doc1, set_name. cbn [fields name]. rewrite decide_False by done.
    split; [by left|done]. }
  set (doc2 := match req_body req !! "bio" with
               | Some b => set_bio b doc1
               | None => doc1
               end).
  assert ("name" ∈ modifiedPaths doc2 ∧ name (fields doc2) = trim n) as [Hm2 Hn2].
  { unfold doc2. destruct (req_body req !! "bio") as [b|]; [|done].
    unfold set_bio. case_decide; [done|]. split; [by right|done]. }
  assert (∃ e, validatePath (fields doc2) "name" = inl e) as [e He].
  { unfold validatePath. simpl. rewrite Hn2.
    destruct (decide (trim n = "")); [by eexists|].
    destruct Hbad.
    - rewrite decide_True by done. by eexists.
    - destruct (decide (String.length (trim n) < 2)); [by eexists|].
      rewrite decide_True by done. by eexists. }
  destruct (validatePaths_invalid _ _ _ _ Hm2 He) as [path Hpath].
  exists path. rewrite bind_run. by rewrite (save_invalid _ _ _ Hpath).
Qed.

Lemma toJSON_hidden (doc : Document) :
  toJSON doc !! "passwordHash" = None ∧ toJSON doc !! "__v" = None.
Proof.
  unfold toJSON. split.
  - rewrite lookup_delete_ne by done. by rewrite lookup_delete_eq.
  - by rewrite lookup_delete_eq.
Qed.

Lemma sendUserResponse_safe (config : Config) (res : Response) (doc : Document)
    (code : nat) :
  safeUserBody (SendToken.sendUserResponse config res doc code).
Proof.
  destruct (toJSON_hidden doc) as [? ?].
  eexists _, (toJSON doc). split_and!; [reflexivity| |done..]. by simplify_map_eq.
Qed.

(** X10. Every successful answer of signup, login and updateProfile has a
    JSON body whose user object carries neither passwordHash nor __v. *)
Theorem X10_success_bodies_hide_passwordHash (config : Config) (req : Request)
    (res : Response) (users : gmap ObjectId User) :
  match (AuthHandlers.signup config req res users).2 with
  | inr resp => safeUserBody resp
  | inl _ => True
  end
  ∧ match (AuthController.login config req res users).2 with
    | inr resp => safeUserBody resp
    | inl _ => True
    end
  ∧ match (AuthController.updateProfile req res users).2 with
    | inr resp => safeUserBody resp
    | inl _ => True
    end.
Proof.
  split_and!.
  - destruct (signup_run config req res users)
      as [[err ->]|(id & e & p & n & _ & _ & _ & _ & _ & _ & ->)]; [done|].
    apply sendUserResponse_safe.
  - unfold AuthController.login.
    destruct (falsy _ || falsy _); [done|]. rewrite bind_run, gets_run.
    destruct (findOne_email _ users) as [d|]; [|done].
    destruct (falsy (passwordHash (fields d))); [done|].
    destruct (negb (isActive (fields d))); [done|].
    destruct (negb (verifyPassword d _)); [done|].
    apply sendUserResponse_safe.
  - unfold AuthController.updateProfile.
    destruct (req_user req) as [caller|]; [|done].
    rewrite bind_run, gets_run.
    destruct (findById (_id caller) users) as [d|]; [|done].
    rewrite bind_run.
    destruct (save _ users) as [users' [e|saved]]; [done|]. rewrite ret_run.
    destruct (toJSON_hidden saved) as [? ?].
    eexists _, (toJSON saved). split_and!; [reflexivity| |done..].
    by simplify_map_eq.
Qed.

End profile_more.

(** ** Dispatch: what a status change and an application store and push *)

Section dispatch.
Import Notification NotificationModel NotificationService.

Lemma sendToUser_valid (r : ObjectId) (rt : string) (input : Input) (st : State) :
  validate (document r rt input (now st)) = inr () →
  ∃ id st',
    sendToUser r rt input st = (st', inr (id, document r rt input (now st))) ∧
    notifications st !! id = None ∧
    notifications st' = <[id := document r rt input (now st)]> (notifications st) ∧
    emitted st' = emitted st ++ [(UserRoom r, (id, document r rt input (now st)))] ∧
    students st' = students st ∧ applications st' = applications st ∧
    events st' = events st.
Proof.
  intros Hv. unfold sendToUser. rewrite bind_run.
  destruct (create_valid r rt input st Hv) as [Hfresh Hc]. rewrite Hc.
  rewrite bind_run. unfold emit, modify. rewrite ret_run.
  eexists _, _. split; [reflexivity|]. by split_and!.
Qed.

Lemma updateApplicationStatus_saved (id : ObjectId) (status : string) (st : State)
    (a : Application.t) :
  applications st !! id = Some a →
  status ∈ ["pending"; "accepted"; "rejected"] →
  let a' := Application.set_status status a in
  let st1 := with_applications (insert id a') st in
  ApplicationController.updateApplicationStatus id status st
  = (if decide (status = "accepted" ∨ status = "rejected") then
       match notifyApplicationStatus (id, a')
               ((λ e, (Application.eventId a, e)) <$> events st !! Application.eventId a)
               status st1 with
       | (st2, inr _) => (st2, inr (id, a'))
       | (st2, inl e) => (st2, inl e)
       end
     else (st1, inr (id, a'))).
Proof.
  intros Ha Hs a' st1. unfold ApplicationController.updateApplicationStatus.
  rewrite bind_run, gets_run, Ha, bind_run, gets_run, bind_run.
  unfold ApplicationController.save, Application.validate.
  rewrite bind_run. unfold lift_result. cbn [Application.set_status Application.status snd fst].
  rewrite bool_decide_eq_true_2 by done. unfold modify.
  assert (with_applications (alter (λ _, Application.set_status status a) id) st
          = st1) as ->.
  { unfold st1, with_applications. f_equal. apply map_eq; intros k.
    rewrite lookup_alter. destruct (decide (id = k)) as [<-|Hk].
    - by rewrite Ha, lookup_insert_eq.
    - by rewrite lookup_insert_ne. }
  rewrite bind_run.
  destruct (decide (status = "accepted" ∨ status = "rejected")); [|done].
  rewrite bind_run.
  by destruct (notifyApplicationStatus _ _ status st1) as [st2 [e|n]].
Qed.

(** X11. Setting the status of an existing application to pending stores
    that status whatever the status was, answers the application, and
    creates and pushes no notification. *)
Theorem X11_updateApplicationStatus_pending_is_silent (id : ObjectId) (st : State)
    (a : Application.t) :
  applications st !! id = Some a →
  let r := ApplicationController.updateApplicationStatus id "pending" st in
  r.2 = inr (id, Application.set_status "pending" a)
  ∧ applications r.1 = <[id := Application.set_status "pending" a]> (applications st)
  ∧ notifications r.1 = notifications st
  ∧ emitted r.1 = emitted st.
Proof.
  intros Ha r. unfold r.
  rewrite (updateApplicationStatus_saved id "pending" st a Ha) by (by left).
  by rewrite decide_False by (by intros [?|?]).
Qed.

(** X12. When the event of an application no longer exists, setting its
    status to accepted or rejected throws a TypeError, after the new status
    has been stored; no notification is created or pushed. *)
Theorem X12_updateApplicationStatus_event_gone (id : ObjectId) (status : string)
    (st : State) (a : Application.t) :
  applications st !! id = Some a →
  status = "accepted" ∨ status = "rejected" →
  events st !! Application.eventId a = None →
  let r := ApplicationController.updateApplicationStatus id status st in
  (∃ msg, r.2 = inl (TypeError msg))
  ∧ applications r.1 = <[id := Application.set_status status a]> (applications st)
  ∧ notifications r.1 = notifications st
  ∧ emitted r.1 = emitted st.
Proof.
  intros Ha Hs He r. unfold r.
  rewrite (updateApplicationStatus_saved id status st a Ha)
    by (destruct Hs as [->| ->]; set_solver).
  rewrite decide_True by done. rewrite He. simpl. split_and!; [by eexists|done..].
Qed.

Lemma statusInput_valid (status : string) (application : ObjectId * Application.t)
    (event : ObjectId * Event.t) (created : nat) :
  status = "accepted" ∨ status = "rejected" →
  String.length (Event.title event.2) ≤ 440 →
  validate (document (Application.studentId application.2) "Student"
    {| in_type := "application_" +:+ status;
       in_title := if decide (status = "accepted")
                   then "Application Accepted" else "Application Update";
       in_message := default "undefined" (statusMessages !! status)
                     +:+ " for " +:+ dquote +:+ Event.title event.2 +:+ dquote;
       in_data := {| eventId := Some event.1; applicationId := Some application.1;
                     universityId := None; studentId := None |} |} created)
  = inr ().
Proof.
  intros Hs Hlen. unfold validate, document.
  cbn [recipientType type title message in_type in_title in_message].
  rewrite (bool_decide_eq_true_2 ("Student" ∈ _)) by (by left). cbn [negb].
  destruct Hs as [-> | ->].
  - rewrite bool_decide_eq_true_2 by (by do 2 right; left). cbn [negb].
    rewrite decide_True by done.
    rewrite (bool_decide_eq_false_2 ("Application Accepted" = "")) by done.
    rewrite (bool_decide_eq_false_2 (200 < _)) by (simpl; lia). cbn [orb].
    change (statusMessages !! "accepted")
      with (Some "Congratulations! Your application has been accepted").
    cbn [default].
    rewrite (bool_decide_eq_false_2 (_ = "")) by done.
    rewrite (bool_decide_eq_false_2 (500 < _)); [done|].
    rewrite !length_append. simpl. lia.
  - rewrite bool_decide_eq_true_2 by (by do 3 right; left). cbn [negb].
    rewrite decide_False by done.
    rewrite (bool_decide_eq_false_2 ("Application Update" = "")) by done.
    rewrite (bool_decide_eq_false_2 (200 < _)) by (simpl; lia). cbn [orb].
    change (statusMessages !! "rejected")
      with (Some "Your application has been reviewed").
    cbn [default].
    rewrite (bool_decide_eq_false_2 (_ = "")) by done.
    rewrite (bool_decide_eq_false_2 (500 < _)); [done|].
    rewrite !length_append. simpl. lia.
Qed.

(** X13. When the event exists and its title has at most 440 characters,
    setting the status of an application to accepted or rejected stores the
    status and creates exactly one notification, under an unused id: unread,
    addressed to the student of the application, of type
    application_accepted or application_rejected, referring to the
    application and its event, and pushed once to the room of that student. *)
Theorem X13_updateApplicationStatus_notifies_student (id : ObjectId) (status : string)
    (st : State) (a : Application.t) (ev : Event.t) :
  applications st !! id = Some a →
  status = "accepted" ∨ status = "rejected" →
  events st !! Application.eventId a = Some ev →
  String.length (Event.title ev) ≤ 440 →
  ∃ nid doc st',
    ApplicationController.updateApplicationStatus id status st
      = (st', inr (id, Application.set_status status a)) ∧
    applications st' = <[id := Application.set_status status a]> (applications st) ∧
    notifications st !! nid = None ∧
    notifications st' = <[nid := doc]> (notifications st) ∧
    emitted st' = emitted st ++ [(UserRoom (Application.studentId a), (nid, doc))] ∧
    recipientId doc = Application.studentId a ∧
    recipientType doc = "Student" ∧
    type doc = "application_" +:+ status ∧
    isRead doc = false ∧
    applicationId (data doc) = Some id ∧
    eventId (data doc) = Some (Application.eventId a).
Proof.
  intros Ha Hs He Hlen.
  rewrite (updateApplicationStatus_saved id status st a Ha)
    by (destruct Hs as [->| ->]; set_solver).
  rewrite decide_True by done. rewrite He. cbn [fmap option_fmap option_map].
  unfold notifyApplicationStatus.
  set (st1 := with_applications _ st).
  set (input := {| in_type := _; in_title := _; in_message := _; in_data := _ |}).
  pose proof (statusInput_valid status (id, Application.set_status status a)
                (Application.eventId a, ev) (now st1) Hs Hlen) as Hvalid.
  change (validate (document
            (Application.studentId (Application.set_status status a))
            "Student" input (now st1)) = inr ()) in Hvalid.
  destruct (sendToUser_valid _ _ _ _ Hvalid)
    as (nid & st' & Hrun & Hfresh & Hn & Hem & _ & Happ & _).
  cbn [snd]. rewrite Hrun.
  exists nid, (document (Application.studentId a) "Student" input (now st1)), st'.
  split_and!; try done.
Qed.

Lemma Promise_all_create_docs rt input (ids : list ObjectId) (st : State) :
  validate (document 0 rt input (now st)) = inr () →
  ∃ st' created,
    Promise_all ((λ r, create r rt input) <$> ids) st = (st', inr created)
    ∧ Forall2 (λ r c, c.2 = document r rt input (now st)) ids created
    ∧ Forall (λ c, notifications st' !! c.1 = Some c.2) created
    ∧ notifications st ⊆ notifications st'
    ∧ emitted st' = emitted st
    ∧ now st' = now st.
Proof.
  revert st. induction ids as [|r ids IH]; intros st Hv.
  { exists st, []. by split_and!. }
  assert (validate (document r rt input (now st)) = inr ()) as Hr
    by by rewrite (validate_recipient r 0).
  destruct (create_valid r rt input st Hr) as [Hfresh Hc].
  set (st1 := with_notifications _ st) in Hc.
  destruct (IH st1 Hv) as (st' & created & Hrun & Hdocs & Hstored & Hsub & Hem & Hnow).
  exists st', ((fresh (dom (notifications st)), document r rt input (now st)) :: created).
  split_and!.
  - by rewrite fmap_cons, Promise_all_cons, Hc, Hrun.
  - by constructor.
  - constructor; [|done]. simpl.
    eapply lookup_weaken; [|exact Hsub]. unfold st1. simpl.
    by rewrite lookup_insert_eq.
  - etrans; [|exact Hsub]. by apply insert_subseteq.
  - by rewrite Hem.
  - by rewrite Hnow.
Qed.

Lemma emit_each_emitted (pairs : list (ObjectId * (ObjectId * t))) (st : State) :
  ∃ st', foldr (λ '(recipientId, notification) rest,
                  _ ← emit (UserRoom recipientId) notification; rest)
               (mret ()) pairs st = (st', inr ())
         ∧ notifications st' = notifications st
         ∧ emitted st' = emitted st ++ ((λ p, (UserRoom p.1, p.2)) <$> pairs).
Proof.
  revert st. induction pairs as [|[r n] pairs IH]; intros st; simpl.
  { exists st. by rewrite app_nil_r. }
  rewrite bind_run. unfold emit at 1, modify. simpl.
  destruct (IH (
    {| students := students st; applications := applications st;
       events := events st; notifications := notifications st;
       now := now st; connectedUsers := connectedUsers st;
       rooms := rooms st; emitted := emitted st ++ [(UserRoom r, n)] |}))
    as (st' & Hrun & Hn & He).
  exists st'. rewrite Hrun. split_and!; [done..|].
  rewrite He. simpl. by rewrite <-app_assoc.
Qed.

Lemma zip_created rt input created_at (ids : list ObjectId)
    (created : list (ObjectId * t)) :
  Forall2 (λ r c, c.2 = document r rt input created_at) ids created →
  (λ p : ObjectId * (ObjectId * t), (UserRoom p.1, p.2)) <$> zip ids created
  = (λ c, (UserRoom (recipientId c.2), c)) <$> created
  ∧ (λ c : ObjectId * t, recipientId c.2) <$> created = ids.
Proof.
  induction 1 as [|r c ids created Hc _ [IH1 IH2]]; [done|].
  change (zip (r :: ids) (c :: created)) with ((r, c) :: zip ids created).
  rewrite !fmap_cons, IH1, IH2. cbn [fst snd]. by rewrite Hc.
Qed.

(** X15. When the message of the announcement has at most 500 characters,
    notifyNewEvent answers one notification per student who follows the
    university, in the order of the students found; each is stored unread
    under its id, and exactly these notifications are pushed, each to the
    room of its recipient and in the same order. *)
Theorem X15_notifyNewEvent_pushes_what_it_stores (event : ObjectId * Event.t)
    (university : ObjectId * University.t) (st : State) :
  String.length (in_message (newEventInput event university)) ≤ 500 →
  let r := notifyNewEvent event university st in
  ∃ created,
    r.2 = inr created
    ∧ (λ c : ObjectId * t, recipientId c.2) <$> created
      = interestedStudents university.1 (students st)
    ∧ Forall (λ c, notifications r.1 !! c.1 = Some c.2 ∧ isRead c.2 = false) created
    ∧ emitted r.1
      = emitted st ++ ((λ c, (UserRoom (recipientId c.2), c)) <$> created).
Proof.
  intros Hlen r. unfold r, notifyNewEvent. rewrite bind_run, gets_run.
  set (ids := interestedStudents university.1 (students st)).
  destruct (decide (length ids = 0)) as [Hnil|Hnil].
  { apply nil_length_inv in Hnil. rewrite ret_run, Hnil. exists []. simpl.
    by rewrite app_nil_r. }
  unfold sendToMultipleUsers. rewrite bind_run.
  destruct (Promise_all_create_docs "Student" (newEventInput event university) ids st)
    as (st1 & created & Hrun & Hdocs & Hstored & _ & Hem & _).
  { by apply newEvent_valid. }
  rewrite Hrun, bind_run.
  destruct (emit_each_emitted (zip ids created) st1) as (st2 & Hemit & Hn2 & He2).
  rewrite Hemit, ret_run. simpl.
  destruct (zip_created _ _ _ _ _ Hdocs) as [Hzip Hrec].
  exists created. split_and!; [done..| |].
  - rewrite Hn2. apply Forall_forall. intros c Hc.
    rewrite Forall_forall in Hstored. split; [by apply Hstored|].
    apply list_elem_of_In in Hc. apply list_elem_of_lookup in Hc as [i Hi].
    destruct (Forall2_lookup_r _ _ _ _ _ Hdocs Hi) as (r0 & _ & ->). done.
  - by rewrite He2, Hem, Hzip.
Qed.

(** X14. When the name of the student and the title of the event have
    together at most 469 characters, notifyNewApplication creates exactly
    one notification, under an unused id: unread, of type new_application,
    addressed to the university that owns the event, referring to the
    application, the event and the student, and pushed once to the room of
    that university. *)
Theorem X14_notifyNewApplication_one_for_university
    (application : ObjectId * Application.t) (student : ObjectId * Student.t)
    (event : ObjectId * Event.t) (st : State) :
  String.length (Student.name student.2) + String.length (Event.title event.2) ≤ 469 →
  ∃ nid doc st',
    notifyNewApplication application student event st = (st', inr (nid, doc)) ∧
    notifications st !! nid = None ∧
    notifications st' = <[nid := doc]> (notifications st) ∧
    emitted st' = emitted st ++ [(UserRoom (Event.universityId event.2), (nid, doc))] ∧
    recipientId doc = Event.universityId event.2 ∧
    recipientType doc = "University" ∧
    type doc = "new_application" ∧
    isRead doc = false ∧
    applicationId (data doc) = Some application.1 ∧
    eventId (data doc) = Some event.1 ∧
    studentId (data doc) = Some student.1.
Proof.
  intros Hlen. unfold notifyNewApplication.
  set (input := {| in_type := _; in_title := _; in_message := _; in_data := _ |}).
  destruct (sendToUser_valid (Event.universityId event.2) "University" input st)
    as (nid & st' & Hrun & Hfresh & Hn & Hem & _).
  { unfold validate, document, input.
    cbn [recipientType type title message in_type in_title in_message].
    rewrite (bool_decide_eq_true_2 ("University" ∈ _)) by (by right; left).
    cbn [negb].
    rewrite bool_decide_eq_true_2 by (by right; left). cbn [negb].
    rewrite (bool_decide_eq_false_2 ("New Application Received" = "")) by done.
    rewrite (bool_decide_eq_false_2 (200 < _)) by (simpl; lia). cbn [orb].
    rewrite (bool_decide_eq_false_2 (_ = "")).
    - rewrite (bool_decide_eq_false_2 (500 < _)); [done|].
      rewrite !length_append. simpl. lia.
    - intros Hempty. apply (f_equal String.length) in Hempty.
      rewrite !length_append in Hempty. simpl in Hempty. lia. }
  exists nid, (document (Event.universityId event.2) "University" input (now st)), st'.
  by split_and!.
Qed.

End dispatch.

(** ** The listing and its pages *)

Section listing_more.
Import Notification NotificationModel NotificationService.

Lemma newerFirst_total : Total newerFirst.
Proof. intros a b. unfold newerFirst. lia. Qed.

Lemma newerFirst_trans : Transitive newerFirst.
Proof. intros a b c. unfold newerFirst. lia. Qed.

Lemma sortedMatches_facts (q : t → bool) (m : gmap ObjectId t) :
  StronglySorted newerFirst (sortedMatches q m)
  ∧ NoDup (sortedMatches q m).*1
  ∧ length (sortedMatches q m) = countDocuments q m
  ∧ sortedMatches q m ≡ₚ map_to_list (filter (λ kv, q kv.2 = true) m)
  ∧ ∀ kv, kv ∈ sortedMatches q m → m !! kv.1 = Some kv.2 ∧ q kv.2 = true.
Proof.
  unfold sortedMatches.
  pose proof (merge_sort_Permutation newerFirst
                (map_to_list (filter (λ kv, q kv.2 = true) m))) as Hp.
  split_and!.
  - apply StronglySorted_merge_sort;
      [apply newerFirst_trans|apply newerFirst_total].
  - rewrite Hp. apply NoDup_fst_map_to_list.
  - rewrite Hp. unfold countDocuments. by rewrite length_map_to_list.
  - done.
  - intros [k n] Hin. rewrite Hp in Hin.
    apply elem_of_map_to_list, map_lookup_filter_Some in Hin. done.
Qed.

Lemma findPage_window (q : t → bool) (skip limit : Z) (m : gmap ObjectId t) :
  findPage q skip limit m =
  if decide (skip < 0)%Z then inl (MongoServerError "skip must be non-negative")
  else inr (let rest := drop (Z.to_nat skip) (sortedMatches q m) in
            if decide (limit = 0)%Z then rest
            else take (Z.to_nat (Z.abs limit)) rest).
Proof. done. Qed.

Lemma window_facts {A} (R : relation A) (f : A → ObjectId) (l : list A) (k : nat)
    (w : list A) :
  (w = drop k l ∨ ∃ n, w = take n (drop k l)) →
  StronglySorted R l → NoDup (f <$> l) →
  StronglySorted R w ∧ NoDup (f <$> w) ∧ ∀ x, x ∈ w → x ∈ l.
Proof.
  intros Hw Hs Hn.
  assert (StronglySorted R (drop k l) ∧ NoDup (f <$> drop k l)
          ∧ ∀ x, x ∈ drop k l → x ∈ l) as (Hs' & Hn' & Hin').
  { rewrite <-(take_drop k l) in Hs, Hn. split_and!.
    - by apply StronglySorted_app_1_r in Hs.
    - rewrite fmap_app in Hn. by apply list.NoDup_app in Hn as (_ & _ & ?).
    - intros x Hx. rewrite <-(take_drop k l). apply elem_of_app. by right. }
  destruct Hw as [->|[n ->]]; [done|].
  rewrite <-(take_drop n (drop k l)) in Hs', Hn'. split_and!.
  - by apply StronglySorted_app_1_l in Hs'.
  - rewrite fmap_app in Hn'. by apply list.NoDup_app in Hn' as (? & _ & _).
  - intros x Hx. apply Hin'. rewrite <-(take_drop n (drop k l)).
    apply elem_of_app. by left.
Qed.

(** X16. A listing of notifications shows only stored notifications of the
    user it was asked for, only unread ones when unreadOnly is set, none of
    them twice, the newer before the older, and at most |limit| of them when
    the limit is not 0. *)
Theorem X16_listing_shows_own_newest_first (user : ObjectId) (options : Options)
    (st : State) :
  let l := listedOf (getUserNotifications user options st) in
  Forall (λ kv, notifications st !! kv.1 = Some kv.2 ∧ recipientId kv.2 = user ∧
                (opt_unreadOnly options = Some true → isRead kv.2 = false)) l
  ∧ NoDup l.*1
  ∧ StronglySorted newerFirst l
  ∧ (default 20%Z (opt_limit options) ≠ 0%Z →
     length l ≤ Z.to_nat (Z.abs (default 20%Z (opt_limit options)))).
Proof.
  intros l. unfold l, listedOf, getUserNotifications.
  rewrite bind_run, gets_run, bind_run. unfold lift_result. rewrite findPage_window.
  set (q := matches user (default false (opt_unreadOnly options))).
  set (skip := ((default 1 (opt_page options) - 1) * default 20 (opt_limit options))%Z).
  set (limit := default 20%Z (opt_limit options)).
  destruct (decide (skip < 0)%Z); simpl.
  { split_and!; try constructor. lia. }
  destruct (sortedMatches_facts q (notifications st)) as (Hs & Hn & _ & _ & Hin).
  set (w := if decide (limit = 0%Z) then drop (Z.to_nat skip) (sortedMatches q (notifications st))
            else take (Z.to_nat (Z.abs limit))
                   (drop (Z.to_nat skip) (sortedMatches q (notifications st)))).
  destruct (window_facts newerFirst fst (sortedMatches q (notifications st))
              (Z.to_nat skip) w) as (Hws & Hwn & Hwin); [|done|done|].
  { unfold w. case_decide; [by left|right; by eexists]. }
  split_and!; [|done|done|].
  - apply Forall_forall. intros kv Hkv%list_elem_of_In%Hwin%Hin.
    destruct Hkv as [Hst Hq]. split; [done|].
    unfold q, matches in Hq. apply andb_true_iff in Hq as [Hu Hr].
    apply bool_decide_eq_true in Hu. split; [done|].
    intros Hun. rewrite Hun in Hr. simpl in Hr. by apply negb_true_iff in Hr.
  - intros Hl. unfold w. rewrite decide_False by done. rewrite length_take. lia.
Qed.

Lemma chunks_concat {A} (l : list A) (size n : nat) :
  length l ≤ n * size →
  concat ((λ p, take size (drop ((p - 1) * size) l)) <$> seq 1 n) = l.
Proof.
  revert l. induction n as [|n IH]; intros l Hlen.
  { simpl in Hlen. by destruct l; [|simpl in Hlen; lia]. }
  change (seq 1 (S n)) with (1 :: seq 2 n).
  rewrite fmap_cons. cbn [concat]. change ((1 - 1) * size) with 0.
  cbn [drop].
  transitivity (take size l ++ drop size l); [|apply take_drop]. f_equal.
  rewrite <-(IH (drop size l)) at 1 by (rewrite length_drop; simpl in Hlen; lia).
  f_equal. rewrite <-(fmap_S_seq 1 n), <-list_fmap_compose.
  apply list_fmap_ext. intros i p Hp. apply lookup_seq in Hp as [-> _]. simpl.
  rewrite drop_drop. do 2 f_equal. lia.
Qed.

Lemma strictly_sorted (user : ObjectId) (m : gmap ObjectId t)
    (l : list (ObjectId * t)) :
  distinctTimes user m → StronglySorted newerFirst l → NoDup l.*1 →
  (∀ kv, kv ∈ l → m !! kv.1 = Some kv.2 ∧ recipientId kv.2 = user) →
  StronglySorted strictlyNewer l.
Proof.
  intros Hd Hs. induction Hs as [|x l Hs IH Hx]; intros Hn Hin; [constructor|].
  rewrite fmap_cons in Hn. apply list.NoDup_cons in Hn as [Hx1 Hn].
  constructor.
  - apply IH; [done|]. intros kv Hkv. apply Hin. by right.
  - apply list.Forall_forall. intros y Hy.
    rewrite list.Forall_forall in Hx. pose proof (Hx y Hy) as Hle.
    unfold newerFirst in Hle. unfold strictlyNewer.
    destruct (decide (createdAt y.2 = createdAt x.2)) as [Heq|Hne]; [|lia].
    exfalso. apply Hx1.
    destruct (Hin x) as [Hmx Hux]; [by left|].
    destruct (Hin y) as [Hmy Huy]; [by right|].
    rewrite <-(Hd y.1 x.1 y.2 x.2 Hmy Hmx Huy Hux Heq).
    apply list_elem_of_fmap. by exists y.
Qed.

(** X17. For a positive limit and notifications of the user with pairwise
    different creation times, every page from 1 on is answered, with the
    number of matching notifications as total and its quotient by the limit,
    rounded up, as number of pages; the pages 1 to that number, one after
    the other, list every matching notification exactly once, strictly
    newest first. *)
Theorem X17_pages_partition_the_matches (user : ObjectId) (L : Z) (unread : bool)
    (st : State) :
  (0 < L)%Z →
  distinctTimes user (notifications st) →
  let page (p : nat) :=
    getUserNotifications user
      {| opt_page := Some (Z.of_nat p); opt_limit := Some L;
         opt_unreadOnly := Some unread |} st in
  let matching := countDocuments (matches user unread) (notifications st) in
  ∃ n,
    (matching ≤ n * Z.to_nat L ∧ (n - 1) * Z.to_nat L < matching ∨ matching = 0 ∧ n = 0)
    ∧ (∀ p, 1 ≤ p →
         ∃ listing, page p = (st, inr listing) ∧
                    total (pagination listing) = matching ∧
                    pages (pagination listing) = Some (Z.of_nat n))
    ∧ concat ((λ p, listedOf (page p)) <$> seq 1 n)
      ≡ₚ map_to_list (filter (λ kv, matches user unread kv.2 = true)
                        (notifications st))
    ∧ StronglySorted strictlyNewer (concat ((λ p, listedOf (page p)) <$> seq 1 n)).
Proof.
  intros HL Hdistinct.
  assert (∃ k, L = Z.of_nat k ∧ 0 < k) as (k & -> & Hk)
    by (exists (Z.to_nat L); lia).
  rewrite Nat2Z.id. intros page matching.
  set (q := matches user unread).
  destruct (sortedMatches_facts q (notifications st))
    as (Hsorted & Hnodup & Hlen & Hperm & Hin).
  fold matching in Hlen.
  set (n := Z.to_nat (- ((- Z.of_nat matching) `div` Z.of_nat k))).
  assert (Z.of_nat n = - ((- Z.of_nat matching) `div` Z.of_nat k))%Z as Hn.
  { unfold n. rewrite Z2Nat.id; [done|].
    pose proof (Z.div_mod (- Z.of_nat matching) (Z.of_nat k) ltac:(lia)).
    pose proof (Z.mod_pos_bound (- Z.of_nat matching) (Z.of_nat k) HL). nia. }
  assert (((Z.of_nat matching ≤ Z.of_nat n * Z.of_nat k)%Z ∧
           ((Z.of_nat n - 1) * Z.of_nat k < Z.of_nat matching)%Z ∧ matching ≠ 0)
          ∨ (matching = 0 ∧ n = 0)) as Hbound.
  { pose proof (Z.div_mod (- Z.of_nat matching) (Z.of_nat k) ltac:(lia)).
    pose proof (Z.mod_pos_bound (- Z.of_nat matching) (Z.of_nat k) HL).
    destruct (decide (matching = 0)) as [Hz|Hz].
    - right. split; [done|]. rewrite Hz in Hn. simpl in Hn.
      rewrite Z.div_0_l in Hn by lia. lia.
    - left. split_and!; [nia..|done]. }
  assert (∀ p, 1 ≤ p →
            page p = (st, inr
              {| listed := take (k)
                             (drop ((p - 1) * k)
                                (sortedMatches q (notifications st)));
                 pagination := {| NotificationService.page := Z.of_nat p;
                                  limit := Z.of_nat k; total := matching;
                                  pages := Some (Z.of_nat n) |};
                 unreadCount := countDocuments (matches user true) (notifications st) |}))
    as Hpage.
  { intros p Hp. unfold page, getUserNotifications.
    rewrite bind_run, gets_run, bind_run. unfold lift_result.
    rewrite findPage_window. simpl default.
    rewrite decide_False by nia. rewrite decide_False by lia.
    rewrite ret_run. unfold id. fold q. fold matching. do 3 f_equal.
    - f_equal; [by rewrite Z.abs_eq, Nat2Z.id by lia|]. f_equal.
      rewrite Z2Nat.inj_mul, Nat2Z.id by lia. f_equal. lia.
    - f_equal. unfold Math_ceil_div. rewrite decide_False by lia. by rewrite Hn. }
  assert (concat ((λ p, listedOf (page p)) <$> seq 1 n)
          = sortedMatches q (notifications st)) as Hconcat.
  { rewrite <-(chunks_concat (sortedMatches q (notifications st)) k n).
    - f_equal. apply list_fmap_ext. intros i p Hp.
      apply lookup_seq in Hp as [-> _]. unfold listedOf.
      by rewrite Hpage by lia.
    - rewrite Hlen. change (matching ≤ n * k).
      destruct Hbound as [(H1 & H2 & H3)|[H1 H2]]; nia. }
  exists n. split_and!.
  - destruct Hbound as [(H1 & H2 & H3)|[H1 H2]]; [left|by right].
    split; [nia|]. destruct n as [|j]; [lia|].
    replace (S j - 1) with j by lia. nia.
  - intros p Hp. rewrite (Hpage p Hp). by eexists.
  - by rewrite Hconcat.
  - rewrite Hconcat. apply (strictly_sorted user (notifications st)); try done.
    intros kv Hkv. destruct (Hin kv Hkv) as [Hst Hq]. split; [done|].
    unfold q, matches in Hq. apply andb_true_iff in Hq as [Hu _].
    by apply bool_decide_eq_true in Hu.
Qed.

End listing_more.

(** ** Read state: delete, mark read, unread counts *)

Section read_counts.
Import Notification NotificationModel.

(** X18. DELETE /:id removes the notification with that id when it belongs
    to the caller, and nothing else: every other notification, those of
    other recipients with that id included, stays as it was, and none
    appears. *)
Theorem X18_deleteNotification_touches_own_only (user id : ObjectId) (st : State) :
  let st' := (NotificationRoutes.deleteNotification user id st).1 in
  ∀ k, notifications st' !! k
       = match notifications st !! k with
         | Some n => if decide (k = id ∧ recipientId n = user) then None
                     else Some n
         | None => None
         end.
Proof.
  intros st' k. unfold st', NotificationRoutes.deleteNotification,
    findOneAndDelete, modify. simpl.
  destruct (notifications st !! id) as [m|] eqn:Hid.
  - destruct (decide (recipientId m = user)) as [Hm|Hm].
    + destruct (decide (k = id)) as [->|Hne].
      * rewrite lookup_delete_eq, Hid. by rewrite decide_True.
      * rewrite lookup_delete_ne by done.
        destruct (notifications st !! k); [|done].
        by rewrite decide_False by (by intros [? _]).
    + destruct (notifications st !! k) as [n|] eqn:Hk; [|done].
      rewrite decide_False; [done|]. intros [-> ?]. by simplify_eq.
  - destruct (notifications st !! k) as [n|] eqn:Hk; [|done].
    rewrite decide_False; [done|]. intros [-> ?]. by simplify_eq.
Qed.

Lemma countDocuments_fmap (q : t → bool) (f : t → t) (m : gmap ObjectId t) :
  countDocuments q (f <$> m) = countDocuments (q ∘ f) m.
Proof.
  unfold countDocuments.
  rewrite (map_filter_fmap (λ kv : ObjectId * t, q kv.2 = true) f m).
  by rewrite map_size_fmap.
Qed.

Lemma countDocuments_ext (q q' : t → bool) (m : gmap ObjectId t) :
  (∀ k n, m !! k = Some n → q n = q' n) →
  countDocuments q m = countDocuments q' m.
Proof.
  intros Hq. unfold countDocuments. f_equal. apply map_filter_ext.
  intros k n Hk. simpl. by rewrite (Hq k n Hk).
Qed.

Lemma countDocuments_none (q : t → bool) (m : gmap ObjectId t) :
  (∀ k n, m !! k = Some n → q n = false) → countDocuments q m = 0.
Proof.
  intros Hq. unfold countDocuments.
  assert (filter (λ kv : ObjectId * t, q kv.2 = true) m = ∅) as ->; [|done].
  apply map_empty. intros k. apply map_lookup_filter_None. right.
  intros n Hk. simpl. by rewrite (Hq k n Hk).
Qed.

(** X19. After PATCH /read-all the caller has no unread notification, every
    other user has as many unread notifications as before, and every user
    has as many notifications as before. *)
Theorem X19_markAllRead_clears_own_unread_only (user other : ObjectId) (st : State) :
  let st' := (NotificationRoutes.markAllRead user st).1 in
  countDocuments (matches other true) (notifications st')
  = (if decide (other = user) then 0
     else countDocuments (matches other true) (notifications st))
  ∧ countDocuments (matches other false) (notifications st')
    = countDocuments (matches other false) (notifications st).
Proof.
  intros st'. unfold st', NotificationRoutes.markAllRead, updateMany_read, modify.
  simpl. rewrite !countDocuments_fmap. split.
  - destruct (decide (other = user)) as [->|Hne].
    + apply countDocuments_none. intros k n _. unfold matches, readAll. simpl.
      case_decide as Hd; simpl.
      * by rewrite andb_false_r.
      * destruct (decide (recipientId n = user)) as [Hr|Hr].
        -- destruct (isRead n) eqn:Hread; [by rewrite andb_false_r|].
           by destruct Hd.
        -- by rewrite bool_decide_eq_false_2.
    + apply countDocuments_ext. intros k n _. unfold matches, readAll.
      simpl. case_decide as Hd; [|done]. destruct Hd as [Hr _]. simpl.
      rewrite !bool_decide_eq_false_2 by congruence. done.
  - apply countDocuments_ext. intros k n _. unfold matches, readAll. simpl.
    by case_decide.
Qed.

Lemma countDocuments_split (q : t → bool) (k : ObjectId) (n : t) (m : gmap ObjectId t) :
  m !! k = Some n →
  countDocuments q m = countDocuments q (delete k m) + (if q n then 1 else 0).
Proof.
  intros Hk. rewrite <-(insert_delete_id m k n) at 1 by done.
  unfold countDocuments. rewrite map_filter_insert. simpl.
  destruct (q n) eqn:Hq.
  - rewrite decide_True by done. rewrite map_size_insert_None; [lia|].
    apply map_lookup_filter_None. left. apply lookup_delete_eq.
  - rewrite decide_False by done. rewrite delete_delete_eq. lia.
Qed.

(** X20. PATCH /:id/read on a stored notification lowers the unread count of
    the caller by one when the notification is the caller's and unread, and
    leaves the count as it was otherwise. *)
Theorem X20_markRead_lowers_unread_by_one (user id : ObjectId) (st : State)
    (n : Notification.t) :
  notifications st !! id = Some n →
  let st' := (NotificationRoutes.markRead user id st).1 in
  countDocuments (matches user true) (notifications st')
  + (if decide (recipientId n = user ∧ isRead n = false) then 1 else 0)
  = countDocuments (matches user true) (notifications st).
Proof.
  intros Hn st'. unfold st', NotificationRoutes.markRead.
  rewrite findOneAndUpdate_read_store, Hn.
  destruct (decide (recipientId n = user)) as [Hr|Hr]; cycle 1.
  { rewrite decide_False by (by intros [? _]). lia. }
  simpl. rewrite (countDocuments_split _ id n (notifications st)) by done.
  rewrite (countDocuments_split _ id (set_isRead (now st) n)
             (<[id := set_isRead (now st) n]> (notifications st)))
    by apply lookup_insert_eq.
  rewrite delete_insert_eq. unfold matches. simpl.
  rewrite andb_false_r. rewrite bool_decide_eq_true_2 by done. simpl.
  destruct (isRead n).
  - rewrite decide_False by (by intros [_ ?]). simpl. lia.
  - rewrite decide_True by done. simpl. lia.
Qed.

End read_counts.

(** ** The interest routes of students *)

Section interests.
Import StudentRoutes NotificationService.


Lemma pull_spec (x y : ObjectId) (l : list ObjectId) :
  (y ∈ pull x l ↔ y ≠ x ∧ y ∈ l) ∧ (NoDup l → NoDup (pull x l)).
Proof.
  unfold pull. split; [by rewrite list_elem_of_filter|].
  apply list.NoDup_filter.
Qed.



Lemma findByIdAndUpdate_run (id : ObjectId) (f : Student.t → Student.t) (st : State) :
  findByIdAndUpdate id f st
  = (with_students (alter f id) st, inr (f <$> students st !! id)).
Proof.
  unfold findByIdAndUpdate. rewrite bind_run. unfold modify. rewrite gets_run.
  simpl. rewrite lookup_alter. by rewrite decide_True.
Qed.


(** X22. Unfollowing a university succeeds for an existing student: every
    occurrence of the university leaves the stored interest list, the
    student is no longer among those notifyNewEvent finds for it, and the
    student follows every other university exactly if they did before. *)
Theorem X22_removeInterest_unfollows (user university : ObjectId) (st : State)
    (s : Student.t) :
  students st !! user = Some s →
  let r := removeInterest user university st in
  (∃ answer, r.2 = inr answer)
  ∧ Student.interestedUniversities <$> students r.1 !! user
    = Some (pull university (Student.interestedUniversities s))
  ∧ (user ∉ interestedStudents university (students r.1))
  ∧ (∀ u, u ≠ university →
       (user ∈ interestedStudents u (students r.1)
        ↔ user ∈ interestedStudents u (students st))).
Proof.
  intros Hs r. unfold r, removeInterest.
  rewrite !bind_run, !findByIdAndUpdate_run. rewrite Hs. simpl.
  assert (alter (with_interests (pull university)) user (students st) !! user
          = Some (with_interests (pull university) s)) as Hl
    by (by rewrite lookup_alter, decide_True, Hs by done).
  split_and!.
  - by eexists.
  - by rewrite Hl.
  - rewrite elem_of_interestedStudents. intros (s' & Hs' & Hin).
    rewrite Hl in Hs'. injection Hs' as <-. simpl in Hin.
    apply pull_spec in Hin as [? _]. done.
  - intros u Hu. rewrite !elem_of_interestedStudents. rewrite Hl, Hs.
    split; intros (s' & [= <-] & Hin); eexists; (split; [done|]); simpl in *.
    + by apply pull_spec in Hin as [_ ?].
    + by apply pull_spec.
Qed.


(** X24. When the caller has no student record, the three interest routes
    throw a TypeError (they read interestedUniversities of null) and change
    nothing. *)
Theorem X24_interest_routes_unknown_student (user university : ObjectId) (st : State) :
  students st !! user = None →
  (∃ msg, addInterest user university st = (st, inl (TypeError msg)))
  ∧ (∃ msg, removeInterest user university st = (st, inl (TypeError msg)))
  ∧ (∃ msg, getInterests user st = (st, inl (TypeError msg))).
Proof.
  intros Hs.
  assert (∀ f, with_students (alter f user) st = st) as Hsame.
  { intros f. destruct st as [stu app ev nots nw cu rm em].
    unfold with_students. simpl in *. f_equal.
    apply map_eq; intros k. rewrite lookup_alter.
    case_decide; [subst; by rewrite Hs|done]. }
  unfold addInterest, removeInterest, getInterests.
  rewrite !bind_run, !findByIdAndUpdate_run, gets_run, Hs, !Hsame. simpl.
  split_and!; by eexists.
Qed.

End interests.

(** ** The socket gateway *)

Section sockets.
Context `{Platform} (config : Config).

(** X25. When a user has two sockets and the first disconnects,
    connectedUsers has no entry for the user any more, although the second
    socket is still in the room of the user; the disconnected socket is in
    no room. *)
Theorem X25_socket_second_connection_forgotten (s1 s2 : Socket) (st : State) :
  socket_userId s1 = socket_userId s2 →
  socket_id s1 ≠ socket_id s2 →
  let st' := (SocketConfig.onDisconnect s1
                (SocketConfig.onConnection s2
                   (SocketConfig.onConnection s1 st).1).1).1 in
  connectedUsers st' !! socket_userId s2 = None
  ∧ (UserRoom (socket_userId s2), socket_id s2) ∈ rooms st'
  ∧ (∀ room, (room, socket_id s1) ∉ rooms st').
Proof.
  intros Hu Hid st'. unfold st'. simpl. split_and!.
  - rewrite Hu. apply lookup_delete_eq.
  - apply list_elem_of_filter. split; [simpl; congruence|].
    rewrite !elem_of_app. right. rewrite elem_of_cons. by left.
  - intros room Hin. apply list_elem_of_filter in Hin as [Hne _]. done.
Qed.

(** X26. The socket handshake accepts a non-empty token exactly when
    verifyToken of the HTTP path yields a payload, and then sets userId and
    userType to the id and the role of that payload; otherwise it fails with
    Invalid token. *)
Theorem X26_socket_authenticate_matches_verifyToken (sid token : string) :
  token ≠ "" →
  match (Jwt.verifyToken config token ()).2 with
  | inr (Some payload) =>
      SocketConfig.authenticate config sid (Some token)
      = inr {| socket_id := sid; socket_userId := tp_id payload;
               socket_userType := tp_role payload |}
  | _ => SocketConfig.authenticate config sid (Some token)
         = inl (JsError "Invalid token")
  end.
Proof.
  intros Ht. rewrite verifyToken_run. simpl. unfold SocketConfig.authenticate.
  destruct token as [|c token]; [done|].
  by destruct (jwt_verify (String c token) (jwtSecret config)).
Qed.

End sockets.

(** ** The error middleware *)

Section errors.
Import ErrorMiddleware.
Context (AppError_new : string → nat → Err).

Lemma strOr_nonempty (s : option string) (d : string) : d ≠ "" → strOr s d ≠ "".
Proof. intros Hd. by destruct s as [[|c s]|]. Qed.

Lemma natOr_pos (n : option nat) (d : nat) : 0 < d → 0 < natOr n d.
Proof. intros Hd. destruct n as [[|k]|]; simpl; lia. Qed.

Lemma sendErrorProd_envelope (err : Err) (res : Express.Response) :
  ∃ code status msg,
    sendErrorProd err res = errorResponse code status msg res
    ∧ 0 < code ∧ status ≠ "" ∧ msg ≠ "".
Proof.
  unfold sendErrorProd. destruct (isOperational err).
  - eexists _, _, _. split; [reflexivity|]. split_and!.
    + apply natOr_pos. lia.
    + apply strOr_nonempty. by case_bool_decide.
    + by apply strOr_nonempty.
  - case_bool_decide.
    + eexists 404, _, _. split; [reflexivity|]. split_and!; [lia|done|].
      by apply strOr_nonempty.
    + eexists _, _, _. split; [reflexivity|]. split_and!; [|done..].
      apply natOr_pos. lia.
Qed.

Lemma handleCastErrorDB_error (err : Err) (e : Error) :
  handleCastErrorDB AppError_new err = inl e → ∃ msg, e = TypeError msg.
Proof.
  unfold handleCastErrorDB. destruct (path err); [by case_match|].
  intros [= <-]. by eexists.
Qed.

Lemma handleDuplicateFieldsDB_error (err : Err) (e : Error) :
  handleDuplicateFieldsDB AppError_new err = inl e → ∃ msg, e = TypeError msg.
Proof.
  unfold handleDuplicateFieldsDB. destruct (keyValue err); [done|].
  intros [= <-]. by eexists.
Qed.

Lemma handleValidationErrorDB_error (err : Err) (e : Error) :
  handleValidationErrorDB AppError_new err = inl e → ∃ msg, e = TypeError msg.
Proof.
  unfold handleValidationErrorDB. destruct (errors err); [done|].
  intros [= <-]. by eexists.
Qed.

Lemma codeStartsWithLimit_error (err : Err) (e : Error) :
  codeStartsWithLimit err = inl e → ∃ msg, e = TypeError msg.
Proof.
  unfold codeStartsWithLimit. destruct (code err) as [[n|s]|]; [|done..].
  case_decide; [done|]. intros [= <-]. by eexists.
Qed.

Lemma globalErrorHandler_production (err : Err) (res : Express.Response) :
  (∃ msg, globalErrorHandler AppError_new "production" err res = inl (TypeError msg))
  ∨ (∃ error, globalErrorHandler AppError_new "production" err res
              = inr (Some (sendErrorProd error res))).
Proof.
  unfold globalErrorHandler.
  rewrite bool_decide_eq_false_2 by done. rewrite bool_decide_eq_true_2 by done.
  cbv zeta. set (e := withDefaults err).
  destruct (if bool_decide (name e = "CastError")
            then handleCastErrorDB AppError_new e else inr e) as [x|e1] eqn:H1.
  { left. case_bool_decide; [|done].
    destruct (handleCastErrorDB_error _ _ H1) as [msg ->]. by eexists. }
  destruct (if bool_decide (code e = Some (CodeNum 11000))
            then handleDuplicateFieldsDB AppError_new e else inr e1) as [x|e2] eqn:H2.
  { left. case_bool_decide; [|done].
    destruct (handleDuplicateFieldsDB_error _ _ H2) as [msg ->]. by eexists. }
  destruct (if bool_decide (name e = "ValidationError")
            then handleValidationErrorDB AppError_new e else inr e2) as [x|e3] eqn:H3.
  { left. case_bool_decide; [|done].
    destruct (handleValidationErrorDB_error _ _ H3) as [msg ->]. by eexists. }
  destruct (codeStartsWithLimit e) as [x|limit] eqn:H4.
  { left. destruct (codeStartsWithLimit_error _ _ H4) as [msg ->]. by eexists. }
  right. by eexists.
Qed.

(** X27. The outcomes of the global error handler: in development it answers
    with statusCode || 500 and a body that carries the stack; in production
    it either throws a TypeError of its own or answers with nothing but the
    envelope success: false, a non-empty status and a non-empty message (no
    stack, no error object), under a status code above 0; in any other
    environment it sends no response at all. *)
Theorem X27_globalErrorHandler_outcomes (env : string) (err : Err)
    (res : Express.Response) :
  match globalErrorHandler AppError_new env err res with
  | inr (Some res') =>
      (env = "development"
       ∧ Express.statusCode res' = natOr (statusCode err) 500
       ∧ ∃ o, Express.body res' = Some (JObj o)
              ∧ o !! "stack" = Some (JStr (stack err)))
      ∨ (env = "production"
         ∧ ∃ code status msg,
             res' = errorResponse code status msg res
             ∧ 0 < code ∧ status ≠ "" ∧ msg ≠ "")
  | inr None => env ≠ "development" ∧ env ≠ "production"
  | inl e => env = "production" ∧ ∃ msg, e = TypeError msg
  end.
Proof.
  destruct (decide (env = "development")) as [->|Hd].
  { unfold globalErrorHandler. rewrite bool_decide_eq_true_2 by done. left.
    split; [done|]. split.
    - simpl. by destruct (statusCode err) as [[|k]|].
    - eexists. split; [reflexivity|]. by simplify_map_eq. }
  destruct (decide (env = "production")) as [->|Hp].
  { destruct (globalErrorHandler_production err res) as [[msg ->]|[error ->]].
    - split; [done|]. by eexists.
    - right. split; [done|]. apply sendErrorProd_envelope. }
  unfold globalErrorHandler. by rewrite !bool_decide_eq_false_2 by done.
Qed.

(** X28. In production an error whose code is a number other than 0, such as
    the 11000 of a duplicate key, makes the handler throw a TypeError (a
    number has no startsWith): no response is sent, the 409 of
    handleDuplicateFieldsDB included. *)
Theorem X28_production_numeric_code_throws (err : Err) (res : Express.Response)
    (n : Z) :
  code err = Some (CodeNum n) → n ≠ 0%Z →
  ∃ msg, globalErrorHandler AppError_new "production" err res
         = inl (TypeError msg).
Proof.
  intros Hc Hn. unfold globalErrorHandler.
  rewrite bool_decide_eq_false_2 by done. rewrite bool_decide_eq_true_2 by done.
  cbv zeta. set (e := withDefaults err).
  assert (codeStartsWithLimit e
          = inl (TypeError "err.code.startsWith is not a function")) as H4.
  { unfold codeStartsWithLimit, e. cbn [code withDefaults]. rewrite Hc.
    by rewrite decide_False. }
  rewrite H4.
  destruct (if bool_decide (name e = "CastError")
            then handleCastErrorDB AppError_new e else inr e) as [x|e1] eqn:H1.
  { case_bool_decide; [|done].
    destruct (handleCastErrorDB_error _ _ H1) as [msg ->]. by eexists. }
  destruct (if bool_decide (code e = Some (CodeNum 11000))
            then handleDuplicateFieldsDB AppError_new e else inr e1) as [x|e2] eqn:H2.
  { case_bool_decide; [|done].
    destruct (handleDuplicateFieldsDB_error _ _ H2) as [msg ->]. by eexists. }
  destruct (if bool_decide (name e = "ValidationError")
            then handleValidationErrorDB AppError_new e else inr e2) as [x|e3] eqn:H3.
  { case_bool_decide; [|done].
    destruct (handleValidationErrorDB_error _ _ H3) as [msg ->]. by eexists. }
  by eexists.
Qed.

(** X29. In production an error that is not operational, has no code, is
    none of CastError, ValidationError, JsonWebTokenError and
    TokenExpiredError, and whose status code is not 404, is answered under
    statusCode || 500 with the status error and the fixed message Something
    went wrong. Please try again later.; its own message is not sent. *)
Theorem X29_production_hides_unexpected_errors (err : Err) (res : Express.Response) :
  isOperational err = false →
  name err ∉ ["CastError"; "ValidationError"; "JsonWebTokenError";
              "TokenExpiredError"] →
  code err = None →
  natOr (statusCode err) 500 ≠ 404 →
  globalErrorHandler AppError_new "production" err res
  = inr (Some (errorResponse (natOr (statusCode err) 500) "error"
                 "Something went wrong. Please try again later." res)).
Proof.
  intros Hop Hname Hcode H404. unfold globalErrorHandler.
  rewrite bool_decide_eq_false_2 by done. rewrite bool_decide_eq_true_2 by done.
  cbv zeta. cbn [name code withDefaults].
  rewrite !(bool_decide_eq_false_2 (name err = _)) by (intros Heq; apply Hname; rewrite Heq; set_solver).
  rewrite Hcode. rewrite bool_decide_eq_false_2 by done.
  unfold codeStartsWithLimit. cbn [code withDefaults]. rewrite Hcode.
  unfold sendErrorProd. cbn [isOperational statusCode status withDefaults].
  rewrite Hop.
  assert (natOr (Some (natOr (statusCode err) 500)) 500 = natOr (statusCode err) 500) as ->.
  { by destruct (statusCode err) as [[|k]|]. }
  by rewrite bool_decide_eq_false_2.
Qed.

Section constructor.
Hypothesis AppError_statusCode : ∀ m c, statusCode (AppError_new m c) = Some c.
Hypothesis AppError_message : ∀ m c, message (AppError_new m c) = m.
Hypothesis AppError_isOperational : ∀ m c, isOperational (AppError_new m c) = true.

Lemma sendErrorProd_AppError (m : string) (c : nat) (res : Express.Response) :
  m ≠ "" → 0 < c →
  ∃ status, sendErrorProd (AppError_new m c) res = errorResponse c status m res.
Proof using Type*.
  intros Hm Hc. unfold sendErrorProd.
  rewrite AppError_isOperational, AppError_statusCode, AppError_message.
  eexists. unfold errorResponse, errorBody.
  destruct c as [|c]; [lia|]. destruct m as [|a m]; [done|]. reflexivity.
Qed.

(** X30. Provided new AppError(message, statusCode) builds an operational
    error with that message and status code, a CastError without code is
    answered in production with 404 and '<path> not found' ('Resource not
    found' for _id) when its path is _id, id or contains Id, and with 400
    and 'Invalid <path>: <value>' otherwise. *)
Theorem X30_production_cast_error_is_404_or_400 (err : Err) (res : Express.Response)
    (p : string) :
  name err = "CastError" → path err = Some p → code err = None →
  ∃ status,
    globalErrorHandler AppError_new "production" err res
    = inr (Some (
        if idLike p then
          errorResponse 404 status
            ((if decide (p = "_id") then "Resource" else p) +:+ " not found") res
        else
          errorResponse 400 status ("Invalid " +:+ p +:+ ": " +:+ value err) res)).
Proof using Type*.
  intros Hname Hpath Hcode. unfold globalErrorHandler.
  rewrite bool_decide_eq_false_2 by done. rewrite bool_decide_eq_true_2 by done.
  cbv zeta. cbn [name code withDefaults]. rewrite Hcode, Hname.
  rewrite (bool_decide_eq_false_2 (None = _)) by done.
  unfold codeStartsWithLimit. cbn [code withDefaults]. rewrite Hcode.
  unfold handleCastErrorDB. cbn [path value withDefaults]. rewrite Hpath.
  fold (idLike p). simpl bool_decide. cbv iota.
  destruct (idLike p).
  - cbv iota beta.
    destruct (sendErrorProd_AppError
                ((if bool_decide (p = "_id") then "Resource" else p) +:+ " not found")
                404 res) as [status Hs].
    { case_bool_decide; [done|]. by destruct p. }
    { lia. }
    rewrite Hs. exists status. do 3 f_equal. by rewrite decide_bool_decide.
  - cbv iota beta.
    destruct (sendErrorProd_AppError ("Invalid " +:+ p +:+ ": " +:+ value err)
                400 res) as [status Hs]; [done|lia|].
    rewrite Hs. by exists status.
Qed.

End constructor.
End errors.

(** ** The further properties on sample data *)

Lemma X2_witness :
  let req := Demo.request [("email", "Carol@Example.org");
                           ("password", "s3cretpw"); ("name", "Carol")] in
  emailsUnique Demo.users
  ∧ emailsUnique (@AuthHandlers.signup Demo.platform (Demo.config "production")
                    req Express.freshResponse Demo.users).1.
Proof.
  intros req. split; [exact emailsUnique_users|].
  apply (@X2_signup_keeps_emails_unique Demo.platform). exact emailsUnique_users.
Defined.

Lemma X3_witness :
  let req := Demo.request [("email", " Carol@Example.org");
                           ("password", "s3cretpw"); ("name", " Carol ")] in
  let config := Demo.config "production" in
  ∃ users' account,
    @AuthHandlers.signup Demo.platform config req Express.freshResponse Demo.users
      = (users', inr (@SendToken.sendUserResponse Demo.platform config
                        Express.freshResponse account 201)) ∧
    users' !! UserModel._id account = Some (UserModel.fields account) ∧
    @AuthController.login Demo.platform config req Express.freshResponse users'
      = (users', inr (@SendToken.sendUserResponse Demo.platform config
                        Express.freshResponse account 200)).
Proof.
  intros req config.
  apply (@X3_signup_then_login Demo.platform config req Express.freshResponse
           Express.freshResponse Demo.users
           " Carol@Example.org" "s3cretpw" " Carol ").
  - reflexivity.
  - reflexivity.
  - reflexivity.
  - reflexivity.
  - reflexivity.
  - reflexivity.
  - vm_compute. reflexivity.
  - simpl. lia.
  - vm_compute. lia.
  - intros i u Hi. unfold Demo.users in Hi.
    apply lookup_insert_Some in Hi as [[_ <-]|[_ Hi]]; [discriminate|].
    apply lookup_singleton_Some in Hi as [_ <-]. discriminate.
  - vm_compute. reflexivity.
  - simpl. discriminate.
Defined.

Lemma X6_witness :
  let config := Demo.config "production" in
  let r := @AuthHandlers.googleCallback Demo.platform Sample.oauth config
             Sample.google Sample.callback Express.freshResponse Sample.store in
  UserModel.isActive <$> Demo.users !! 2 = Some false
  ∧ UserModel.googleId <$> Demo.users !! 2 = Some None
  ∧ r.2 = inr (deactivated config Express.freshResponse)
  ∧ Express.cookies (deactivated config Express.freshResponse) = []
  ∧ UserModel.googleId <$> AuthHandlers.accounts r.1 !! 2 = Some (Some "g-108").
Proof.
  intros config r. split; [reflexivity|]. split; [reflexivity|].
  destruct (@X6_googleCallback_deactivated Demo.platform Sample.oauth config
              Sample.google Sample.callback Express.freshResponse Sample.store
              "4/bob"
              {| GoogleAuth.googleId := "g-108";
                 GoogleAuth.gu_email := "bob@example.org";
                 GoogleAuth.gu_name := "Bob"; GoogleAuth.avatar := "" |}
              {| UserModel._id := 2; UserModel.fields := Demo.bob;
                 UserModel.modifiedPaths := [] |})
    as (Hr & Hc & Hg).
  - reflexivity.
  - discriminate.
  - reflexivity.
  - vm_compute. reflexivity.
  - reflexivity.
  - split; [exact Hr|]. split; [exact Hc|]. apply Hg. reflexivity.
Defined.

Lemma X7_witness :
  let config := Demo.config "production" in
  let dana := {| UserModel.email := "dana@example.org";
                 UserModel.passwordHash := None;
                 UserModel.googleId := Some "g-7";
                 UserModel.name := "Dana"; UserModel.bio := "";
                 UserModel.role := "user"; UserModel.isActive := true;
                 UserModel.__v := 0 |} in
  let req := Demo.request [("email", "dana@example.org"); ("password", "guess")] in
  @UserSchema.create Demo.platform "dana@example.org" None (Some "g-7") "Dana"
      Demo.users
    = (<[3 := dana]> Demo.users,
       inr {| UserModel._id := 3; UserModel.fields := dana;
              UserModel.modifiedPaths := [] |})
  ∧ @AuthController.login Demo.platform config req Express.freshResponse
      (<[3 := dana]> Demo.users)
    = (<[3 := dana]> Demo.users, inl (AppError "Invalid credentials" 401)).
Proof.
  intros config dana req.
  assert (@UserSchema.create Demo.platform "dana@example.org" None (Some "g-7")
            "Dana" Demo.users
          = (<[3 := dana]> Demo.users,
             inr {| UserModel._id := 3; UserModel.fields := dana;
                    UserModel.modifiedPaths := [] |})) as Hc
    by (vm_compute; reflexivity).
  split; [exact Hc|].
  apply (@X7_google_account_has_no_password_login Demo.platform config
           "dana@example.org" "g-7" "Dana" "guess" Demo.users
           (<[3 := dana]> Demo.users)
           {| UserModel._id := 3; UserModel.fields := dana;
              UserModel.modifiedPaths := [] |} req Express.freshResponse Hc).
  - reflexivity.
  - reflexivity.
  - discriminate.
Defined.

Lemma X8_witness :
  let req := Sample.asPoet [("name", ""); ("bio", "")] in
  UserModel.bio <$> Sample.poets !! 1 = Some "I write."
  ∧ ∃ u', (@AuthController.updateProfile Demo.platform req Express.freshResponse
             Sample.poets).1
          = <[1 := u']> Sample.poets
          ∧ UserModel.name u' = "Alice" ∧ UserModel.bio u' = ""
          ∧ UserModel.email u' = "alice@example.org".
Proof.
  intros req. split; [reflexivity|].
  destruct (@X8_updateProfile_empty_name_kept_empty_bio_stored Demo.platform req
              Express.freshResponse Sample.poets
              {| UserModel._id := 1; UserModel.fields := Sample.poet;
                 UserModel.modifiedPaths := [] |} Sample.poet "")
    as (u' & Hrun & Hname & Hbio & Hemail & _).
  - reflexivity.
  - reflexivity.
  - reflexivity.
  - reflexivity.
  - simpl. lia.
  - exists u'. split; [exact Hrun|]. split; [exact Hname|].
    split; [exact Hbio|exact Hemail].
Defined.

Lemma X9_witness :
  let req := Sample.asAlice [("name", "A"); ("bio", "Hello")] in
  ∃ path, @AuthController.updateProfile Demo.platform req Express.freshResponse
            Demo.users
          = (Demo.users, inl (ValidationError path)).
Proof.
  intros req.
  apply (@X9_updateProfile_invalid_name_saves_nothing Demo.platform req
           Express.freshResponse Demo.users
           {| UserModel._id := 1; UserModel.fields := Demo.alice;
              UserModel.modifiedPaths := [] |} Demo.alice "A").
  - reflexivity.
  - reflexivity.
  - reflexivity.
  - discriminate.
  - reflexivity.
  - vm_compute. discriminate.
  - left. vm_compute. lia.
Defined.

Lemma X11_witness :
  let r := ApplicationController.updateApplicationStatus 0 "pending" Demo.state in
  Application.status <$> applications Demo.state !! 0 = Some "accepted"
  ∧ Application.status <$> applications r.1 !! 0 = Some "pending"
  ∧ notifications r.1 = notifications Demo.state
  ∧ emitted r.1 = [].
Proof.
  intros r. split; [reflexivity|].
  destruct (X11_updateApplicationStatus_pending_is_silent 0 Demo.state
              {| Application.eventId := 5; Application.studentId := 1;
                 Application.status := "accepted" |})
    as (_ & Ha & Hn & He); [reflexivity|].
  split; [|split; [exact Hn|exact He]].
  fold r in Ha. rewrite Ha. rewrite lookup_insert_eq. reflexivity.
Defined.

Lemma X12_witness :
  let r := ApplicationController.updateApplicationStatus 0 "rejected"
             Sample.orphaned in
  (∃ msg, r.2 = inl (TypeError msg))
  ∧ Application.status <$> applications r.1 !! 0 = Some "rejected"
  ∧ notifications r.1 = notifications Sample.orphaned
  ∧ emitted r.1 = [].
Proof.
  intros r.
  destruct (X12_updateApplicationStatus_event_gone 0 "rejected" Sample.orphaned
              {| Application.eventId := 5; Application.studentId := 1;
                 Application.status := "accepted" |})
    as (Hr & Ha & Hn & He).
  - reflexivity.
  - right. reflexivity.
  - reflexivity.
  - split; [exact Hr|]. split; [|split; [exact Hn|exact He]].
    fold r in Ha. rewrite Ha. rewrite lookup_insert_eq. reflexivity.
Defined.

Lemma X13_witness :
  ∃ nid doc st',
    (ApplicationController.updateApplicationStatus 0 "rejected" Demo.state).1 = st'
    ∧ notifications st' = <[nid := doc]> (notifications Demo.state)
    ∧ notifications Demo.state !! nid = None
    ∧ Notification.recipientId doc = 1
    ∧ Notification.type doc = "application_rejected"
    ∧ emitted st' = [(UserRoom 1, (nid, doc))].
Proof.
  destruct (X13_updateApplicationStatus_notifies_student 0 "rejected" Demo.state
              {| Application.eventId := 5; Application.studentId := 1;
                 Application.status := "accepted" |}
              {| Event.title := "Open day"; Event.universityId := 7 |})
    as (nid & doc & st' & Hrun & _ & Hfresh & Hn & Hem & Hr & _ & Ht & _).
  - reflexivity.
  - right. reflexivity.
  - reflexivity.
  - simpl. lia.
  - exists nid, doc, st'. rewrite Hrun. repeat split; assumption.
Defined.

Lemma X14_witness :
  let application := (0, {| Application.eventId := 5; Application.studentId := 1;
                            Application.status := "pending" |}) in
  let student := (1, {| Student.name := "Ana";
                        Student.interestedUniversities := [7] |}) in
  let event := (5, {| Event.title := "Open day"; Event.universityId := 7 |}) in
  ∃ nid doc st',
    NotificationService.notifyNewApplication application student event Demo.state
      = (st', inr (nid, doc))
    ∧ notifications st' = <[nid := doc]> (notifications Demo.state)
    ∧ Notification.recipientId doc = 7
    ∧ Notification.applicationId (Notification.data doc) = Some 0
    ∧ emitted st' = [(UserRoom 7, (nid, doc))].
Proof.
  intros application student event.
  destruct (X14_notifyNewApplication_one_for_university application student event
              Demo.state)
    as (nid & doc & st' & Hrun & _ & Hn & Hem & Hr & _ & _ & _ & Ha & _).
  - simpl. lia.
  - exists nid, doc, st'. repeat split; assumption.
Defined.

Lemma X15_witness :
  let event := (8, {| Event.title := "Open day"; Event.universityId := 7 |}) in
  let r := NotificationService.notifyNewEvent event Demo.university Demo.state in
  ∃ created,
    r.2 = inr created
    ∧ (λ c : ObjectId * Notification.t, Notification.recipientId c.2) <$> created
      = [1]
    ∧ emitted r.1
      = (λ c, (UserRoom (Notification.recipientId c.2), c)) <$> created.
Proof.
  intros event r.
  destruct (X15_notifyNewEvent_pushes_what_it_stores event Demo.university Demo.state)
    as (created & Hr & Hids & _ & Hem).
  - vm_compute. lia.
  - exists created. split; [exact Hr|]. split; [exact Hids|exact Hem].
Defined.

Lemma distinctTimes_inbox : distinctTimes 2 (notifications Sample.inbox).
Proof.
  intros i j a b Hi Hj Ha Hb Ht. unfold Sample.inbox in *. simpl in *.
  repeat (apply lookup_insert_Some in Hi as [[<- <-]|[_ Hi]];
          [|try apply lookup_singleton_Some in Hi as [<- <-]]);
  repeat (apply lookup_insert_Some in Hj as [[<- <-]|[_ Hj]];
          [|try apply lookup_singleton_Some in Hj as [<- <-]]);
  first [done | discriminate].
Qed.

Lemma X16_witness :
  let options := {| NotificationService.opt_page := None;
                    NotificationService.opt_limit := Some 1%Z;
                    NotificationService.opt_unreadOnly := Some true |} in
  let l := listedOf (NotificationService.getUserNotifications 2 options
                       Demo.state) in
  l = [(3, Demo.note 2 false)] ∧ length l ≤ 1.
Proof.
  intros options l. split; [reflexivity|].
  destruct (X16_listing_shows_own_newest_first 2 options Demo.state)
    as (_ & _ & _ & Hlen).
  apply Hlen. simpl. lia.
Defined.

Lemma X17_witness :
  let page (p : nat) :=
    NotificationService.getUserNotifications 2
      {| NotificationService.opt_page := Some (Z.of_nat p);
         NotificationService.opt_limit := Some 2%Z;
         NotificationService.opt_unreadOnly := Some false |} Sample.inbox in
  listedOf (page 1) = [(5, Sample.noteAt 2 false 30); (4, Sample.noteAt 2 true 20)]
  ∧ listedOf (page 2) = [(3, Sample.noteAt 2 false 10)]
  ∧ ∃ n, n = 2
      ∧ (∀ p, 1 ≤ p →
           ∃ listing, page p = (Sample.inbox, inr listing) ∧
                      NotificationService.total
                        (NotificationService.pagination listing) = 3 ∧
                      NotificationService.pages
                        (NotificationService.pagination listing)
                      = Some (Z.of_nat n))
      ∧ concat ((λ p, listedOf (page p)) <$> seq 1 n)
        ≡ₚ map_to_list (filter (λ kv, NotificationModel.matches 2 false kv.2 = true)
                          (notifications Sample.inbox))
      ∧ StronglySorted strictlyNewer
          (concat ((λ p, listedOf (page p)) <$> seq 1 n)).
Proof.
  intros page. split; [reflexivity|]. split; [reflexivity|].
  assert (NotificationModel.countDocuments (NotificationModel.matches 2 false)
            (notifications Sample.inbox) = 3) as Hcount by reflexivity.
  destruct (X17_pages_partition_the_matches 2 2 false Sample.inbox)
    as (n & Hbound & Hpages & Hperm & Hsorted).
  - lia.
  - exact distinctTimes_inbox.
  - rewrite Hcount in Hbound, Hpages. exists n.
    split; [|split; [exact Hpages|split; [exact Hperm|exact Hsorted]]].
    change (Z.to_nat 2) with 2 in Hbound. lia.
Defined.

Lemma X20_witness :
  let st' := (NotificationRoutes.markRead 2 3 Demo.state).1 in
  NotificationModel.countDocuments (NotificationModel.matches 2 true)
    (notifications st') + 1
  = NotificationModel.countDocuments (NotificationModel.matches 2 true)
      (notifications Demo.state).
Proof.
  intros st'.
  exact (X20_markRead_lowers_unread_by_one 2 3 Demo.state (Demo.note 2 false)
           eq_refl).
Defined.


Lemma X22_witness :
  let r := StudentRoutes.removeInterest 1 7 Demo.state in
  1 ∈ NotificationService.interestedStudents 7 (students Demo.state)
  ∧ Student.interestedUniversities <$> students r.1 !! 1 = Some []
  ∧ 1 ∉ NotificationService.interestedStudents 7 (students r.1).
Proof.
  intros r.
  destruct (X22_removeInterest_unfollows 1 7 Demo.state
              {| Student.name := "Ana"; Student.interestedUniversities := [7] |})
    as (_ & Hr & Hout & _); [reflexivity|].
  split; [|split; [exact Hr|exact Hout]].
  vm_compute. left.
Defined.


Lemma X24_witness :
  (∃ msg, StudentRoutes.addInterest 9 7 Demo.state
          = (Demo.state, inl (TypeError msg)))
  ∧ (∃ msg, StudentRoutes.removeInterest 9 7 Demo.state
            = (Demo.state, inl (TypeError msg)))
  ∧ (∃ msg, StudentRoutes.getInterests 9 Demo.state
            = (Demo.state, inl (TypeError msg))).
Proof.
  apply (X24_interest_routes_unknown_student 9 7 Demo.state). reflexivity.
Defined.

Lemma X25_witness :
  let st' := (SocketConfig.onDisconnect (Demo.socket 1)
                (SocketConfig.onConnection (Sample.secondSocket 1)
                   (SocketConfig.onConnection (Demo.socket 1) Demo.state).1).1).1 in
  connectedUsers st' !! 1 = None
  ∧ (UserRoom 1, "sock2") ∈ rooms st'.
Proof.
  intros st'.
  destruct (X25_socket_second_connection_forgotten (Demo.socket 1)
              (Sample.secondSocket 1) Demo.state)
    as (Hc & Hr & _).
  - reflexivity.
  - simpl. discriminate.
  - split; [exact Hc|exact Hr].
Defined.

Lemma X26_witness :
  @SocketConfig.authenticate Demo.platform (Demo.config "production") "sock"
    (Some "s3cret.user.user")
  = inr (Demo.socket 1)
  ∧ @SocketConfig.authenticate Demo.platform (Demo.config "production") "sock"
      (Some "forged")
    = inl (JsError "Invalid token").
Proof.
  split.
  - apply (@X26_socket_authenticate_matches_verifyToken Demo.platform
             (Demo.config "production") "sock" "s3cret.user.user").
    discriminate.
  - apply (@X26_socket_authenticate_matches_verifyToken Demo.platform
             (Demo.config "production") "sock" "forged").
    discriminate.
Defined.

Lemma X28_witness :
  ∃ msg, ErrorMiddleware.globalErrorHandler Sample.appError "production"
           Sample.duplicateKey Express.freshResponse
         = inl (TypeError msg).
Proof.
  apply (X28_production_numeric_code_throws Sample.appError Sample.duplicateKey
           Express.freshResponse 11000).
  - reflexivity.
  - lia.
Defined.

Lemma X29_witness :
  ErrorMiddleware.globalErrorHandler Sample.appError "production" Sample.crash
    Express.freshResponse
  = inr (Some (errorResponse 500 "error"
                 "Something went wrong. Please try again later."
                 Express.freshResponse)).
Proof.
  apply (X29_production_hides_unexpected_errors Sample.appError Sample.crash
           Express.freshResponse).
  - reflexivity.
  - apply (bool_decide_unpack _). vm_compute. exact I.
  - reflexivity.
  - simpl. lia.
Defined.

Lemma X30_witness :
  ∃ status,
    ErrorMiddleware.globalErrorHandler Sample.appError "production"
      (Sample.castError "eventId" "xyz") Express.freshResponse
    = inr (Some (errorResponse 404 status "eventId not found"
                   Express.freshResponse)).
Proof.
  apply (X30_production_cast_error_is_404_or_400 Sample.appError
           (λ _ _, eq_refl) (λ _ _, eq_refl) (λ _ _, eq_refl)
           (Sample.castError "eventId" "xyz") Express.freshResponse "eventId").
  - reflexivity.
  - reflexivity.
  - reflexivity.
Defined.
